(** * Constellation1 RESO MCP server: a shallow embedding and its properties

    The Go program is a JSON-RPC gateway in six packages: [config]
    (credentials and endpoints), [auth] (the OAuth2 client-credentials token
    cache), [api] (entity catalog and the query call), [metadata] (the
    service's metadata document), [tools] (the [reso_query] and [reso_help]
    tools) and [main] (settings capture, message dispatch and the read
    loop).  Each package is a module below; the
    definitions follow the Go functions statement by statement.  Library
    code the program calls but does not contain (JSON decoding, URL parsing,
    the network, the clock, the file system) enters either as a method of a
    type class or as an oracle field of [World]. *)

From Stdlib Require Import ZArith String Ascii List Lia.
From Stdlib Require Import DecimalString DecimalPos DecimalZ.
From Stdlib Require Import Floats.SpecFloat.
From stdpp Require Import base option gmap strings list sorting.

#[local] Set Warnings "-register-all".
#[local] Open Scope string_scope.
#[local] Open Scope Z_scope.

(* ================================================================== *)
(** ** Go values, integers, strings *)
(* ================================================================== *)

Module gort.

(** Go's [int] on the released targets (darwin/arm64, linux/amd64) is a
    64-bit two's-complement integer; it is carried as a [Z] and arithmetic
    that can leave the range is wrapped with [wrap64]. *)
Definition minInt64 : Z := - 2 ^ 63.
Definition maxInt64 : Z := 2 ^ 63 - 1.

Definition in_int64 (z : Z) : bool := (minInt64 <=? z) && (z <=? maxInt64).

Definition wrap64 (z : Z) : Z := (z + 2 ^ 63) mod 2 ^ 64 - 2 ^ 63.

(** [error] values are carried by their message; [result] is the Go pair
    [(value, err)] with exactly one side meaningful. *)
Inductive result (A : Type) : Type :=
  | Ok (a : A)
  | Err (msg : string).
Arguments Ok {A} a.
Arguments Err {A} msg.

Definition is_err {A} (r : result A) : bool :=
  match r with Ok _ => false | Err _ => true end.

(** A dynamically typed value, as [interface{}] holds it.  [encoding/json]
    produces only [VNil], [VBool], [VFloat64], [VString], [VSlice] and
    [VMap]; [VInt] is a Go [int] stored by Go code. *)
Inductive GoValue : Type :=
  | VNil
  | VBool (b : bool)
  | VFloat64 (f : spec_float)
  | VInt (n : Z)
  | VString (s : string)
  | VSlice (l : list GoValue)
  | VMap (m : gmap string GoValue).

(** Type assertions [v.(string)], [v.(bool)], [v.(map[string]interface{})]
    on the result of a map index; a missing key indexes to the nil
    interface, on which every assertion fails. *)
Definition assertString (v : option GoValue) : option string :=
  match v with Some (VString s) => Some s | _ => None end.

Definition assertBool (v : option GoValue) : option bool :=
  match v with Some (VBool b) => Some b | _ => None end.

Definition assertMap (v : option GoValue) : option (gmap string GoValue) :=
  match v with Some (VMap m) => Some m | _ => None end.

(** [m[k] == nil] for a [map[string]interface{}]. *)
Definition indexIsNil (m : gmap string GoValue) (k : string) : bool :=
  match m !! k with None | Some VNil => true | Some _ => false end.

(** *** strconv.Itoa and the %d verb *)
Definition Itoa (n : Z) : string := NilZero.string_of_int (Z.to_int n).

(** *** strconv.Atoi

    An optional sign, then one or more decimal digits, and the value must
    fit an [int]; every failure is an error, and the callers only look at
    [err == nil]. *)
Definition digitValue (c : ascii) : option Z :=
  let n := Z.of_nat (nat_of_ascii c) in
  if (48 <=? n) && (n <=? 57) then Some (n - 48) else None.

Fixpoint parseDigits (acc : Z) (s : string) : option Z :=
  match s with
  | EmptyString => Some acc
  | String c s' =>
      match digitValue c with
      | Some d => parseDigits (acc * 10 + d) s'
      | None => None
      end
  end.

Definition Atoi (s : string) : option Z :=
  let '(neg, body) :=
    match s with
    | String "-"%char r => (true, r)
    | String "+"%char r => (false, r)
    | _ => (false, s)
    end in
  match body with
  | EmptyString => None
  | _ =>
      match parseDigits 0 body with
      | Some n =>
          let v := if neg then - n else n in
          if in_int64 v then Some v else None
      | None => None
      end
  end.

(** *** Conversion float64 -> int

    Truncation toward zero.  A [spec_float] [S754_finite s m e] denotes
    [(-1)^s * m * 2^e]; [Z.shiftl] with a negative amount shifts right. *)
Definition float64Trunc (f : spec_float) : option Z :=
  match f with
  | S754_zero _ => Some 0
  | S754_finite s m e =>
      let mag := Z.shiftl (Z.pos m) e in
      Some (if s then - mag else mag)
  | S754_infinity _ | S754_nan => None
  end.

(** *** strings.TrimSpace

    Go trims every leading and trailing rune with [unicode.IsSpace]: the six
    ASCII characters, U+0085, U+00A0, U+1680, U+2000..U+200A, U+2028,
    U+2029, U+202F, U+205F and U+3000.  A Go string is a byte sequence; a
    rune is recognised by its UTF-8 encoding. *)
Definition byteOf (c : ascii) : Z := Z.of_nat (nat_of_ascii c).

Definition isAsciiSpace (c : ascii) : bool :=
  let b := byteOf c in
  ((9 <=? b) && (b <=? 13)) || (b =? 32).

Definition isSpace2 (b1 b2 : Z) : bool :=
  (b1 =? 194) && ((b2 =? 133) || (b2 =? 160)).

Definition isSpace3 (b1 b2 b3 : Z) : bool :=
  ((b1 =? 225) && (b2 =? 154) && (b3 =? 128))
  || ((b1 =? 226) && (b2 =? 128)
        && (((128 <=? b3) && (b3 <=? 138)) || (b3 =? 168) || (b3 =? 169) || (b3 =? 175)))
  || ((b1 =? 226) && (b2 =? 129) && (b3 =? 159))
  || ((b1 =? 227) && (b2 =? 128) && (b3 =? 128)).

Fixpoint trimLeftSpace (s : list ascii) : list ascii :=
  match s with
  | c1 :: r1 =>
      if isAsciiSpace c1 then trimLeftSpace r1
      else
        match r1 with
        | c2 :: r2 =>
            if isSpace2 (byteOf c1) (byteOf c2) then trimLeftSpace r2
            else
              match r2 with
              | c3 :: r3 =>
                  if isSpace3 (byteOf c1) (byteOf c2) (byteOf c3)
                  then trimLeftSpace r3 else s
              | [] => s
              end
        | [] => s
        end
  | [] => []
  end.

(** The same scan from the end, on the reversed bytes: the last byte of an
    encoding comes first. *)
Fixpoint trimRightSpaceRev (s : list ascii) : list ascii :=
  match s with
  | c1 :: r1 =>
      if isAsciiSpace c1 then trimRightSpaceRev r1
      else
        match r1 with
        | c2 :: r2 =>
            if isSpace2 (byteOf c2) (byteOf c1) then trimRightSpaceRev r2
            else
              match r2 with
              | c3 :: r3 =>
                  if isSpace3 (byteOf c3) (byteOf c2) (byteOf c1)
                  then trimRightSpaceRev r3 else s
              | [] => s
              end
        | [] => s
        end
  | [] => []
  end.

Definition TrimSpace (s : string) : string :=
  string_of_list_ascii
    (rev (trimRightSpaceRev (rev (trimLeftSpace (list_ascii_of_string s))))).

End gort.

Export gort.

(* ================================================================== *)
(** ** Package config *)
(* ================================================================== *)

Module config.

Record Config : Type := mkConfig {
  ClientID : string;
  ClientSecret : string;
  AuthURL : string;
  BaseURL : string
}.

Definition DefaultConfig : Config :=
  {| ClientID := ""; ClientSecret := "";
     AuthURL := "https://authenticate.constellation1apis.com/oauth2/token";
     BaseURL := "https://listings.cdatalabs.com/odata" |}.

Definition setClientID (c : Config) (v : string) : Config :=
  {| ClientID := v; ClientSecret := ClientSecret c;
     AuthURL := AuthURL c; BaseURL := BaseURL c |}.

Definition setClientSecret (c : Config) (v : string) : Config :=
  {| ClientID := ClientID c; ClientSecret := v;
     AuthURL := AuthURL c; BaseURL := BaseURL c |}.

Definition setAuthURL (c : Config) (v : string) : Config :=
  {| ClientID := ClientID c; ClientSecret := ClientSecret c;
     AuthURL := v; BaseURL := BaseURL c |}.

Definition setBaseURL (c : Config) (v : string) : Config :=
  {| ClientID := ClientID c; ClientSecret := ClientSecret c;
     AuthURL := AuthURL c; BaseURL := v |}.

(** [if v, ok := m[k].(string); ok && v != "" { c.f = v }] *)
Definition nonEmptyStringAt (m : gmap string GoValue) (k : string) : option string :=
  match assertString (m !! k) with
  | Some s => if String.eqb s "" then None else Some s
  | None => None
  end.

(** [LoadFromMCPSettings]: a nil map is the only error; credentials are
    not required here.  The receiver is returned with the error. *)
Definition LoadFromMCPSettings (c : Config) (settings : option (gmap string GoValue))
  : Config * option string :=
  match settings with
  | None => (c, Some "no settings provided")
  | Some m =>
      let c1 := match nonEmptyStringAt m "client_id" with
                | Some v => setClientID c v | None => c end in
      let c2 := match nonEmptyStringAt m "client_secret" with
                | Some v => setClientSecret c1 v | None => c1 end in
      (c2, None)
  end.

(** [os.Getenv]: the empty string for an unset variable. *)
Definition Getenv (env : gmap string string) (k : string) : string :=
  default "" (env !! k).

Definition overrideFromEnv (env : gmap string string) (k : string)
  (set : Config -> string -> Config) (c : Config) : Config :=
  let v := Getenv env k in
  if String.eqb v "" then c else set c v.

Definition LoadFromEnv (env : gmap string string) (c : Config) : Config :=
  let c := overrideFromEnv env "RESO_CLIENT_ID" setClientID c in
  let c := overrideFromEnv env "RESO_CLIENT_SECRET" setClientSecret c in
  let c := overrideFromEnv env "RESO_AUTH_URL" setAuthURL c in
  overrideFromEnv env "RESO_BASE_URL" setBaseURL c.

Definition ValidateCredentials (c : Config) : option string :=
  if String.eqb (ClientID c) "" then
    Some "client_id is required - please configure in MCP settings"
  else if String.eqb (ClientSecret c) "" then
    Some "client_secret is required - please configure in MCP settings"
  else None.

Definition Validate (c : Config) : option string :=
  if String.eqb (ClientID c) "" then Some "client_id is required"
  else if String.eqb (ClientSecret c) "" then Some "client_secret is required"
  else if String.eqb (AuthURL c) "" then Some "auth_url is required"
  else if String.eqb (BaseURL c) "" then Some "base_url is required"
  else None.

End config.

(* ================================================================== *)
(** ** The outside world *)
(* ================================================================== *)

(** What one HTTP exchange can come to, as the callers tell the cases
    apart: [Do] fails; the body cannot be read to its end; or a status, the
    [Content-Encoding] header and the body bytes arrive. *)
Inductive HttpOutcome : Type :=
  | DoFails (e : string)
  | ReadFails (e : string)
  | Response (status : Z) (contentEncoding body : string).

(** Outgoing requests, in the order they are sent. *)
Inductive Event : Type :=
  | EvAuthPost (authURL basic form : string)
  | EvApiGet (url bearer : string).

(** The clock and the network are oracles read in sequence: the [n]-th
    call of [time.Now] returns [w_clock n], the [n]-th HTTP exchange comes
    to [w_http n].  [w_trace] records the requests sent, newest first;
    [w_files] is the file system as [os.Stat], [os.ReadFile] and
    [os.WriteFile] see it ([w_writable]: whether a write succeeds). *)
Record World : Type := mkWorld {
  w_clock : nat -> Z;
  w_reads : nat;
  w_http : nat -> HttpOutcome;
  w_trace : list Event;
  w_files : gmap string string;
  w_writable : bool
}.

Definition Now (w : World) : Z * World :=
  (w_clock w (w_reads w),
   {| w_clock := w_clock w; w_reads := S (w_reads w); w_http := w_http w;
      w_trace := w_trace w; w_files := w_files w; w_writable := w_writable w |}).

Definition httpDo (ev : Event) (w : World) : HttpOutcome * World :=
  (w_http w (length (w_trace w)),
   {| w_clock := w_clock w; w_reads := w_reads w; w_http := w_http w;
      w_trace := ev :: w_trace w; w_files := w_files w; w_writable := w_writable w |}).

Definition writeFile (path content : string) (w : World) : World :=
  if w_writable w then
    {| w_clock := w_clock w; w_reads := w_reads w; w_http := w_http w;
       w_trace := w_trace w; w_files := <[path := content]> (w_files w);
       w_writable := w_writable w |}
  else w.

(** Number of requests sent to the authentication endpoint. *)
Definition isAuthPost (ev : Event) : bool :=
  match ev with EvAuthPost _ _ _ => true | EvApiGet _ _ => false end.

Definition authExchanges (w : World) : nat :=
  length (filter (fun ev => isAuthPost ev = true) (w_trace w)).

(* ================================================================== *)
(** ** Library functions used by several packages *)
(* ================================================================== *)

Module lib.

(** What the Go runtime and standard library decide and the program only
    consumes.  [float64ToIntOutOfRange]: the conversion [int(v)] of a NaN,
    an infinity or a value outside the [int] range is implementation
    dependent.  [newRequestError]: [http.NewRequest] fails on a method or
    URL it cannot parse.  [gunzip]: [gzip.NewReader] followed by
    [io.ReadAll]; the outer error is the reader's, the inner the read's. *)
Class GoRuntime : Type := {
  float64ToIntOutOfRange : spec_float -> Z;
  newRequestError : string -> string -> option string;
  base64Encode : string -> string;
  gunzip : string -> result (result string)
}.

(** [int(v)] for a [float64] [v]. *)
Definition float64ToInt `{GoRuntime} (f : spec_float) : Z :=
  match float64Trunc f with
  | Some z => if in_int64 z then z else wrap64 (float64ToIntOutOfRange f)
  | None => wrap64 (float64ToIntOutOfRange f)
  end.

(** [strings.Contains] *)
Fixpoint Contains (s sub : string) : bool :=
  String.prefix sub s
  || match s with
     | EmptyString => false
     | String _ r => Contains r sub
     end.

(** [url.QueryEscape]: letters, digits and [-_.~] stay, a space becomes
    [+], every other byte becomes [%XX] in upper-case hexadecimal. *)
Definition isUnreserved (c : ascii) : bool :=
  let b := byteOf c in
  ((48 <=? b) && (b <=? 57)) || ((65 <=? b) && (b <=? 90))
  || ((97 <=? b) && (b <=? 122))
  || (b =? 45) || (b =? 95) || (b =? 46) || (b =? 126).

Definition upperHex (n : Z) : ascii :=
  ascii_of_nat (Z.to_nat (if n <? 10 then 48 + n else 55 + n)).

Fixpoint QueryEscape (s : string) : string :=
  match s with
  | EmptyString => EmptyString
  | String c r =>
      if isUnreserved c then String c (QueryEscape r)
      else if byteOf c =? 32 then String "+"%char (QueryEscape r)
      else String "%"%char
             (String (upperHex (byteOf c / 16))
                (String (upperHex (byteOf c mod 16)) (QueryEscape r)))
  end.

(** [url.Values]: [Set] replaces the values of a key by one value;
    [Encode] writes [key=value] pairs, keys in byte order, joined by [&]. *)
Abbreviation Values := (gmap string (list string)).

Definition Set_ (v : Values) (key value : string) : Values :=
  <[key := [value]]> v.

Definition keyLe (a b : string) : Prop := String.leb a b = true.

#[global] Instance keyLe_dec : RelDecision keyLe :=
  fun a b => decide (String.leb a b = true).

Definition sortedKeys (v : Values) : list string :=
  merge_sort keyLe (map fst (map_to_list v)).

Definition encodePairs (v : Values) : list string :=
  flat_map
    (fun k => map (fun x => QueryEscape k +:+ "=" +:+ QueryEscape x) (v !!! k))
    (sortedKeys v).

Fixpoint joinAmp (l : list string) : string :=
  match l with
  | [] => ""
  | [x] => x
  | x :: r => x +:+ "&" +:+ joinAmp r
  end.

Definition Encode (v : Values) : string := joinAmp (encodePairs v).

(** One nanosecond is the unit of [time.Time] and [time.Duration] here;
    a [time.Time] is its offset from the Unix epoch. *)
Definition Second : Z := 1000000000.

(** The zero [time.Time], January 1 of year 1. *)
Definition zeroTime : Z := - 62135596800 * Second.

End lib.

Export lib.

(* ================================================================== *)
(** ** Package auth *)
(* ================================================================== *)

Module auth.

Record TokenResponse : Type := mkTokenResponse {
  AccessToken : string;
  ExpiresIn : Z;
  TokenType : string
}.

(** The [sync.RWMutex] field has no state of its own between calls and is
    modelled where goroutines interleave ([Module gettoken] below); the
    [http.Client] with its 30 s timeout is the network oracle. *)
Record OAuthClient : Type := mkOAuthClient {
  clientID : string;
  clientSecret : string;
  authURL : string;
  token : option TokenResponse;
  tokenExpiry : Z
}.

(** [json.Unmarshal(body, &tokenResp)] *)
Class TokenCodec : Type := {
  parseTokenResponse : string -> result TokenResponse
}.

Definition NewOAuthClient (id secret url : string) : OAuthClient :=
  {| clientID := id; clientSecret := secret; authURL := url;
     token := None; tokenExpiry := zeroTime |}.

(** [c.token != nil && now.Before(c.tokenExpiry)], giving the token. *)
Definition cachedToken (c : OAuthClient) (now : Z) : option string :=
  match token c with
  | Some t => if now <? tokenExpiry c then Some (AccessToken t) else None
  | None => None
  end.

(** The same test as the program runs it: [time.Now] is called only when
    [c.token != nil]. *)
Definition checkCache (c : OAuthClient) (w : World) : option string * World :=
  match token c with
  | Some t =>
      let '(now, w1) := Now w in
      (if now <? tokenExpiry c then Some (AccessToken t) else None, w1)
  | None => (None, w)
  end.

(** The request [refreshToken] builds. *)
Definition basicCredentials `{GoRuntime} (c : OAuthClient) : string :=
  base64Encode (clientID c +:+ ":" +:+ clientSecret c).

Definition formData (c : OAuthClient) : Values :=
  Set_ (Set_ ∅ "grant_type" "client_credentials") "client_id" (clientID c).

Definition authRequest `{GoRuntime} (c : OAuthClient) : Event :=
  EvAuthPost (authURL c) ("Basic " +:+ basicCredentials c) (Encode (formData c)).

(** From [resp, err := c.httpClient.Do(req)] to the parsed token. *)
Definition decodeAuthOutcome `{TokenCodec} (o : HttpOutcome) : result TokenResponse :=
  match o with
  | DoFails e => Err ("failed to make request: " +:+ e)
  | ReadFails e => Err ("failed to read response: " +:+ e)
  | Response status _ body =>
      if negb (status =? 200) then
        Err ("authentication failed with status " +:+ Itoa status +:+ ": " +:+ body)
      else
        match parseTokenResponse body with
        | Err e => Err ("failed to parse token response: " +:+ e)
        | Ok t => Ok t
        end
  end.

(** [time.Duration(tokenResp.ExpiresIn-60) * time.Second], in [int64]. *)
Definition lifetime (t : TokenResponse) : Z :=
  wrap64 (wrap64 (ExpiresIn t - 60) * Second).

(** The two assignments at the end of [refreshToken]. *)
Definition storeToken (c : OAuthClient) (t : TokenResponse) (now : Z) : OAuthClient :=
  {| clientID := clientID c; clientSecret := clientSecret c; authURL := authURL c;
     token := Some t; tokenExpiry := now + lifetime t |}.

Definition refreshToken `{GoRuntime} `{TokenCodec} (c : OAuthClient) (w : World)
  : (OAuthClient * result string) * World :=
  match checkCache c w with
  | (Some tok, w1) => ((c, Ok tok), w1)
  | (None, w1) =>
      match newRequestError "POST" (authURL c) with
      | Some e => ((c, Err ("failed to create request: " +:+ e)), w1)
      | None =>
          let '(o, w2) := httpDo (authRequest c) w1 in
          match decodeAuthOutcome o with
          | Err e => ((c, Err e), w2)
          | Ok t =>
              let '(now, w3) := Now w2 in
              ((storeToken c t now, Ok (AccessToken t)), w3)
          end
      end
  end.

Definition GetToken `{GoRuntime} `{TokenCodec} (c : OAuthClient) (w : World)
  : (OAuthClient * result string) * World :=
  match checkCache c w with
  | (Some tok, w1) => ((c, Ok tok), w1)
  | (None, w1) => refreshToken c w1
  end.

Definition IsTokenValid (c : OAuthClient) (w : World) : bool * World :=
  match checkCache c w with
  | (Some _, w1) => (true, w1)
  | (None, w1) => (false, w1)
  end.

Definition ClearToken (c : OAuthClient) : OAuthClient :=
  {| clientID := clientID c; clientSecret := clientSecret c; authURL := authURL c;
     token := None; tokenExpiry := zeroTime |}.

End auth.

(* ================================================================== *)
(** ** Package api *)
(* ================================================================== *)

Module api.

Record QueryParams : Type := mkQueryParams {
  Entity : string;
  Select : string;
  Filter : string;
  Top : Z;
  Skip : Z;
  OrderBy : string;
  Expand : string;
  IgnoreNulls : bool;
  IgnoreCase : bool
}.

Record APIResponse : Type := mkAPIResponse {
  Context : string;
  Count : Z;
  TotalCount : Z;
  Value : list (gmap string GoValue);
  Group : list (gmap string GoValue);
  NextLink : string;
  Debug : gmap string GoValue;
  RequestTime : Z;
  ResponseTime : Z;
  RequestParams : QueryParams
}.

(** [json.Unmarshal] into [APIResponse] and into [ErrorResponse] (of which
    the program reads [Error.Code] and [Error.Message]), and
    [json.MarshalIndent] of a response. *)
Class ApiCodec : Type := {
  parseAPIResponse : string -> result APIResponse;
  parseErrorResponse : string -> option (string * string);
  ToJSON : APIResponse -> result string
}.

Record SupportedEntity : Type := mkSupportedEntity {
  Name : string;
  Description : string;
  URL : string
}.

Definition GetSupportedEntities : list SupportedEntity :=
  [ {| Name := "Property";
       Description := "Primary real estate listings entity containing comprehensive property information including address, pricing, features, status, agent details, and property characteristics. The main entity for property searches and market analysis.";
       URL := "/odata/Property" |};
    {| Name := "Member";
       Description := "MLS members/agents with contact information, credentials, professional designations, and office affiliations. Use for agent research, contact discovery, and professional verification.";
       URL := "/odata/Member" |};
    {| Name := "Office";
       Description := "Real estate offices and brokerages with contact details, addresses, and organizational information. Use for finding brokerage information and office affiliations.";
       URL := "/odata/Office" |};
    {| Name := "Media";
       Description := "Property media including photos, videos, virtual tours, floor plans, and documents. Links to Property entity via ResourceRecordKey. Use for accessing listing imagery and marketing materials.";
       URL := "/odata/Media" |};
    {| Name := "OpenHouse";
       Description := "Scheduled open house events with dates, times, and showing details. Links to Property entity. Use for finding upcoming open houses and event scheduling.";
       URL := "/odata/OpenHouse" |};
    {| Name := "Dom";
       Description := "Days on Market tracking for properties including cumulative and current DOM calculations. Use for market timing analysis and pricing strategy insights.";
       URL := "/odata/Dom" |};
    {| Name := "PropertyUnitTypes";
       Description := "Individual unit details for multi-unit properties including rent, bedrooms, bathrooms, and square footage per unit type. Use for rental property analysis and multi-family investments.";
       URL := "/odata/PropertyUnitTypes" |};
    {| Name := "PropertyRooms";
       Description := "Detailed room-by-room information including dimensions, features, and level location. Use for space planning, detailed property layouts, and room-specific searches.";
       URL := "/odata/PropertyRooms" |};
    {| Name := "RawMlsProperty";
       Description := "Original, unprocessed MLS data fields as provided by the source MLS system. Use for accessing MLS-specific fields not available in the standardized Property entity.";
       URL := "/odata/RawMlsProperty" |} ].

(** The loop returns [true] at the first entry whose name is [entity]. *)
Definition IsValidEntity (entity : string) : bool :=
  existsb (fun e => String.eqb (Name e) entity) GetSupportedEntities.

Definition skipLimits : gmap string Z :=
  list_to_map
    [ ("Property", 1000000); ("Office", 500000); ("Media", 50000);
      ("OpenHouse", 500000); ("PropertyRooms", 50000); ("Dom", 50000);
      ("Member", 500000); ("RawMlsProperty", 50000);
      ("PropertyUnitTypes", 50000) ].

Definition GetEntitySkipLimit (entity : string) : Z :=
  match skipLimits !! entity with
  | Some limit => limit
  | None => 50000
  end.

(** [oauthClient] is a pointer in Go; the client record carries the
    pointed-to token cache, and every method that can refresh the token
    returns the client with it. *)
Record Client : Type := mkClient {
  baseURL : string;
  oauthClient : auth.OAuthClient
}.

Definition NewClient (base : string) (oc : auth.OAuthClient) : Client :=
  {| baseURL := base; oauthClient := oc |}.

Definition withOAuth (c : Client) (oc : auth.OAuthClient) : Client :=
  {| baseURL := baseURL c; oauthClient := oc |}.

(** The [url.Values] that [Query] fills between "Build query parameters"
    and "Add query parameters to URL". *)
Definition buildQueryParams (params : QueryParams) : Values :=
  let q : Values := ∅ in
  let q := if negb (String.eqb (Select params) "")
           then Set_ q "$select" (Select params) else q in
  let q := if negb (String.eqb (Filter params) "")
           then Set_ q "$filter" (Filter params) else q in
  let q := if 0 <? Top params
           then Set_ q "$top" (Itoa (Top params)) else q in
  let q := if 0 <? Skip params
           then Set_ q "$skip" (Itoa (Skip params)) else q in
  let q := if negb (String.eqb (OrderBy params) "")
           then Set_ q "$orderby" (OrderBy params) else q in
  let q := if IgnoreNulls params
           then Set_ q "$ignorenulls" "true" else q in
  let q := if IgnoreCase params
           then Set_ q "$ignorecase" "true" else q in
  q.

Definition queryURL (c : Client) (params : QueryParams) : string :=
  let apiURL := baseURL c +:+ "/" +:+ Entity params in
  let q := buildQueryParams params in
  if (0 <? size q)%nat then apiURL +:+ "?" +:+ Encode q else apiURL.

(** The two validations at the head of [Query]. *)
Definition validate (params : QueryParams) : option string :=
  if negb (IsValidEntity (Entity params)) then
    Some ("unsupported entity: " +:+ Entity params)
  else if (0 <? Skip params)
          && (GetEntitySkipLimit (Entity params) <? Skip params) then
    Some ("skip value " +:+ Itoa (Skip params) +:+ " exceeds limit "
          +:+ Itoa (GetEntitySkipLimit (Entity params))
          +:+ " for entity " +:+ Entity params)
  else None.

(** The body as [Query] reads it: through a gzip reader when the
    [Content-Encoding] header contains [gzip]. *)
Definition readBody `{GoRuntime} (contentEncoding body : string) : result string :=
  if Contains contentEncoding "gzip" then
    match gunzip body with
    | Err e => Err ("failed to create gzip reader: " +:+ e)
    | Ok (Err e) => Err ("failed to read response: " +:+ e)
    | Ok (Ok b) => Ok b
    end
  else Ok body.

Definition decodeQueryBody `{ApiCodec} (status : Z) (body : string) : result APIResponse :=
  if negb (status =? 200) then
    match parseErrorResponse body with
    | Some (code, message) =>
        Err ("API error (" +:+ Itoa status +:+ "): " +:+ code +:+ " - " +:+ message)
    | None =>
        Err ("API request failed with status " +:+ Itoa status +:+ ": " +:+ body)
    end
  else
    match parseAPIResponse body with
    | Err e => Err ("failed to parse response: " +:+ e)
    | Ok r => Ok r
    end.

Definition withMetadata (r : APIResponse) (startTime elapsed : Z) (params : QueryParams)
  : APIResponse :=
  {| Context := Context r; Count := Count r; TotalCount := TotalCount r;
     Value := Value r; Group := Group r; NextLink := NextLink r; Debug := Debug r;
     RequestTime := startTime; ResponseTime := elapsed; RequestParams := params |}.

Definition Query `{GoRuntime} `{auth.TokenCodec} `{ApiCodec}
  (c : Client) (params : QueryParams) (w : World)
  : (Client * result APIResponse) * World :=
  let '(startTime, w0) := Now w in
  match validate params with
  | Some e => ((c, Err e), w0)
  | None =>
      let apiURL := queryURL c params in
      let '((oc, tok), w1) := auth.GetToken (oauthClient c) w0 in
      let c1 := withOAuth c oc in
      match tok with
      | Err e => ((c1, Err ("failed to get access token: " +:+ e)), w1)
      | Ok token =>
          match newRequestError "GET" apiURL with
          | Some e => ((c1, Err ("failed to create request: " +:+ e)), w1)
          | None =>
              let '(o, w2) := httpDo (EvApiGet apiURL ("Bearer " +:+ token)) w1 in
              match o with
              | DoFails e => ((c1, Err ("failed to make request: " +:+ e)), w2)
              | ReadFails e => ((c1, Err ("failed to read response: " +:+ e)), w2)
              | Response status enc raw =>
                  match readBody enc raw with
                  | Err e => ((c1, Err e), w2)
                  | Ok body =>
                      match decodeQueryBody status body with
                      | Err e => ((c1, Err e), w2)
                      | Ok r =>
                          let '(t1, w3) := Now w2 in
                          ((c1, Ok (withMetadata r startTime (t1 - startTime) params)), w3)
                      end
                  end
              end
          end
      end
  end.

Definition GetMetadata `{GoRuntime} `{auth.TokenCodec} (c : Client) (w : World)
  : (Client * result string) * World :=
  let '((oc, tok), w1) := auth.GetToken (oauthClient c) w in
  let c1 := withOAuth c oc in
  match tok with
  | Err e => ((c1, Err ("failed to get access token: " +:+ e)), w1)
  | Ok token =>
      let metadataURL := baseURL c +:+ "/$metadata" in
      match newRequestError "GET" metadataURL with
      | Some e => ((c1, Err ("failed to create request: " +:+ e)), w1)
      | None =>
          let '(o, w2) := httpDo (EvApiGet metadataURL ("Bearer " +:+ token)) w1 in
          match o with
          | DoFails e => ((c1, Err ("failed to make request: " +:+ e)), w2)
          | ReadFails e => ((c1, Err ("failed to read response: " +:+ e)), w2)
          | Response status _ body =>
              if negb (status =? 200) then
                ((c1, Err ("metadata request failed with status " +:+ Itoa status
                           +:+ ": " +:+ body)), w2)
              else ((c1, Ok body), w2)
          end
      end
  end.

(** The query [TestConnection] sends: one [Property] record. *)
Definition testParams : QueryParams :=
  {| Entity := "Property"; Select := ""; Filter := ""; Top := 1; Skip := 0;
     OrderBy := ""; Expand := ""; IgnoreNulls := true; IgnoreCase := false |}.

Definition TestConnection `{GoRuntime} `{auth.TokenCodec} `{ApiCodec}
  (c : Client) (w : World) : (Client * option string) * World :=
  let '((oc, tok), w1) := auth.GetToken (oauthClient c) w in
  let c1 := withOAuth c oc in
  match tok with
  | Err e => ((c1, Some ("authentication failed: " +:+ e)), w1)
  | Ok _ =>
      let '((c2, r), w2) := Query c1 testParams w1 in
      match r with
      | Err e => ((c2, Some ("test query failed: " +:+ e)), w2)
      | Ok _ => ((c2, None), w2)
      end
  end.

End api.

(* ================================================================== *)
(** ** Package metadata *)
(* ================================================================== *)

(** The parser of the service's metadata document, as far as it works on
    strings and maps; the XML decoding itself is [encoding/xml]'s. *)
Module metadata.

(** [strings.Map(unicode.ToLower, s)], which [strings.ToLower] applies to
    a string with a byte outside ASCII. *)
Class Unicode : Type := {
  mapToLower : string -> string
}.

(** [strings.HasPrefix], [strings.HasSuffix], [strings.TrimPrefix] *)
Definition HasPrefix (s prefix : string) : bool := String.prefix prefix s.

Definition HasSuffix (s suffix : string) : bool :=
  (String.length suffix <=? String.length s)%nat
  && String.eqb
       (substring (String.length s - String.length suffix) (String.length suffix) s)
       suffix.

Definition TrimPrefix (s prefix : string) : string :=
  if HasPrefix s prefix
  then substring (String.length prefix) (String.length s - String.length prefix) s
  else s.

(** [strings.ToLower]: an ASCII string has its upper-case letters shifted to
    lower case byte by byte. *)
Definition isUpper (c : ascii) : bool := (65 <=? byteOf c) && (byteOf c <=? 90).

Definition lowerByte (c : ascii) : ascii :=
  if isUpper c then ascii_of_nat (nat_of_ascii c + 32) else c.

Fixpoint lowerASCII (s : string) : string :=
  match s with
  | EmptyString => EmptyString
  | String c r => String (lowerByte c) (lowerASCII r)
  end.

Definition isASCII (s : string) : bool :=
  forallb (fun c => byteOf c <? 128) (list_ascii_of_string s).

Definition ToLower `{Unicode} (s : string) : string :=
  if isASCII s then lowerASCII s else mapToLower s.

(** The slice expression [s[lo:hi]]: a run-time panic ([None]) unless
    [0 <= lo <= hi <= len(s)]. *)
Definition slice (s : string) (lo hi : Z) : option string :=
  if (0 <=? lo) && (lo <=? hi) && (hi <=? Z.of_nat (String.length s))
  then Some (substring (Z.to_nat lo) (Z.to_nat (hi - lo)) s)
  else None.

(** [sort.Strings] *)
Definition sortStrings (l : list string) : list string := merge_sort keyLe l.

Definition enumsNamespace : string := "org.reso.metadata.enums.".

(** [extractEnumType]; [None] is a panic of the slice expression. *)
Definition extractEnumType (propType : string) : option string :=
  if HasPrefix propType "Collection(" && HasSuffix propType ")" then
    match slice propType 11 (Z.of_nat (String.length propType) - 1) with
    | None => None
    | Some inner =>
        if Contains inner enumsNamespace
        then Some (TrimPrefix inner enumsNamespace)
        else Some inner
    end
  else if Contains propType enumsNamespace
  then Some (TrimPrefix propType enumsNamespace)
  else Some "".

(** What a call comes to: a value, a run-time panic, or (for the model
    only) a recursion cut short. *)
Inductive outcome (A : Type) : Type :=
  | Returns (a : A)
  | Panics
  | OutOfFuel.
Arguments Returns {A} a.
Arguments Panics {A}.
Arguments OutOfFuel {A}.

(** [formatType] calls itself on the inside of a collection type. *)
Fixpoint formatTypeFuel (fuel : nat) (propType : string) : outcome string :=
  if HasPrefix propType "Collection(" then
    match slice propType 11 (Z.of_nat (String.length propType) - 1) with
    | None => Panics
    | Some inner =>
        match fuel with
        | O => OutOfFuel
        | S fuel' =>
            match formatTypeFuel fuel' inner with
            | Returns r => Returns ("Collection of " +:+ r)
            | Panics => Panics
            | OutOfFuel => OutOfFuel
            end
        end
    end
  else if HasPrefix propType "Edm." then Returns (TrimPrefix propType "Edm.")
  else if Contains propType enumsNamespace
  then Returns (TrimPrefix propType enumsNamespace)
  else Returns propType.

Definition formatType (propType : string) : outcome string :=
  formatTypeFuel (String.length propType) propType.

(** [categorizeField]: the first group of name patterns that matches. *)
Definition categorizeField `{Unicode} (fieldName : string) : string :=
  let lower := ToLower fieldName in
  if Contains lower "key" || Contains lower "id"
     || Contains lower "mlsid" || String.eqb fieldName "ListingKey"
     || String.eqb fieldName "ListingId" then
    "Identification"
  else if Contains lower "street" || Contains lower "city"
          || Contains lower "state" || Contains lower "postal"
          || Contains lower "address" || Contains lower "latitude"
          || Contains lower "longitude" || Contains lower "area" then
    "Address & Location"
  else if Contains lower "price" || Contains lower "tax"
          || Contains lower "cost" || Contains lower "expense"
          || Contains lower "fee" || Contains lower "income" then
    "Pricing & Financial"
  else if Contains lower "bedroom" || Contains lower "bathroom"
          || Contains lower "room" || Contains lower "area"
          || Contains lower "year" || Contains lower "built"
          || Contains lower "stories" || Contains lower "lot" then
    "Property Details"
  else if Contains lower "agent" || Contains lower "office"
          || Contains lower "member" || Contains lower "broker" then
    "Agent & Office Info"
  else if Contains lower "status" || Contains lower "timestamp"
          || Contains lower "date" || Contains lower "time"
          || Contains lower "market" || Contains lower "modification" then
    "Status & Dates"
  else if Contains lower "feature" || Contains lower "amenity"
          || Contains lower "appliance" || Contains lower "heating"
          || Contains lower "cooling" || Contains lower "parking"
          || Contains lower "pool" || Contains lower "garage"
          || Contains lower "fireplace" || HasSuffix lower "yn" then
    "Features & Amenities"
  else if Contains lower "media" || Contains lower "photo"
          || Contains lower "video" || Contains lower "image"
          || Contains lower "virtual" || Contains lower "url" then
    "Media & Marketing"
  else "Other".

Record PropertyInfo : Type := mkPropertyInfo {
  PropertyInfo_Name : string;
  PropertyInfo_Type : string;
  PropertyInfo_Description : string;
  IsRequired : bool;
  IsCollection : bool;
  EnumType_ : string
}.

Record EntityInfo : Type := mkEntityInfo {
  EntityInfo_Name : string;
  EntityInfo_Properties : gmap string PropertyInfo;
  EntityInfo_Description : string;
  IsBaseType : bool;
  EntityInfo_BaseType : string
}.

(** [for fieldName := range entity.Properties]: Go visits the keys of a
    map in an order it does not specify.  The functions that range over
    the fields take the order of the visit, [order], as an argument. *)

(** The loop body of [GetFieldsByCategory]:
    [categories[category] = append(categories[category], fieldName)]. *)
Definition addField `{Unicode} (categories : gmap string (list string))
  (fieldName : string) : gmap string (list string) :=
  let category := categorizeField fieldName in
  <[category := (default [] (categories !! category) ++ [fieldName])%list]> categories.

(** [GetFieldsByCategory] of an entity whose fields are visited in
    [order]: the fields are appended to their categories, then every
    category is sorted. *)
Definition fieldsByCategory `{Unicode} (order : list string)
  : gmap string (list string) :=
  sortStrings <$> foldl addField ∅ order.

(** [getKeyFields] of an entity whose fields are visited in [order]. *)
Definition isKeyField `{Unicode} (fieldName : string) : bool :=
  Contains (ToLower fieldName) "key" || Contains (ToLower fieldName) "id".

Definition keyFields `{Unicode} (order : list string) : list string :=
  sortStrings (filter (fun f => isKeyField f = true) order).

End metadata.

(* ================================================================== *)
(** ** Package tools *)
(* ================================================================== *)

Module tools.

Record MCPContent : Type := mkMCPContent {
  Type_ : string;
  Text : string
}.

Record MCPToolResult : Type := mkMCPToolResult {
  Content : list MCPContent;
  IsError : bool
}.

(** Both fields are pointers in Go: [client] to the server's [apiClient],
    [config] to the server's [config]. *)
Record ResoQueryTool : Type := mkResoQueryTool {
  client : api.Client;
  config : config.Config
}.

Definition NewResoQueryTool (c : api.Client) (cfg : config.Config) : ResoQueryTool :=
  {| client := c; config := cfg |}.

(** [createSummary] renders a response as text (time formatting, map
    iteration); its output is opaque here. *)
Class Presenter : Type := {
  createSummary : api.APIResponse -> string
}.

Definition errorResult (text : string) : MCPToolResult :=
  {| Content := [ {| Type_ := "text"; Text := text |} ]; IsError := true |}.

(** The type switch of [parseArguments] on [top] and [skip]:
    [Some n] when a case assigns [n], [None] when no case does. *)
Definition coerceInt `{GoRuntime} (v : GoValue) : option Z :=
  match v with
  | VFloat64 f => Some (float64ToInt f)
  | VInt n => Some n
  | VString s => Atoi s
  | _ => None
  end.

(** [if x, ok := args[k]; ok { switch ... }] applied to a field whose
    current value is [cur]. *)
Definition intArg `{GoRuntime} (args : gmap string GoValue) (k : string) (cur : Z) : Z :=
  match args !! k with
  | Some v => match coerceInt v with Some n => n | None => cur end
  | None => cur
  end.

(** [if s, ok := args[k].(string); ok { f = strings.TrimSpace(s) }] *)
Definition trimmedArg (args : gmap string GoValue) (k : string) (cur : string) : string :=
  match assertString (args !! k) with
  | Some s => TrimSpace s
  | None => cur
  end.

Definition boolArg (args : gmap string GoValue) (k : string) (cur : bool) : bool :=
  match assertBool (args !! k) with
  | Some b => b
  | None => cur
  end.

Definition parseArguments `{GoRuntime} (args : gmap string GoValue)
  : result api.QueryParams :=
  match assertString (args !! "entity") with
  | None => Err "entity is required"
  | Some entity =>
      Ok {| api.Entity := entity;
            api.Select := trimmedArg args "select" "";
            api.Filter := trimmedArg args "filter" "";
            api.Top := intArg args "top" 0;
            api.Skip := intArg args "skip" 0;
            api.OrderBy := trimmedArg args "orderby" "";
            api.Expand := trimmedArg args "expand" "";
            api.IgnoreNulls := boolArg args "ignorenulls" true;
            api.IgnoreCase := boolArg args "ignorecase" false |}
  end.

Definition withClient (t : ResoQueryTool) (c : api.Client) : ResoQueryTool :=
  {| client := c; config := config t |}.

Definition Execute `{GoRuntime} `{auth.TokenCodec} `{api.ApiCodec} `{Presenter}
  (t : ResoQueryTool) (args : gmap string GoValue) (w : World)
  : (ResoQueryTool * MCPToolResult) * World :=
  match config.ValidateCredentials (config t) with
  | Some e => ((t, errorResult ("Configuration error: " +:+ e)), w)
  | None =>
      match parseArguments args with
      | Err e => ((t, errorResult ("Error parsing arguments: " +:+ e)), w)
      | Ok params =>
          let '((c1, r), w1) := api.Query (client t) params w in
          let t1 := withClient t c1 in
          match r with
          | Err e => ((t1, errorResult ("Error executing query: " +:+ e)), w1)
          | Ok response =>
              match api.ToJSON response with
              | Err e => ((t1, errorResult ("Error formatting response: " +:+ e)), w1)
              | Ok responseJSON =>
                  ((t1,
                    {| Content :=
                         [ {| Type_ := "text"; Text := createSummary response |};
                           {| Type_ := "text";
                              Text := "Full Response:" +:+ String "010"%char "```json"
                                      +:+ String "010"%char responseJSON
                                      +:+ String "010"%char "```" |} ];
                       IsError := false |}), w1)
              end
          end
      end
  end.

(** *** The help tool, as far as [Initialize] runs it

    [metadataParser] holds the document that was parsed, if one was.
    [metadataParses]: [ParseFromReader] accepts the document. *)
Record ResoHelpTool : Type := mkResoHelpTool {
  metadataParser : option string
}.

Class MetadataCodec : Type := {
  metadataParses : string -> bool
}.

Definition cacheFile : string := "/tmp/constellation1_metadata.xml".

Definition metadataLocations : list string :=
  [ "constellation1_metadata.xml";
    "../constellation1_metadata.xml";
    "../../constellation1_metadata.xml" ].

(** [os.Stat(path)] succeeds and [ParseFromFile(path)] succeeds. *)
Definition parseFromFile `{MetadataCodec} (w : World) (path : string) : option string :=
  match w_files w !! path with
  | Some content => if metadataParses content then Some content else None
  | None => None
  end.

Fixpoint firstParsed `{MetadataCodec} (w : World) (paths : list string) : option string :=
  match paths with
  | [] => None
  | p :: rest =>
      match parseFromFile w p with
      | Some d => Some d
      | None => firstParsed w rest
      end
  end.

Definition NewResoHelpToolWithAPI `{GoRuntime} `{auth.TokenCodec} `{MetadataCodec}
  (apiClient : option api.Client) (w : World)
  : (ResoHelpTool * option api.Client) * World :=
  match parseFromFile w cacheFile with
  | Some d => (({| metadataParser := Some d |}, apiClient), w)
  | None =>
      match apiClient with
      | Some c =>
          let '((c1, r), w1) := api.GetMetadata c w in
          match r with
          | Ok metadataXML =>
              if metadataParses metadataXML then
                (({| metadataParser := Some metadataXML |}, Some c1),
                 writeFile cacheFile metadataXML w1)
              else
                (({| metadataParser := firstParsed w1 metadataLocations |}, Some c1), w1)
          | Err _ =>
              (({| metadataParser := firstParsed w1 metadataLocations |}, Some c1), w1)
          end
      | None =>
          (({| metadataParser := firstParsed w metadataLocations |}, None), w)
      end
  end.

(** *** The help tool's [Execute]

    [topicContent t topic] is the text the [get...Content] method of the
    topic returns. *)
Class HelpTexts : Type := {
  topicContent : ResoHelpTool -> string -> string
}.




End tools.

(* ================================================================== *)
(** ** Package main *)
(* ================================================================== *)

Module main.

Record MCPError : Type := mkMCPError {
  Code : Z;
  Message : string
}.

(** The [Result] field of a response, by the handler that fills it.  The
    tool descriptors are carried by their names and the resource bodies by
    their URI and MIME type; the texts themselves are not represented. *)
Inductive ResultValue : Type :=
  | InitializeResult (protocolVersion serverName serverVersion : string)
  | ListToolsResult (toolNames : list string)
  | CallToolResult (r : tools.MCPToolResult)
  | ListResourcesResult (uris : list string)
  | ReadResourceResult (uri mimeType : string).

Record MCPMessage : Type := mkMCPMessage {
  JSONRPC : string;
  ID : GoValue;
  Method : string;
  Params : GoValue;
  Result : option ResultValue;
  Error : option MCPError
}.

(** [MCPMessage{}] *)
Definition emptyMessage : MCPMessage :=
  {| JSONRPC := ""; ID := VNil; Method := ""; Params := VNil;
     Result := None; Error := None |}.

Definition resultMessage (id : GoValue) (r : ResultValue) : MCPMessage :=
  {| JSONRPC := "2.0"; ID := id; Method := ""; Params := VNil;
     Result := Some r; Error := None |}.

Definition errorMessage (id : GoValue) (code : Z) (message : string) : MCPMessage :=
  {| JSONRPC := "2.0"; ID := id; Method := ""; Params := VNil;
     Result := None; Error := Some {| Code := code; Message := message |} |}.

(** A nil Go map is [None]; indexing it yields nil like a missing key. *)
Record InitializeParams : Type := mkInitializeParams {
  ProtocolVersion : string;
  Capabilities : option (gmap string GoValue);
  ClientInfo : option (gmap string GoValue)
}.

Record CallToolParams : Type := mkCallToolParams {
  Name : string;
  Arguments : gmap string GoValue
}.

Record ReadResourceParams : Type := mkReadResourceParams {
  URI : string
}.

(** [json.Marshal(msg.Params)] followed by [json.Unmarshal] into the
    parameter struct.  The handlers of [initialize] and [resources/read]
    ignore the error (fields that could not be filled stay zero); the
    handler of [tools/call] answers -32602 when [Unmarshal] fails.
    [helpExecute] is the help tool's [Execute]. *)
Class RpcCodec : Type := {
  decodeInitializeParams : GoValue -> InitializeParams;
  decodeCallToolParams : GoValue -> result CallToolParams;
  decodeReadResourceParams : GoValue -> ReadResourceParams;
  helpExecute : tools.ResoHelpTool -> gmap string GoValue -> tools.MCPToolResult
}.

(** [apiClient], [resoTool.client] and the help tool's client are one
    pointer in Go, as are [config] and [resoTool.config]; the handlers
    below keep the copies equal. *)
Record MCPServer : Type := mkMCPServer {
  config : config.Config;
  apiClient : option api.Client;
  resoTool : option tools.ResoQueryTool;
  helpTool : option tools.ResoHelpTool;
  pendingSettings : option (gmap string GoValue)
}.

Definition NewMCPServer : MCPServer :=
  {| config := config.DefaultConfig; apiClient := None; resoTool := None;
     helpTool := None; pendingSettings := None |}.

Definition Initialize `{GoRuntime} `{auth.TokenCodec} `{tools.MetadataCodec}
  (env : gmap string string) (s : MCPServer)
  (settings : option (gmap string GoValue)) (w : World)
  : (MCPServer * option string) * World :=
  let '(cfg0, err) := config.LoadFromMCPSettings (config s) settings in
  let cfg := match err with
             | Some _ => config.LoadFromEnv env cfg0
             | None => cfg0
             end in
  let oauthClient :=
    auth.NewOAuthClient (config.ClientID cfg) (config.ClientSecret cfg)
                        (config.AuthURL cfg) in
  let c := api.NewClient (config.BaseURL cfg) oauthClient in
  let '((help, c'), w1) := tools.NewResoHelpToolWithAPI (Some c) w in
  let c1 := default c c' in
  (({| config := cfg; apiClient := Some c1;
       resoTool := Some (tools.NewResoQueryTool c1 cfg);
       helpTool := Some help;
       pendingSettings := pendingSettings s |}, None), w1).

(** [for k, v := range src { dst[k] = v }], allocating [dst] when nil. *)
Definition overlay (dst : option (gmap string GoValue)) (src : gmap string GoValue)
  : option (gmap string GoValue) :=
  Some (src ∪ default ∅ dst).

(** [settings[k] = v] when [rawParams] has the key [k]. *)
Definition copyKey (rawParams : gmap string GoValue) (k : string)
  (settings : gmap string GoValue) : gmap string GoValue :=
  match rawParams !! k with
  | Some v => <[k := v]> settings
  | None => settings
  end.

(** The settings map [handleInitialize] hands to [Initialize]. *)
Definition gatherSettings `{RpcCodec} (s : MCPServer) (msgParams : GoValue)
  : option (gmap string GoValue) :=
  let params :=
    match msgParams with
    | VNil => {| ProtocolVersion := ""; Capabilities := None; ClientInfo := None |}
    | _ => decodeInitializeParams msgParams
    end in
  (* Start with pending settings from command line/environment *)
  let settings := pendingSettings s in
  (* Method 1: settings in capabilities *)
  let settings :=
    match assertMap (default ∅ (Capabilities params) !! "settings") with
    | Some clientCaps => overlay settings clientCaps
    | None => settings
    end in
  (* Method 2: settings directly in params *)
  let settings :=
    match msgParams with
    | VMap rawParams =>
        match assertMap (rawParams !! "settings") with
        | Some settingsMap => overlay settings settingsMap
        | None => settings
        end
    | _ => settings
    end in
  (* Method 3: client_id/client_secret directly in params *)
  match msgParams with
  | VMap rawParams =>
      Some (copyKey rawParams "client_secret"
              (copyKey rawParams "client_id" (default ∅ settings)))
  | _ => settings
  end.

Definition handleInitialize `{GoRuntime} `{auth.TokenCodec} `{tools.MetadataCodec}
  `{RpcCodec} (env : gmap string string) (s : MCPServer) (msg : MCPMessage)
  (w : World) : (MCPServer * MCPMessage) * World :=
  let settings := gatherSettings s (Params msg) in
  let '((s1, err), w1) := Initialize env s settings w in
  match err with
  | Some e =>
      ((s1, errorMessage (ID msg) (-32603) ("Initialization failed: " +:+ e)), w1)
  | None =>
      ((s1, resultMessage (ID msg)
              (InitializeResult "2024-11-05" "constellation1-mcp-server" "1.0.0")), w1)
  end.

Definition handleInitialized (s : MCPServer) (msg : MCPMessage) : MCPMessage :=
  emptyMessage.

Definition handleToolsList (s : MCPServer) (msg : MCPMessage) : MCPMessage :=
  match resoTool s, helpTool s with
  | Some _, Some _ => resultMessage (ID msg) (ListToolsResult ["reso_query"; "reso_help"])
  | _, _ => errorMessage (ID msg) (-32603) "Server not initialized"
  end.

(** The query tool ran on the shared client: every alias sees the result. *)
Definition withQueryTool (s : MCPServer) (t : tools.ResoQueryTool) : MCPServer :=
  {| config := config s; apiClient := Some (tools.client t);
     resoTool := Some t; helpTool := helpTool s;
     pendingSettings := pendingSettings s |}.

Definition handleToolsCall `{GoRuntime} `{auth.TokenCodec} `{api.ApiCodec}
  `{tools.Presenter} `{RpcCodec} (s : MCPServer) (msg : MCPMessage) (w : World)
  : (MCPServer * MCPMessage) * World :=
  match resoTool s with
  | None => ((s, errorMessage (ID msg) (-32603) "Server not initialized"), w)
  | Some t =>
      let decoded :=
        match Params msg with
        | VNil => Ok {| Name := ""; Arguments := ∅ |}
        | p => decodeCallToolParams p
        end in
      match decoded with
      | Err _ => ((s, errorMessage (ID msg) (-32602) "Invalid params"), w)
      | Ok params =>
          if String.eqb (Name params) "reso_query" then
            let '((t1, r), w1) := tools.Execute t (Arguments params) w in
            ((withQueryTool s t1, resultMessage (ID msg) (CallToolResult r)), w1)
          else if String.eqb (Name params) "reso_help" then
            match helpTool s with
            | Some h =>
                ((s, resultMessage (ID msg)
                       (CallToolResult (helpExecute h (Arguments params)))), w)
            | None =>
                (* a nil [helpTool] beside a non-nil [resoTool] does not
                   arise: [Initialize] sets both *)
                ((s, errorMessage (ID msg) (-32603) "Server not initialized"), w)
            end
          else
            ((s, errorMessage (ID msg) (-32601)
                   ("Tool not found: " +:+ Name params)), w)
      end
  end.

Definition handleResourcesList (s : MCPServer) (msg : MCPMessage) : MCPMessage :=
  resultMessage (ID msg)
    (ListResourcesResult ["reso://field-reference"; "reso://quick-start"]).

Definition handleResourcesRead `{RpcCodec} (s : MCPServer) (msg : MCPMessage)
  : MCPMessage :=
  let params := match Params msg with
                | VNil => {| URI := "" |}
                | p => decodeReadResourceParams p
                end in
  if String.eqb (URI params) "reso://field-reference"
     || String.eqb (URI params) "reso://quick-start" then
    resultMessage (ID msg) (ReadResourceResult (URI params) "text/markdown")
  else
    errorMessage (ID msg) (-32602) ("Resource not found: " +:+ URI params).

Definition HandleMessage `{GoRuntime} `{auth.TokenCodec} `{api.ApiCodec}
  `{tools.Presenter} `{tools.MetadataCodec} `{RpcCodec}
  (env : gmap string string) (s : MCPServer) (msg : MCPMessage) (w : World)
  : (MCPServer * MCPMessage) * World :=
  if String.eqb (Method msg) "initialize" then handleInitialize env s msg w
  else if String.eqb (Method msg) "initialized" then ((s, handleInitialized s msg), w)
  else if String.eqb (Method msg) "tools/list" then ((s, handleToolsList s msg), w)
  else if String.eqb (Method msg) "tools/call" then handleToolsCall s msg w
  else if String.eqb (Method msg) "resources/list" then ((s, handleResourcesList s msg), w)
  else if String.eqb (Method msg) "resources/read" then ((s, handleResourcesRead s msg), w)
  else ((s, errorMessage (ID msg) (-32601) ("Method not found: " +:+ Method msg)), w).

(** *** Settings captured by [main] before the read loop *)

Record Flags : Type := mkFlags {
  clientID : string;
  clientSecret : string
}.

(** [if v := os.Getenv(name); v != "" && envSettings[k] == nil
       { envSettings[k] = v }] *)
Definition fromEnvIfUnset (env : gmap string string) (name k : string)
  (envSettings : gmap string GoValue) : gmap string GoValue :=
  let v := config.Getenv env name in
  if negb (String.eqb v "") && indexIsNil envSettings k
  then <[k := VString v]> envSettings else envSettings.

Definition fromFlag (v k : string) (envSettings : gmap string GoValue)
  : gmap string GoValue :=
  if negb (String.eqb v "") then <[k := VString v]> envSettings else envSettings.

Definition envSettings (flags : Flags) (env : gmap string string)
  : gmap string GoValue :=
  let m : gmap string GoValue := ∅ in
  (* 1. Command line arguments (highest priority) *)
  let m := fromFlag (clientID flags) "client_id" m in
  let m := fromFlag (clientSecret flags) "client_secret" m in
  (* 2. Standard environment variables *)
  let m := fromEnvIfUnset env "CLIENT_ID" "client_id" m in
  let m := fromEnvIfUnset env "CLIENT_SECRET" "client_secret" m in
  (* 3. RESO-specific environment variables *)
  let m := fromEnvIfUnset env "RESO_CLIENT_ID" "client_id" m in
  let m := fromEnvIfUnset env "RESO_CLIENT_SECRET" "client_secret" m in
  (* 4. MCP client may set these specific environment variables *)
  let m := fromEnvIfUnset env "MCP_RESO_CLIENT_ID" "client_id" m in
  let m := fromEnvIfUnset env "MCP_RESO_CLIENT_SECRET" "client_secret" m in
  m.

(** The server as [main] holds it when the read loop starts. *)
Definition startServer (flags : Flags) (env : gmap string string) : MCPServer :=
  let server := NewMCPServer in
  let m := envSettings flags env in
  if (0 <? size m)%nat then
    {| config := config server; apiClient := apiClient server;
       resoTool := resoTool server; helpTool := helpTool server;
       pendingSettings := Some m |}
  else server.

(** *** The read loop of [main]

    [json.Unmarshal] of an input line into an [MCPMessage], and
    [json.Marshal] of a response. *)
Class LineCodec : Type := {
  parseMessage : string -> option MCPMessage;
  marshalMessage : MCPMessage -> option string
}.

(** [lines] are the tokens [scanner.Scan] yields one after the other; the
    result lists the lines printed on standard output. *)
Fixpoint serve `{GoRuntime} `{auth.TokenCodec} `{api.ApiCodec} `{tools.Presenter}
  `{tools.MetadataCodec} `{RpcCodec} `{LineCodec}
  (env : gmap string string) (server : MCPServer) (lines : list string) (w : World)
  : (MCPServer * list string) * World :=
  match lines with
  | [] => ((server, []), w)
  | text :: rest =>
      let line := TrimSpace text in
      if String.eqb line "" then serve env server rest w
      else
        match parseMessage line with
        | None => serve env server rest w
        | Some msg =>
            let '((server1, response), w1) := HandleMessage env server msg w in
            let printed :=
              if negb (String.eqb (JSONRPC response) "") then
                match marshalMessage response with
                | Some responseBytes => [responseBytes]
                | None => []
                end
              else [] in
            let '((server2, out), w2) := serve env server1 rest w1 in
            ((server2, (printed ++ out)%list), w2)
        end
  end.

End main.

(* ================================================================== *)
(** ** GetToken under concurrent callers *)
(* ================================================================== *)

(** Goroutines running [GetToken] on one [OAuthClient], interleaved at the
    operations on the shared state: the four lock operations, the two
    reads of the cache and the refresh itself.  A step is taken by the
    goroutine the scheduler names; it blocks (no step) where Go's
    [sync.RWMutex] blocks.  The exclusive section of [refreshToken] after
    the double check is one step: no other goroutine can move while the
    write lock is held. *)
Module gettoken.

Inductive pc : Type :=
  | AtRLock                  (* GetToken: before c.mutex.RLock() *)
  | InRead                   (* read lock held, before the test *)
  | ReadHit (tok : string)   (* test passed, token copied, before RUnlock *)
  | ReadMiss                 (* test failed, before RUnlock *)
  | AtLock                   (* refreshToken: before c.mutex.Lock() *)
  | InWrite                  (* write lock held, before the double check *)
  | Exchanging               (* double check failed, before the request *)
  | Done (r : result string).

Record sys : Type := mkSys {
  cache : auth.OAuthClient;
  readers : nat;
  writer : bool;
  threads : list pc;
  exchanges : nat
}.

(** One scheduling decision: the goroutine that moves, what [time.Now]
    returns if the step calls it, and what the network answers if the step
    sends the token request. *)
Record event : Type := mkEvent {
  tid : nat;
  now : Z;
  net : HttpOutcome
}.

Definition init (n : nat) (c : auth.OAuthClient) : sys :=
  {| cache := c; readers := 0; writer := false;
     threads := replicate n AtRLock; exchanges := 0 |}.

Definition move (s : sys) (i : nat) (p : pc) : sys :=
  {| cache := cache s; readers := readers s; writer := writer s;
     threads := <[i := p]> (threads s); exchanges := exchanges s |}.

Definition setReaders (s : sys) (n : nat) : sys :=
  {| cache := cache s; readers := n; writer := writer s;
     threads := threads s; exchanges := exchanges s |}.

Definition setWriter (s : sys) (b : bool) : sys :=
  {| cache := cache s; readers := readers s; writer := b;
     threads := threads s; exchanges := exchanges s |}.

Definition setCache (s : sys) (c : auth.OAuthClient) : sys :=
  {| cache := c; readers := readers s; writer := writer s;
     threads := threads s; exchanges := exchanges s |}.

Definition countExchange (s : sys) : sys :=
  {| cache := cache s; readers := readers s; writer := writer s;
     threads := threads s; exchanges := S (exchanges s) |}.

Definition step `{GoRuntime} `{auth.TokenCodec} (ev : event) (s : sys) : option sys :=
  let i := tid ev in
  match threads s !! i with
  | None => None
  | Some AtRLock =>
      if writer s then None
      else Some (move (setReaders s (S (readers s))) i InRead)
  | Some InRead =>
      match auth.cachedToken (cache s) (now ev) with
      | Some tok => Some (move s i (ReadHit tok))
      | None => Some (move s i ReadMiss)
      end
  | Some (ReadHit tok) =>
      Some (move (setReaders s (pred (readers s))) i (Done (Ok tok)))
  | Some ReadMiss =>
      Some (move (setReaders s (pred (readers s))) i AtLock)
  | Some AtLock =>
      if writer s || (0 <? readers s)%nat then None
      else Some (move (setWriter s true) i InWrite)
  | Some InWrite =>
      match auth.cachedToken (cache s) (now ev) with
      | Some tok => Some (move (setWriter s false) i (Done (Ok tok)))
      | None => Some (move s i Exchanging)
      end
  | Some Exchanging =>
      match newRequestError "POST" (auth.authURL (cache s)) with
      | Some e =>
          Some (move (setWriter s false) i
                  (Done (Err ("failed to create request: " +:+ e))))
      | None =>
          match auth.decodeAuthOutcome (net ev) with
          | Err e =>
              Some (move (setWriter (countExchange s) false) i (Done (Err e)))
          | Ok t =>
              Some (move
                      (setWriter
                         (countExchange
                            (setCache s (auth.storeToken (cache s) t (now ev))))
                         false)
                      i (Done (Ok (auth.AccessToken t))))
          end
      end
  | Some (Done _) => None
  end.

(** A schedule is run step by step; it is not a run of the program if
    it names a goroutine that cannot move. *)
Fixpoint run `{GoRuntime} `{auth.TokenCodec} (sch : list event) (s : sys) : option sys :=
  match sch with
  | [] => Some s
  | ev :: rest =>
      match step ev s with
      | Some s1 => run rest s1
      | None => None
      end
  end.

Definition refreshing (p : pc) : bool :=
  match p with InWrite | Exchanging => true | _ => false end.

Definition finished (p : pc) : bool :=
  match p with Done _ => true | _ => false end.

(** Goroutines inside the exclusive section of [refreshToken]. *)
Definition refreshers (s : sys) : nat :=
  length (filter (fun p => refreshing p = true) (threads s)).

(** *** Invariants of the interleaving *)

(** The write lock is held exactly while a goroutine is in the exclusive
    section, and by one goroutine only. *)
Definition lockInv (s : sys) : Prop :=
  (writer s = false ->
   forall i p, threads s !! i = Some p -> refreshing p = false)
  /\ (forall i j p q,
        threads s !! i = Some p -> threads s !! j = Some q ->
        refreshing p = true -> refreshing q = true -> i = j).

(** Goroutines between [RLock] and [RUnlock]. *)
Definition reading (p : pc) : bool :=
  match p with InRead | ReadHit _ | ReadMiss => true | _ => false end.

(** The lock's counters say what the goroutines hold: as many readers
    as goroutines in the shared section, and a writer exactly when a
    goroutine is in the exclusive one. *)
Definition countersInv (s : sys) : Prop :=
  readers s = length (filter (fun p => reading p = true) (threads s))
  /\ (writer s = true ->
      exists i p, threads s !! i = Some p /\ refreshing p = true).

(** Steps a goroutine can still take before it returns. *)
Definition stepsLeft (p : pc) : nat :=
  match p with
  | AtRLock => 6
  | InRead => 5
  | ReadMiss => 4
  | AtLock => 3
  | InWrite => 2
  | Exchanging => 1
  | ReadHit _ => 1
  | Done _ => 0
  end.

Definition totalStepsLeft (s : sys) : nat :=
  sum_list (map stepsLeft (threads s)).

(** A goroutine that holds a lock, and so is never blocked. *)
Definition holdsLock (p : pc) : bool := reading p || refreshing p.

(** What a goroutine may hold before any exchange has succeeded ... *)
Definition beforeExchange (p : pc) : Prop :=
  match p with
  | ReadHit _ | Done _ => False
  | _ => True
  end.

(** ... and once the token [t] has been stored. *)
Definition afterExchange (t : auth.TokenResponse) (p : pc) : Prop :=
  match p with
  | ReadHit tok => tok = auth.AccessToken t
  | Done r => r = Ok (auth.AccessToken t)
  | Exchanging => False
  | _ => True
  end.

(** A run from the cache [c] whose events are among [sch] is in one of
    two phases: no request sent and the cache as at the start, or one
    request sent, answered with the token now in the cache. *)
Definition phaseInv `{auth.TokenCodec} (c : auth.OAuthClient) (sch : list event)
  (s : sys) : Prop :=
  (exchanges s = 0%nat /\ cache s = c
   /\ forall i p, threads s !! i = Some p -> beforeExchange p)
  \/ (exchanges s = 1%nat
      /\ exists ev0 t,
           In ev0 sch
           /\ auth.decodeAuthOutcome (net ev0) = Ok t
           /\ cache s = auth.storeToken c t (now ev0)
           /\ forall i p, threads s !! i = Some p -> afterExchange t p).

(** The cache holds no valid token at any clock reading of the run. *)
Definition neverValid (c : auth.OAuthClient) (sch : list event) : Prop :=
  forall ev, In ev sch -> auth.cachedToken c (now ev) = None.

(** Every answer of the network in the run is a token, and every clock
    reading of the run is before the expiry that storing it would set. *)
Definition exchangesSucceed `{auth.TokenCodec} (sch : list event) : Prop :=
  forall ev ev',
    In ev sch -> In ev' sch ->
    exists t, auth.decodeAuthOutcome (net ev) = Ok t
              /\ now ev' < now ev + auth.lifetime t.

End gettoken.

(* ================================================================== *)
(** ** The specification's vocabulary *)
(* ================================================================== *)

(** Notions the specification uses and the program does not define; the
    properties below compare the program against them. *)
Module spec.

(** The entity catalog: the nine names. *)
Definition catalogNames : list string :=
  [ "Property"; "Member"; "Office"; "Media"; "OpenHouse"; "Dom";
    "PropertyUnitTypes"; "PropertyRooms"; "RawMlsProperty" ].

(** The parameters of the remote query encoding. *)
Definition parameterNames : list string :=
  [ "$select"; "$filter"; "$top"; "$skip"; "$orderby"; "$ignorenulls";
    "$ignorecase" ].

(** A numeric string: an optional sign and at least one decimal digit,
    nothing else. *)
Definition isDigit (c : ascii) : bool :=
  (48 <=? byteOf c) && (byteOf c <=? 57).

Definition unsignedPart (s : string) : string :=
  match s with
  | String "-"%char r => r
  | String "+"%char r => r
  | _ => s
  end.

Definition isDecimalLiteral (s : string) : bool :=
  match list_ascii_of_string (unsignedPart s) with
  | [] => false
  | body => forallb isDigit body
  end.

(** The floating-point number [f] is exactly the integer [n]. *)
Definition float64Denotes (f : spec_float) (n : Z) : Prop :=
  match f with
  | S754_zero _ => n = 0
  | S754_finite s m e =>
      let sm := if s then Z.neg m else Z.pos m in
      if 0 <=? e then n = sm * 2 ^ e else sm = n * 2 ^ (- e)
  | S754_infinity _ | S754_nan => False
  end.

(** The value [v] is the integer [n] in one of the three representations:
    a Go [int], a floating-point number, or the decimal string. *)
Definition denotes (v : GoValue) (n : Z) : Prop :=
  match v with
  | VInt m => m = n
  | VFloat64 f => float64Denotes f n
  | VString s => s = Itoa n
  | _ => False
  end.

(** A value that is no number in any of the three representations. *)
Definition nonNumeric (v : GoValue) : Prop :=
  match v with
  | VNil | VBool _ | VSlice _ | VMap _ => True
  | VString s => isDecimalLiteral s = false
  | VFloat64 _ | VInt _ => False
  end.

(** Precedence among configuration sources: the sources are listed from
    the highest precedence down, each defines a key or not, and the merged
    value is that of the first source that defines it. *)
Fixpoint firstDefined {A : Type} (sources : list (option A)) : option A :=
  match sources with
  | [] => None
  | Some v :: _ => Some v
  | None :: rest => firstDefined rest
  end.

(** The same request with another [expand] value. *)
Definition withExpand (p : api.QueryParams) (x : string) : api.QueryParams :=
  {| api.Entity := api.Entity p; api.Select := api.Select p;
     api.Filter := api.Filter p; api.Top := api.Top p; api.Skip := api.Skip p;
     api.OrderBy := api.OrderBy p; api.Expand := x;
     api.IgnoreNulls := api.IgnoreNulls p; api.IgnoreCase := api.IgnoreCase p |}.

(** The same request with another [top] value. *)
Definition withTop (p : api.QueryParams) (n : Z) : api.QueryParams :=
  {| api.Entity := api.Entity p; api.Select := api.Select p;
     api.Filter := api.Filter p; api.Top := n; api.Skip := api.Skip p;
     api.OrderBy := api.OrderBy p; api.Expand := api.Expand p;
     api.IgnoreNulls := api.IgnoreNulls p; api.IgnoreCase := api.IgnoreCase p |}.

(** The ways a token refresh fails: the request cannot be created, the
    network fails, the body cannot be read, the status is not 200 (every
    non-2xx status is such a status), or the body does not parse. *)
Inductive refreshFailure `{GoRuntime} `{auth.TokenCodec} (c : auth.OAuthClient)
  : HttpOutcome -> Prop :=
  | RequestCreationFails (o : HttpOutcome) (e : string) :
      newRequestError "POST" (auth.authURL c) = Some e -> refreshFailure c o
  | NetworkFails (e : string) : refreshFailure c (DoFails e)
  | BodyReadFails (e : string) : refreshFailure c (ReadFails e)
  | StatusNotOK (status : Z) (enc body : string) :
      status <> 200 -> refreshFailure c (Response status enc body)
  | BodyUnparsable (enc body e : string) :
      auth.parseTokenResponse body = Err e ->
      refreshFailure c (Response 200 enc body).

(** No clock reading of the world finds a valid token in the cache. *)
Definition noValidToken (c : auth.OAuthClient) (w : World) : Prop :=
  forall n, auth.cachedToken c (w_clock w n) = None.

(** The two credential keys, with the names each source knows them by. *)
Inductive credential : Type := KClientID | KClientSecret.

Definition keyName (k : credential) : string :=
  match k with KClientID => "client_id" | KClientSecret => "client_secret" end.

Definition credentialOf (k : credential) (c : config.Config) : string :=
  match k with
  | KClientID => config.ClientID c
  | KClientSecret => config.ClientSecret c
  end.

(** A source defines a key when it gives it a non-empty value. *)
Definition nonEmpty (v : string) : option GoValue :=
  if String.eqb v "" then None else Some (VString v).

(** The command line. *)
Definition commandLine (flags : main.Flags) (k : credential) : option GoValue :=
  nonEmpty match k with
           | KClientID => main.clientID flags
           | KClientSecret => main.clientSecret flags
           end.

(** Generic environment variables. *)
Definition genericEnv (env : gmap string string) (k : credential) : option GoValue :=
  nonEmpty (config.Getenv env match k with
                              | KClientID => "CLIENT_ID"
                              | KClientSecret => "CLIENT_SECRET"
                              end).

(** Domain-prefixed environment variables. *)
Definition domainEnv (env : gmap string string) (k : credential) : option GoValue :=
  nonEmpty (config.Getenv env match k with
                              | KClientID => "RESO_CLIENT_ID"
                              | KClientSecret => "RESO_CLIENT_SECRET"
                              end).

(** Client-prefixed environment variables. *)
Definition clientEnv (env : gmap string string) (k : credential) : option GoValue :=
  nonEmpty (config.Getenv env match k with
                              | KClientID => "MCP_RESO_CLIENT_ID"
                              | KClientSecret => "MCP_RESO_CLIENT_SECRET"
                              end).

(** The three shapes of the [initialize] parameters; a shape defines a key
    that is present in it. *)
Definition bareKeys (params : GoValue) (k : credential) : option GoValue :=
  match params with
  | VMap rawParams => rawParams !! keyName k
  | _ => None
  end.

Definition topLevelSettings (params : GoValue) (k : credential) : option GoValue :=
  match params with
  | VMap rawParams =>
      match assertMap (rawParams !! "settings") with
      | Some m => m !! keyName k
      | None => None
      end
  | _ => None
  end.

Definition capabilitySettings `{main.RpcCodec} (params : GoValue) (k : credential)
  : option GoValue :=
  match params with
  | VNil => None
  | _ =>
      match main.Capabilities (main.decodeInitializeParams params) with
      | Some caps =>
          match assertMap (caps !! "settings") with
          | Some m => m !! keyName k
          | None => None
          end
      | None => None
      end
  end.

(** The sources from the highest precedence down, in the order the claim
    gives: initialize parameters, command line, domain-prefixed
    environment, generic environment. *)
Definition claimedSources `{main.RpcCodec} (flags : main.Flags)
  (env : gmap string string) (params : GoValue) (k : credential)
  : list (option GoValue) :=
  [ bareKeys params k; topLevelSettings params k; capabilitySettings params k;
    commandLine flags k; domainEnv env k; genericEnv env k ].

(** The sources from the highest precedence down, in the order the
    program applies: initialize parameters (bare keys, then a top-level
    settings object, then the settings under capabilities), command line,
    generic environment, domain-prefixed environment, client-prefixed
    environment. *)
Definition programSources `{main.RpcCodec} (flags : main.Flags)
  (env : gmap string string) (params : GoValue) (k : credential)
  : list (option GoValue) :=
  [ bareKeys params k; topLevelSettings params k; capabilitySettings params k;
    commandLine flags k; genericEnv env k; domainEnv env k; clientEnv env k ].

(** The configuration's value for a merged setting: the merged value when
    it is a non-empty string, the value the field had otherwise. *)
Definition overrideWith (merged : option GoValue) (old : string) : string :=
  match merged with
  | Some (VString v) => if String.eqb v "" then old else v
  | _ => old
  end.

(** A lookup result that is absent or a string: what [main] stores. *)
Definition stringy (o : option GoValue) : Prop :=
  o = None \/ exists s, o = Some (VString s).

(** Worlds that differ only in how often the clock was read. *)
Definition sameNetwork (w w1 : World) : Prop :=
  w_clock w1 = w_clock w /\ w_http w1 = w_http w /\ w_trace w1 = w_trace w.

(** What it is for [Query] to proceed past its validations: the token is
    fetched, and with a token the request goes out to the query URL. *)
Definition proceeds `{GoRuntime} `{auth.TokenCodec} `{api.ApiCodec}
  (c : api.Client) (p : api.QueryParams) (w : World) : Prop :=
  let '((oc, tok), w1) := auth.GetToken (api.oauthClient c) (snd (Now w)) in
  let '((c', r), w') := api.Query c p w in
  c' = api.withOAuth c oc
  /\ match tok with
     | Err e => r = Err ("failed to get access token: " +:+ e) /\ w' = w1
     | Ok token =>
         match newRequestError "GET" (api.queryURL c p) with
         | Some e => r = Err ("failed to create request: " +:+ e) /\ w' = w1
         | None =>
             w_trace w'
             = EvApiGet (api.queryURL c p) ("Bearer " +:+ token) :: w_trace w1
         end
     end.

End spec.

(* ================================================================== *)
(** ** Instances for evaluating the model on concrete inputs *)
(* ================================================================== *)

(** The theorems below hold for every instance of the external classes.
    Examples and witnesses need one instance to compute with: the integer
    conversion of amd64, requests that can always be created, and decoders
    that read a body [b] as the token [b] with a one-hour lifetime and as
    an empty response. *)
Module sample.

#[export] Instance runtime : GoRuntime := {|
  float64ToIntOutOfRange := fun _ => minInt64;
  newRequestError := fun _ _ => None;
  base64Encode := fun s => s;
  gunzip := fun s => Ok (Ok s)
|}.

#[export] Instance tokenCodec : auth.TokenCodec := {|
  auth.parseTokenResponse := fun body =>
    if String.eqb body "" then Err "unexpected end of JSON input"
    else Ok {| auth.AccessToken := body; auth.ExpiresIn := 3600;
               auth.TokenType := "Bearer" |}
|}.

Definition emptyParams : api.QueryParams :=
  {| api.Entity := ""; api.Select := ""; api.Filter := ""; api.Top := 0;
     api.Skip := 0; api.OrderBy := ""; api.Expand := "";
     api.IgnoreNulls := false; api.IgnoreCase := false |}.

#[export] Instance apiCodec : api.ApiCodec := {|
  api.parseAPIResponse := fun body =>
    if String.eqb body "" then Err "unexpected end of JSON input"
    else Ok {| api.Context := body; api.Count := 0; api.TotalCount := 0;
               api.Value := []; api.Group := []; api.NextLink := "";
               api.Debug := ∅; api.RequestTime := 0; api.ResponseTime := 0;
               api.RequestParams := emptyParams |};
  api.parseErrorResponse := fun _ => None;
  api.ToJSON := fun r => Ok (api.Context r)
|}.

#[export] Instance presenter : tools.Presenter := {|
  tools.createSummary := fun r => "RESO API Query Results"
|}.

#[export] Instance metadataCodec : tools.MetadataCodec := {|
  tools.metadataParses := fun doc => negb (String.eqb doc "")
|}.

(** The decoder reads [capabilities], [name], [arguments] and [uri] by
    their exact keys. *)
#[export] Instance rpcCodec : main.RpcCodec := {|
  main.decodeInitializeParams := fun v =>
    match v with
    | VMap m =>
        {| main.ProtocolVersion := default "" (assertString (m !! "protocolVersion"));
           main.Capabilities := assertMap (m !! "capabilities");
           main.ClientInfo := assertMap (m !! "clientInfo") |}
    | _ => {| main.ProtocolVersion := ""; main.Capabilities := None;
              main.ClientInfo := None |}
    end;
  main.decodeCallToolParams := fun v =>
    match v with
    | VMap m =>
        Ok {| main.Name := default "" (assertString (m !! "name"));
              main.Arguments := default ∅ (assertMap (m !! "arguments")) |}
    | _ => Err "cannot unmarshal into CallToolParams"
    end;
  main.decodeReadResourceParams := fun v =>
    match v with
    | VMap m => {| main.URI := default "" (assertString (m !! "uri")) |}
    | _ => {| main.URI := "" |}
    end;
  main.helpExecute := fun _ _ =>
    {| tools.Content := [ {| tools.Type_ := "text"; tools.Text := "help" |} ];
       tools.IsError := false |}
|}.

(** A world whose clock stands at [t], whose network answers every
    request with [o], and whose file system is empty. *)
Definition world (t : Z) (o : HttpOutcome) : World :=
  {| w_clock := fun _ => t; w_reads := 0; w_http := fun _ => o;
     w_trace := []; w_files := ∅; w_writable := true |}.

(** A client as [Initialize] builds it from credentials ["id"], ["secret"]
    and the default endpoints; a network that answers 200 with the body
    ["tok"]. *)
Definition oauth0 : auth.OAuthClient :=
  auth.NewOAuthClient "id" "secret" (config.AuthURL config.DefaultConfig).

Definition client0 : api.Client :=
  api.NewClient (config.BaseURL config.DefaultConfig) oauth0.

Definition world0 : World := world 1000 (Response 200 "" "tok").

Definition query (entity : string) (skip : Z) : api.QueryParams :=
  {| api.Entity := entity; api.Select := ""; api.Filter := ""; api.Top := 0;
     api.Skip := skip; api.OrderBy := ""; api.Expand := "";
     api.IgnoreNulls := true; api.IgnoreCase := false |}.

(** Tool arguments, as [encoding/json] decodes them. *)
Definition args (l : list (string * GoValue)) : gmap string GoValue := list_to_map l.

(** The binary64 numbers 25 and 5000: a 53-bit mantissa and its exponent. *)
Definition float25 : spec_float := S754_finite false 7036874417766400 (-48).
Definition float5000 : spec_float := S754_finite false 5497558138880000 (-40).

(** The token of a one-hour grant. *)
Definition token0 : auth.TokenResponse :=
  {| auth.AccessToken := "tok"; auth.ExpiresIn := 3600; auth.TokenType := "Bearer" |}.

(** A world whose clock reads [t] and then [t + 1 ms]. *)
Definition worldAt (t : Z) : World :=
  {| w_clock := fun n => t + Z.of_nat n * 1000000; w_reads := 0;
     w_http := fun _ => Response 200 "" "tok2";
     w_trace := []; w_files := ∅; w_writable := true |}.

Definition initializeMessage (params : GoValue) : main.MCPMessage :=
  {| main.JSONRPC := "2.0"; main.ID := VFloat64 (S754_finite false 1 0);
     main.Method := "initialize"; main.Params := params;
     main.Result := None; main.Error := None |}.

Definition noFlags : main.Flags := {| main.clientID := ""; main.clientSecret := "" |}.

(** Both a generic and a domain-prefixed client id are set. *)
Definition twoEnvIds : gmap string string :=
  list_to_map [ ("CLIENT_ID", "generic-id"); ("RESO_CLIENT_ID", "domain-id") ].

(** Two callers of [GetToken].  Both take the read lock, miss, release it
    and queue for the write lock; caller 0 gets it first. *)
Definition ev (i : nat) (t : Z) (o : HttpOutcome) : gettoken.event :=
  {| gettoken.tid := i; gettoken.now := t; gettoken.net := o |}.

Definition answer : HttpOutcome := Response 200 "" "tok".

Definition bothMiss : list gettoken.event :=
  [ ev 0 1000 answer; ev 1 1001 answer; ev 0 1002 answer; ev 1 1003 answer;
    ev 0 1004 answer; ev 1 1005 answer; ev 0 1006 answer; ev 0 1007 answer ].

(** Caller 0's exchange succeeds; caller 1 then finds the token in its
    double check. *)
Definition scheduleSuccess : list gettoken.event :=
  bothMiss ++ [ ev 0 1008 answer; ev 1 1009 answer; ev 1 1010 answer ].

(** Caller 0's exchange times out; caller 1 then runs its own. *)
Definition scheduleFailure : list gettoken.event :=
  bothMiss ++ [ ev 0 1008 (DoFails "timeout"); ev 1 1009 answer;
                ev 1 1010 answer; ev 1 1011 answer ].


(** A world like [world0] whose metadata cache file exists. *)
Definition cachedWorld : World :=
  {| w_clock := fun _ => 1000; w_reads := 0;
     w_http := fun _ => Response 200 "" "tok";
     w_trace := []; w_files := {[ tools.cacheFile := "<edmx/>" ]};
     w_writable := true |}.

(** A network that answers every request with a gzip-encoded body. *)
Definition gzipWorld : World := world 1000 (Response 200 "gzip" "tok").

(** The server of a process started with both credentials on the command
    line, after an [initialize] without parameters in [world0], and the
    world it leaves. *)
Definition flags0 : main.Flags :=
  {| main.clientID := "id"; main.clientSecret := "secret" |}.

Definition server0 : main.MCPServer :=
  fst (fst (main.handleInitialize ∅ (main.startServer flags0 ∅)
              (initializeMessage VNil) world0)).

Definition world1 : World :=
  snd (main.handleInitialize ∅ (main.startServer flags0 ∅)
         (initializeMessage VNil) world0).

(** A [tools/call] request for one query on [entity]. *)
Definition callParams (entity : string) : GoValue :=
  VMap (list_to_map
          [ ("name", VString "reso_query");
            ("arguments", VMap (list_to_map [ ("entity", VString entity) ])) ]).

Definition callQuery (entity : string) : main.MCPMessage :=
  {| main.JSONRPC := "2.0"; main.ID := VFloat64 (S754_finite false 1 1);
     main.Method := "tools/call"; main.Params := callParams entity;
     main.Result := None; main.Error := None |}.

(** Lower-casing of the ASCII strings the examples use; a string with
    other bytes is left as it is. *)
#[export] Instance unicode : metadata.Unicode := {|
  metadata.mapToLower := fun s => s
|}.

#[export] Instance helpTexts : tools.HelpTexts := {|
  tools.topicContent := fun _ topic => "# " +:+ topic
|}.

(** A request without parameters whose id is its method. *)
Definition request (method : string) : main.MCPMessage :=
  {| main.JSONRPC := "2.0"; main.ID := VString method;
     main.Method := method; main.Params := VNil;
     main.Result := None; main.Error := None |}.

(** A line is read as the request whose method and id are the line; the
    line [garbage] does not parse. *)
#[export] Instance lineCodec : main.LineCodec := {|
  main.parseMessage := fun line =>
    if String.eqb line "garbage" then None else Some (request line);
  main.marshalMessage := fun m =>
    Some (match main.Error m with
          | Some e => "error: " +:+ main.Message e
          | None => "result"
          end)
|}.

End sample.

(* ================================================================== *)
(** * Properties *)
(* ================================================================== *)

(** ** Decimal printing and parsing *)

Lemma digitValue_digits :
  digitValue "0" = Some 0 /\ digitValue "1" = Some 1 /\ digitValue "2" = Some 2
  /\ digitValue "3" = Some 3 /\ digitValue "4" = Some 4 /\ digitValue "5" = Some 5
  /\ digitValue "6" = Some 6 /\ digitValue "7" = Some 7 /\ digitValue "8" = Some 8
  /\ digitValue "9" = Some 9.
Proof. repeat split; reflexivity. Qed.

Ltac digit_step IH :=
  match goal with
  | |- context [digitValue ?c] =>
      let v := eval vm_compute in (digitValue c) in
      change (digitValue c) with v
  end;
  cbv beta iota; rewrite <- IH; f_equal; lia.

Lemma parseDigits_acc (d : Decimal.uint) (p : positive) :
  parseDigits (Z.pos p) (NilEmpty.string_of_uint d) = Some (Z.pos (Pos.of_uint_acc d p)).
Proof.
  revert p; induction d; intros p;
    cbn [NilEmpty.string_of_uint parseDigits Pos.of_uint_acc];
    [reflexivity | digit_step IHd ..].
Qed.

Lemma parseDigits_uint (d : Decimal.uint) :
  parseDigits 0 (NilEmpty.string_of_uint d) = Some (Z.of_N (Pos.of_uint d)).
Proof.
  induction d; cbn [NilEmpty.string_of_uint parseDigits Pos.of_uint];
    [reflexivity | exact IHd | ..];
    match goal with
    | |- context [digitValue ?c] =>
        let v := eval vm_compute in (digitValue c) in
        change (digitValue c) with v
    end;
    cbv beta iota; cbn [Z.mul Z.add Z.of_N]; apply parseDigits_acc.
Qed.

Lemma string_of_uint_head (d : Decimal.uint) :
  d <> Decimal.Nil ->
  exists c r, NilEmpty.string_of_uint d = String c r
              /\ c <> "-"%char /\ c <> "+"%char.
Proof.
  destruct d; intros Hd; [congruence | ..];
    cbn [NilEmpty.string_of_uint]; eexists _, _; (split; [reflexivity | split; discriminate]).
Qed.

Lemma Atoi_unsigned (s : string) (c : ascii) (r : string) :
  s = String c r -> c <> "-"%char -> c <> "+"%char ->
  Atoi s = match parseDigits 0 s with
           | Some n => if in_int64 n then Some n else None
           | None => None
           end.
Proof.
  intros -> Hm Hp. unfold Atoi.
  destruct c as [[] [] [] [] [] [] [] []]; try reflexivity; congruence.
Qed.

Lemma Atoi_Itoa (n : Z) : in_int64 n = true -> Atoi (Itoa n) = Some n.
Proof.
  intros Hn. unfold Itoa. destruct n as [|p|p]; [reflexivity | |].
  - cbn [Z.to_int NilZero.string_of_int].
    pose proof (Unsigned.to_uint_nonnil p) as Hnil.
    assert (Hs : NilZero.string_of_uint (Pos.to_uint p)
                 = NilEmpty.string_of_uint (Pos.to_uint p)).
    { unfold NilZero.string_of_uint. destruct (Pos.to_uint p); congruence. }
    rewrite Hs.
    destruct (string_of_uint_head _ Hnil) as (c & r & Hc & Hm & Hp).
    rewrite (Atoi_unsigned _ c r Hc Hm Hp), parseDigits_uint, Unsigned.of_to.
    cbn [Z.of_N]. now rewrite Hn.
  - cbn [Z.to_int NilZero.string_of_int].
    pose proof (Unsigned.to_uint_nonnil p) as Hnil.
    assert (Hs : NilZero.string_of_uint (Pos.to_uint p)
                 = NilEmpty.string_of_uint (Pos.to_uint p)).
    { unfold NilZero.string_of_uint. destruct (Pos.to_uint p); congruence. }
    rewrite Hs.
    destruct (string_of_uint_head _ Hnil) as (c & r & Hc & _ & _).
    unfold Atoi. rewrite Hc, <- Hc, parseDigits_uint, Unsigned.of_to.
    cbn [Z.of_N]. change (- Z.pos p) with (Z.neg p). now rewrite Hn.
Qed.

(** ** The entity catalog and the validations of [Query] *)

Ltac solve_In :=
  cbn;
  repeat match goal with
         | |- _ \/ _ => first [left; reflexivity | right]
         end;
  try reflexivity.

Lemma IsValidEntity_catalog (entity : string) :
  api.IsValidEntity entity = true <-> In entity spec.catalogNames.
Proof.
  unfold api.IsValidEntity. split.
  - rewrite existsb_exists.
    intros (e & He & Heq). apply String.eqb_eq in Heq. subst entity.
    unfold api.GetSupportedEntities in He. cbn [In] in He.
    repeat (destruct He as [<- | He]; [solve_In |]). contradiction.
  - intros Hin. cbn [spec.catalogNames In] in Hin.
    repeat (destruct Hin as [<- | Hin]; [reflexivity |]).
    contradiction.
Qed.

Lemma IsValidEntity_not_catalog (entity : string) :
  ~ In entity spec.catalogNames -> api.IsValidEntity entity = false.
Proof.
  intros Hn. destruct (api.IsValidEntity entity) eqn:E; [| reflexivity].
  apply IsValidEntity_catalog in E. contradiction.
Qed.

Lemma validate_unsupported (p : api.QueryParams) :
  ~ In (api.Entity p) spec.catalogNames ->
  api.validate p = Some ("unsupported entity: " +:+ api.Entity p).
Proof.
  intros Hn. unfold api.validate. now rewrite (IsValidEntity_not_catalog _ Hn).
Qed.

Lemma validate_skip_over (p : api.QueryParams) :
  In (api.Entity p) spec.catalogNames ->
  0 < api.Skip p ->
  api.GetEntitySkipLimit (api.Entity p) < api.Skip p ->
  api.validate p
  = Some ("skip value " +:+ Itoa (api.Skip p) +:+ " exceeds limit "
          +:+ Itoa (api.GetEntitySkipLimit (api.Entity p))
          +:+ " for entity " +:+ api.Entity p).
Proof.
  intros Hin Hpos Hlim. unfold api.validate.
  apply IsValidEntity_catalog in Hin. rewrite Hin. cbn [negb].
  apply Z.ltb_lt in Hpos, Hlim. now rewrite Hpos, Hlim.
Qed.

Lemma validate_within (p : api.QueryParams) :
  In (api.Entity p) spec.catalogNames ->
  api.Skip p <= api.GetEntitySkipLimit (api.Entity p) ->
  api.validate p = None.
Proof.
  intros Hin Hle. unfold api.validate.
  apply IsValidEntity_catalog in Hin. rewrite Hin. cbn [negb].
  apply Z.ltb_ge in Hle. rewrite Hle. now rewrite andb_false_r.
Qed.

Lemma Query_rejected `{GoRuntime} `{auth.TokenCodec} `{api.ApiCodec}
  (c : api.Client) (p : api.QueryParams) (w : World) (e : string) :
  api.validate p = Some e ->
  api.Query c p w = ((c, Err e), snd (Now w)).
Proof. intros Hv. unfold api.Query, Now. cbn [snd]. now rewrite Hv. Qed.


Lemma Query_proceeds `{GoRuntime} `{auth.TokenCodec} `{api.ApiCodec}
  (c : api.Client) (p : api.QueryParams) (w : World) :
  api.validate p = None -> spec.proceeds c p w.
Proof.
  intros Hv. unfold spec.proceeds, api.Query, Now. cbn [snd]. rewrite Hv.
  destruct (auth.GetToken _ _) as [[oc [token | e]] w1]; cbv beta iota zeta;
    [| now split].
  destruct (newRequestError _ _); [now split |].
  unfold httpDo. destruct (w_http _ _) as [e | e | status enc raw];
    cbv beta iota zeta; [now split | now split |].
  destruct (api.readBody _ _); [| now split].
  destruct (api.decodeQueryBody _ _); now split.
Qed.

(** C5.  A request whose entity is not one of the nine catalog names, or
    whose positive skip exceeds the entity's skip limit, makes [Query]
    return the validation error that names the entity, or the skip value
    and the limit; the token cache is untouched and no request has been
    sent (the world differs only by the clock read that opens [Query]).
    A request with a catalog entity and a skip within the limit proceeds:
    the token is fetched and, with a token, the GET is sent. *)
Theorem query_validates_before_network `{GoRuntime} `{auth.TokenCodec} `{api.ApiCodec}
  (c : api.Client) (p : api.QueryParams) (w : World) :
  (~ In (api.Entity p) spec.catalogNames ->
   api.Query c p w
   = ((c, Err ("unsupported entity: " +:+ api.Entity p)), snd (Now w))
   /\ w_trace (snd (Now w)) = w_trace w)
  /\ (In (api.Entity p) spec.catalogNames ->
      0 < api.Skip p ->
      api.GetEntitySkipLimit (api.Entity p) < api.Skip p ->
      api.Query c p w
      = ((c, Err ("skip value " +:+ Itoa (api.Skip p) +:+ " exceeds limit "
                  +:+ Itoa (api.GetEntitySkipLimit (api.Entity p))
                  +:+ " for entity " +:+ api.Entity p)), snd (Now w))
      /\ w_trace (snd (Now w)) = w_trace w)
  /\ (In (api.Entity p) spec.catalogNames ->
      api.Skip p <= api.GetEntitySkipLimit (api.Entity p) ->
      spec.proceeds c p w).
Proof.
  split; [| split].
  - intros Hn. split; [| reflexivity].
    apply Query_rejected, validate_unsupported, Hn.
  - intros Hin Hpos Hlim. split; [| reflexivity].
    now apply Query_rejected, validate_skip_over.
  - intros Hin Hle. now apply Query_proceeds, validate_within.
Qed.

(** ** The parameter set built by [Query] *)

Lemma lookup_cond_Set (b : bool) (m : Values) (k' v k : string) :
  (if b then Set_ m k' v else m) !! k
  = if b && String.eqb k' k then Some [v] else m !! k.
Proof.
  destruct b; cbn [andb]; [| reflexivity]. unfold Set_.
  destruct (String.eqb k' k) eqn:E.
  - apply String.eqb_eq in E. subst. apply lookup_insert_eq.
  - apply String.eqb_neq in E. now apply lookup_insert_ne.
Qed.

(** Decide the comparisons of two string literals in the goal. *)
Ltac eval_key_tests :=
  repeat match goal with
         | |- context [String.eqb ?a ?b] =>
             let v := eval vm_compute in (String.eqb a b) in
             match v with
             | true => change (String.eqb a b) with true
             | false => change (String.eqb a b) with false
             end
         end;
  rewrite ?andb_false_r, ?andb_true_r.

Lemma buildQueryParams_lookup (p : api.QueryParams) (k : string) :
  api.buildQueryParams p !! k
  = if api.IgnoreCase p && String.eqb "$ignorecase" k then Some ["true"]
    else if api.IgnoreNulls p && String.eqb "$ignorenulls" k then Some ["true"]
    else if negb (String.eqb (api.OrderBy p) "") && String.eqb "$orderby" k
         then Some [api.OrderBy p]
    else if (0 <? api.Skip p) && String.eqb "$skip" k then Some [Itoa (api.Skip p)]
    else if (0 <? api.Top p) && String.eqb "$top" k then Some [Itoa (api.Top p)]
    else if negb (String.eqb (api.Filter p) "") && String.eqb "$filter" k
         then Some [api.Filter p]
    else if negb (String.eqb (api.Select p) "") && String.eqb "$select" k
         then Some [api.Select p]
    else None.
Proof.
  unfold api.buildQueryParams. rewrite !lookup_cond_Set. now rewrite lookup_empty.
Qed.

Lemma buildQueryParams_keys (p : api.QueryParams) (k : string) :
  api.buildQueryParams p !! k <> None -> In k spec.parameterNames.
Proof.
  rewrite buildQueryParams_lookup. intros Hk.
  repeat match type of Hk with
         | context [String.eqb ?a k] =>
             destruct (String.eqb a k) eqn:E;
             [ apply String.eqb_eq in E; subst k; solve_In
             | clear E; rewrite ?andb_false_r in Hk; cbv beta iota in Hk ]
         end.
  congruence.
Qed.

Lemma buildQueryParams_withExpand (p : api.QueryParams) (x : string) :
  api.buildQueryParams (spec.withExpand p x) = api.buildQueryParams p.
Proof. reflexivity. Qed.

Lemma parseArguments_entity `{GoRuntime} (args : gmap string GoValue) (entity : string) :
  args !! "entity" = Some (VString entity) ->
  tools.parseArguments args
  = Ok {| api.Entity := entity;
          api.Select := tools.trimmedArg args "select" "";
          api.Filter := tools.trimmedArg args "filter" "";
          api.Top := tools.intArg args "top" 0;
          api.Skip := tools.intArg args "skip" 0;
          api.OrderBy := tools.trimmedArg args "orderby" "";
          api.Expand := tools.trimmedArg args "expand" "";
          api.IgnoreNulls := tools.boolArg args "ignorenulls" true;
          api.IgnoreCase := tools.boolArg args "ignorecase" false |}.
Proof. intros He. unfold tools.parseArguments. now rewrite He. Qed.

Lemma parseArguments_Ok_fields `{GoRuntime} (args : gmap string GoValue)
  (p : api.QueryParams) :
  tools.parseArguments args = Ok p ->
  api.Top p = tools.intArg args "top" 0
  /\ api.Skip p = tools.intArg args "skip" 0
  /\ api.Expand p = tools.trimmedArg args "expand" "".
Proof.
  unfold tools.parseArguments.
  destruct (assertString (args !! "entity")); [| discriminate].
  intros [= <-]. now repeat split.
Qed.

Ltac solve_key_lookup :=
  rewrite buildQueryParams_lookup; eval_key_tests; cbv beta iota;
  repeat match goal with
         | |- context [String.eqb ?a ?b] => destruct (String.eqb a b)
         end;
  cbn [negb];
  repeat match goal with
         | |- context [if ?b then _ else _] => destruct b
         end;
  reflexivity.

Lemma buildQueryParams_top (p : api.QueryParams) :
  api.buildQueryParams p !! "$top"
  = (if 0 <? api.Top p then Some [Itoa (api.Top p)] else None).
Proof. solve_key_lookup. Qed.

Lemma buildQueryParams_skip (p : api.QueryParams) :
  api.buildQueryParams p !! "$skip"
  = (if 0 <? api.Skip p then Some [Itoa (api.Skip p)] else None).
Proof. solve_key_lookup. Qed.

Lemma buildQueryParams_no_expand (p : api.QueryParams) :
  api.buildQueryParams p !! "$expand" = None.
Proof. solve_key_lookup. Qed.

(** C7.  The parameter set [Query] builds holds, for every field, exactly
    this: [$select], [$filter], [$orderby] when the string is not empty;
    [$top], [$skip] when the number is positive; [$ignorenulls],
    [$ignorecase] when the flag is set; and no other key.  So a parameter
    is present only for a non-empty or non-zero field, an empty or zero
    field gives no parameter, and a tool call without [skip] gives no
    [$skip] parameter. *)
Theorem parameters_only_for_set_fields `{GoRuntime} (p : api.QueryParams) :
  let q := api.buildQueryParams p in
  q !! "$select"
    = (if String.eqb (api.Select p) "" then None else Some [api.Select p])
  /\ q !! "$filter"
    = (if String.eqb (api.Filter p) "" then None else Some [api.Filter p])
  /\ q !! "$top" = (if 0 <? api.Top p then Some [Itoa (api.Top p)] else None)
  /\ q !! "$skip" = (if 0 <? api.Skip p then Some [Itoa (api.Skip p)] else None)
  /\ q !! "$orderby"
    = (if String.eqb (api.OrderBy p) "" then None else Some [api.OrderBy p])
  /\ q !! "$ignorenulls" = (if api.IgnoreNulls p then Some ["true"] else None)
  /\ q !! "$ignorecase" = (if api.IgnoreCase p then Some ["true"] else None)
  /\ (forall k, q !! k <> None -> In k spec.parameterNames)
  /\ (api.Top p = 0 -> q !! "$top" = None)
  /\ (api.Skip p = 0 -> q !! "$skip" = None)
  /\ (forall args p',
        args !! "skip" = None ->
        tools.parseArguments args = Ok p' ->
        api.buildQueryParams p' !! "$skip" = None).
Proof.
  cbv zeta. repeat split.
  1-7: solve_key_lookup.
  - apply buildQueryParams_keys.
  - intros Ht. now rewrite buildQueryParams_top, Ht.
  - intros Hs. now rewrite buildQueryParams_skip, Hs.
  - intros args p' Hskip Hp. apply parseArguments_Ok_fields in Hp as (_ & Hs & _).
    unfold tools.intArg in Hs. rewrite Hskip in Hs.
    now rewrite buildQueryParams_skip, Hs.
Qed.

(** ** The expand argument *)

Lemma validate_withExpand (p : api.QueryParams) (x : string) :
  api.validate (spec.withExpand p x) = api.validate p.
Proof. reflexivity. Qed.

Lemma queryURL_withExpand (c : api.Client) (p : api.QueryParams) (x : string) :
  api.queryURL c (spec.withExpand p x) = api.queryURL c p.
Proof. reflexivity. Qed.

(** Two requests that differ only in [expand] leave the same world behind:
    the same requests sent, the same clock reads. *)
Lemma Query_world_withExpand `{GoRuntime} `{auth.TokenCodec} `{api.ApiCodec}
  (c : api.Client) (p : api.QueryParams) (x : string) (w : World) :
  snd (api.Query c (spec.withExpand p x) w) = snd (api.Query c p w)
  /\ fst (fst (api.Query c (spec.withExpand p x) w)) = fst (fst (api.Query c p w)).
Proof.
  unfold api.Query. rewrite validate_withExpand, queryURL_withExpand.
  destruct (Now w) as [startTime w0].
  destruct (api.validate p); [now split |].
  destruct (auth.GetToken _ _) as [[oc [token | e]] w1]; [| now split].
  destruct (newRequestError _ _); [now split |].
  destruct (httpDo _ _) as [[e | e | status enc raw] w2]; [now split | now split |].
  destruct (api.readBody _ _); [| now split].
  destruct (api.decodeQueryBody _ _); [| now split].
  destruct (Now w2). now split.
Qed.

(** C10.  A tool call whose [expand] argument is the string [v] is parsed
    into a request whose [Expand] field is [v] with the surrounding white
    space trimmed; the parameter set [Query] builds from the request has
    no [$expand] key (its keys are among [$select], [$filter], [$top],
    [$skip], [$orderby], [$ignorenulls], [$ignorecase]); and the URL, the
    requests sent and the token cache are the same whatever the [expand]
    value is. *)
Theorem expand_is_dropped `{GoRuntime} `{auth.TokenCodec} `{api.ApiCodec}
  (args : gmap string GoValue) (entity v : string) :
  args !! "entity" = Some (VString entity) ->
  args !! "expand" = Some (VString v) ->
  exists p,
    tools.parseArguments args = Ok p
    /\ api.Expand p = TrimSpace v
    /\ api.buildQueryParams p !! "$expand" = None
    /\ (forall k, api.buildQueryParams p !! k <> None -> In k spec.parameterNames)
    /\ (forall c x, api.queryURL c (spec.withExpand p x) = api.queryURL c p)
    /\ (forall c x w,
          snd (api.Query c (spec.withExpand p x) w) = snd (api.Query c p w)
          /\ fst (fst (api.Query c (spec.withExpand p x) w))
             = fst (fst (api.Query c p w))).
Proof.
  intros He Hx. eexists. split; [apply (parseArguments_entity _ _ He) |].
  split; [| split; [| split; [| split]]].
  - cbn [api.Expand]. unfold tools.trimmedArg. now rewrite Hx.
  - apply buildQueryParams_no_expand.
  - apply buildQueryParams_keys.
  - intros c x. apply queryURL_withExpand.
  - intros c x w. apply Query_world_withExpand.
Qed.

(** ** Coercion of [top] and [skip] *)

Lemma unsignedPart_unsigned (c : ascii) (r : string) :
  c <> "-"%char -> c <> "+"%char -> spec.unsignedPart (String c r) = String c r.
Proof.
  intros Hm Hp. unfold spec.unsignedPart.
  destruct c as [[] [] [] [] [] [] [] []]; try reflexivity; congruence.
Qed.

Lemma digitValue_isDigit (c : ascii) :
  spec.isDigit c = false -> digitValue c = None.
Proof.
  unfold spec.isDigit, digitValue, byteOf. intros ->. reflexivity.
Qed.

Lemma parseDigits_non_digit (s : string) (acc : Z) :
  forallb spec.isDigit (list_ascii_of_string s) = false -> parseDigits acc s = None.
Proof.
  revert acc. induction s as [| c s IH]; intros acc; cbn [list_ascii_of_string forallb parseDigits].
  - discriminate.
  - destruct (spec.isDigit c) eqn:Hc; cbn [andb].
    + intros Hs. destruct (digitValue c); [now apply IH | reflexivity].
    + intros _. now rewrite (digitValue_isDigit _ Hc).
Qed.

Lemma Atoi_non_literal (s : string) :
  spec.isDecimalLiteral s = false -> Atoi s = None.
Proof.
  unfold spec.isDecimalLiteral. destruct s as [| c r]; [reflexivity |].
  assert (Hbody : forall body : string,
             match list_ascii_of_string body with
             | [] => false
             | l => forallb spec.isDigit l
             end = false ->
             forall neg : bool,
               match body with
               | EmptyString => None
               | _ => match parseDigits 0 body with
                      | Some n =>
                          let v := if neg then - n else n in
                          if in_int64 v then Some v else None
                      | None => None
                      end
               end = None).
  { intros body Hb neg. destruct body as [| c' r']; [reflexivity |].
    cbn [list_ascii_of_string] in Hb.
    now rewrite (parseDigits_non_digit (String c' r') 0 Hb). }
  destruct (ascii_dec c "-"%char) as [-> | Hm];
    [intros Hl; exact (Hbody r Hl true) |].
  destruct (ascii_dec c "+"%char) as [-> | Hp];
    [intros Hl; exact (Hbody r Hl false) |].
  rewrite (unsignedPart_unsigned c r Hm Hp). intros Hl.
  rewrite (Atoi_unsigned _ c r eq_refl Hm Hp).
  cbn [list_ascii_of_string] in Hl.
  now rewrite (parseDigits_non_digit (String c r) 0 Hl).
Qed.

Lemma float64Trunc_denotes (f : spec_float) (n : Z) :
  spec.float64Denotes f n -> float64Trunc f = Some n.
Proof.
  destruct f as [s | s | | s m e]; cbn [spec.float64Denotes float64Trunc];
    [now intros -> | contradiction | contradiction |].
  destruct (0 <=? e) eqn:He.
  - apply Z.leb_le in He. intros ->. rewrite Z.shiftl_mul_pow2 by assumption.
    destruct s; f_equal; lia.
  - apply Z.leb_gt in He. intros Hm.
    replace e with (- - e) by lia.
    rewrite Z.shiftl_opp_r, Z.shiftr_div_pow2 by lia.
    assert (Hpow : 0 < 2 ^ (- e)) by (apply Z.pow_pos_nonneg; lia).
    destruct s; f_equal.
    + replace (Z.pos m) with (- n * 2 ^ (- e)) by lia.
      rewrite Z.div_mul by lia. lia.
    + rewrite Hm. now rewrite Z.div_mul by lia.
Qed.

Lemma coerceInt_numeric `{GoRuntime} (n : Z) (v : GoValue) :
  in_int64 n = true ->
  spec.denotes v n ->
  tools.coerceInt v = Some n.
Proof.
  intros Hn Hv. destruct v as [| b | f | m | s | l | kv];
    cbn [spec.denotes tools.coerceInt] in Hv |- *; try contradiction.
  - unfold float64ToInt. now rewrite (float64Trunc_denotes _ _ Hv), Hn.
  - now subst m.
  - subst s. now apply Atoi_Itoa.
Qed.

Lemma coerceInt_nonNumeric `{GoRuntime} (v : GoValue) :
  spec.nonNumeric v -> tools.coerceInt v = None.
Proof.
  destruct v; cbn [spec.nonNumeric tools.coerceInt]; try reflexivity;
    try contradiction.
  apply Atoi_non_literal.
Qed.

Lemma parseArguments_insert `{GoRuntime} (args : gmap string GoValue)
  (entity k : string) (v : GoValue) :
  args !! "entity" = Some (VString entity) ->
  k = "top" \/ k = "skip" ->
  exists p,
    tools.parseArguments (<[k := v]> args) = Ok p
    /\ api.Entity p = entity
    /\ api.Top p = (if String.eqb k "top"
                    then default 0 (tools.coerceInt v)
                    else tools.intArg args "top" 0)
    /\ api.Skip p = (if String.eqb k "skip"
                     then default 0 (tools.coerceInt v)
                     else tools.intArg args "skip" 0).
Proof.
  intros He Hk.
  assert (He' : <[k := v]> args !! "entity" = Some (VString entity)).
  { rewrite lookup_insert_ne; [assumption |]. destruct Hk as [-> | ->]; discriminate. }
  eexists. split; [apply (parseArguments_entity _ _ He') |].
  cbn [api.Entity api.Top api.Skip]. split; [reflexivity |].
  unfold tools.intArg.
  destruct Hk as [-> | ->]; cbn [String.eqb Ascii.eqb Bool.eqb];
    rewrite lookup_insert_eq, lookup_insert_ne by discriminate;
    (split; [| try reflexivity]); try reflexivity;
    now destruct (tools.coerceInt v).
Qed.

(** C8.  For [top] and for [skip]: the integer [n] arriving as a Go [int],
    as a floating-point number equal to [n], or as the decimal string of
    [n] sets the field to the same [n]; a value that is none of these (nil,
    a boolean, a list, an object, or a string that is not an optional sign
    followed by decimal digits) leaves the field at its zero value, and the
    arguments still parse without an error. *)
Theorem numeric_arguments_coerced `{GoRuntime} (args : gmap string GoValue)
  (entity k : string) :
  args !! "entity" = Some (VString entity) ->
  k = "top" \/ k = "skip" ->
  let field := fun p => if String.eqb k "top" then api.Top p else api.Skip p in
  (forall n v,
      in_int64 n = true ->
      spec.denotes v n ->
      exists p, tools.parseArguments (<[k := v]> args) = Ok p /\ field p = n)
  /\ (forall v,
        spec.nonNumeric v ->
        exists p, tools.parseArguments (<[k := v]> args) = Ok p /\ field p = 0).
Proof.
  intros He Hk field. split.
  - intros n v Hn Hv.
    destruct (parseArguments_insert args entity k v He Hk) as (p & Hp & _ & Ht & Hs).
    exists p. split; [assumption |]. subst field. cbv beta.
    rewrite (coerceInt_numeric n v Hn Hv) in Ht, Hs.
    destruct Hk as [-> | ->]; cbn in Ht, Hs |- *; assumption.
  - intros v Hv.
    destruct (parseArguments_insert args entity k v He Hk) as (p & Hp & _ & Ht & Hs).
    exists p. split; [assumption |]. subst field. cbv beta.
    rewrite (coerceInt_nonNumeric v Hv) in Ht, Hs.
    destruct Hk as [-> | ->]; cbn in Ht, Hs |- *; assumption.
Qed.

(** ** The top argument *)

Lemma parseArguments_inv `{GoRuntime} (args : gmap string GoValue) (p : api.QueryParams) :
  tools.parseArguments args = Ok p ->
  exists entity, args !! "entity" = Some (VString entity) /\ api.Entity p = entity.
Proof.
  unfold tools.parseArguments.
  destruct (args !! "entity") as [[| | | | entity | |] |] eqn:He; cbn [assertString];
    try discriminate.
  intros [= <-]. now exists entity.
Qed.

Lemma validate_ext (p p' : api.QueryParams) :
  api.Entity p = api.Entity p' -> api.Skip p = api.Skip p' ->
  api.validate p = api.validate p'.
Proof. unfold api.validate. now intros -> ->. Qed.

(** C6, as the program has it.  A tool call without [top] yields a
    request whose [Top] is 0 and a parameter set without [$top].  A
    supplied [top] that coerces to the integer [n] yields [Top = n]: a
    positive [n], whether or not it exceeds 1000, goes out unchanged as
    [$top], and [n <= 0] gives no [$top] parameter.  No [top] value makes
    the call fail: with any value at [top] the arguments parse, and the
    validations of [Query] give the same verdict as without it. *)
Theorem top_forwarded_unchecked `{GoRuntime} (args : gmap string GoValue)
  (p : api.QueryParams) :
  tools.parseArguments args = Ok p ->
  (args !! "top" = None ->
   api.Top p = 0 /\ api.buildQueryParams p !! "$top" = None)
  /\ (forall v n,
        args !! "top" = Some v ->
        tools.coerceInt v = Some n ->
        api.Top p = n
        /\ api.buildQueryParams p !! "$top"
           = (if 0 <? n then Some [Itoa n] else None))
  /\ (forall v,
        exists p',
          tools.parseArguments (<["top" := v]> args) = Ok p'
          /\ api.validate p' = api.validate p).
Proof.
  intros Hp.
  pose proof (parseArguments_Ok_fields _ _ Hp) as (Ht & Hs & _).
  pose proof (buildQueryParams_top p) as Hq.
  split; [| split].
  - intros Hnone. unfold tools.intArg in Ht. rewrite Hnone in Ht.
    rewrite Hq, Ht. now split.
  - intros v n Hv Hn. unfold tools.intArg in Ht. rewrite Hv, Hn in Ht.
    rewrite Hq, Ht. now split.
  - intros v. destruct (parseArguments_inv _ _ Hp) as (entity & He & Hent).
    destruct (parseArguments_insert args entity "top" v He (or_introl eq_refl))
      as (p' & Hp' & He' & _ & Hs').
    exists p'. split; [assumption |].
    apply validate_ext; [congruence |]. cbn in Hs'. congruence.
Qed.

(** ** The token cache, one caller *)

Lemma checkCache_sameNetwork (c : auth.OAuthClient) (w : World) :
  spec.sameNetwork w (snd (auth.checkCache c w)).
Proof.
  unfold auth.checkCache, spec.sameNetwork.
  destruct (auth.token c); cbn; now repeat split.
Qed.

Lemma checkCache_miss (c : auth.OAuthClient) (w : World) :
  spec.noValidToken c w -> fst (auth.checkCache c w) = None.
Proof.
  intros Hno. specialize (Hno (w_reads w)).
  unfold auth.checkCache, auth.cachedToken in *.
  destruct (auth.token c); cbn in *; [| reflexivity].
  now destruct (_ <? _).
Qed.

Lemma noValidToken_sameNetwork (c : auth.OAuthClient) (w w1 : World) :
  spec.sameNetwork w w1 -> spec.noValidToken c w -> spec.noValidToken c w1.
Proof. intros (Hc & _ & _) Hno n. rewrite Hc. apply Hno. Qed.

Lemma decodeAuthOutcome_failure `{GoRuntime} `{auth.TokenCodec}
  (c : auth.OAuthClient) (o : HttpOutcome) :
  spec.refreshFailure c o ->
  newRequestError "POST" (auth.authURL c) = None ->
  exists e, auth.decodeAuthOutcome o = Err e.
Proof.
  intros Hf Hnone. destruct Hf as [o e He | e | e | status enc body Hs | enc body e He];
    cbn [auth.decodeAuthOutcome].
  - congruence.
  - eauto.
  - eauto.
  - apply Z.eqb_neq in Hs. rewrite Hs. cbn [negb]. eauto.
  - cbn. rewrite He. eauto.
Qed.

(** The refresh path of [GetToken] when the cache holds no valid token:
    whether it fails or succeeds is decided by the request creation and by
    what the network answers to the one request sent. *)
Lemma GetToken_refresh `{GoRuntime} `{auth.TokenCodec} (c : auth.OAuthClient) (w : World) :
  spec.noValidToken c w ->
  exists w1, spec.sameNetwork w w1 /\
    auth.GetToken c w =
    match newRequestError "POST" (auth.authURL c) with
    | Some e => ((c, Err ("failed to create request: " +:+ e)), w1)
    | None =>
        let '(o, w2) := httpDo (auth.authRequest c) w1 in
        match auth.decodeAuthOutcome o with
        | Err e => ((c, Err e), w2)
        | Ok t =>
            let '(now, w3) := Now w2 in
            ((auth.storeToken c t now, Ok (auth.AccessToken t)), w3)
        end
    end.
Proof.
  intros Hno. unfold auth.GetToken.
  pose proof (checkCache_miss c w Hno) as Hm.
  pose proof (checkCache_sameNetwork c w) as Hs.
  destruct (auth.checkCache c w) as [r w0]. cbn [fst snd] in Hm, Hs. subst r.
  unfold auth.refreshToken.
  pose proof (checkCache_miss c w0 (noValidToken_sameNetwork c w w0 Hs Hno)) as Hm'.
  pose proof (checkCache_sameNetwork c w0) as Hs'.
  destruct (auth.checkCache c w0) as [r w1]. cbn [fst snd] in Hm', Hs'. subst r.
  exists w1. split; [| reflexivity].
  destruct Hs as (? & ? & ?), Hs' as (? & ? & ?). repeat split; congruence.
Qed.

(** C4.  When the cache holds no valid token and the refresh fails (the
    request cannot be created, the network fails, the status is not 200,
    the body cannot be read or does not parse), [GetToken] returns an
    error and the client, token and expiry included, is as before.  In
    every call the client returned is the one passed in, unless the one
    request sent was answered with status 200 and a body that parses:
    then it is the client with that token stored, and the result is the
    new access token. *)
Theorem failed_refresh_keeps_cache `{GoRuntime} `{auth.TokenCodec}
  (c : auth.OAuthClient) (w : World) :
  (spec.noValidToken c w ->
   spec.refreshFailure c (w_http w (length (w_trace w))) ->
   exists e w', auth.GetToken c w = ((c, Err e), w'))
  /\ (forall c' r w',
        auth.GetToken c w = ((c', r), w') ->
        (is_err r = true -> c' = c)
        /\ (c' = c
            \/ exists t now,
                 newRequestError "POST" (auth.authURL c) = None
                 /\ auth.decodeAuthOutcome (w_http w (length (w_trace w))) = Ok t
                 /\ c' = auth.storeToken c t now
                 /\ r = Ok (auth.AccessToken t)
                 /\ w_trace w' = auth.authRequest c :: w_trace w)).
Proof.
  split.
  - intros Hno Hf.
    destruct (GetToken_refresh c w Hno) as (w1 & (Hc & Hh & Ht) & ->).
    destruct (newRequestError "POST" (auth.authURL c)) as [e |] eqn:Hreq; [eauto |].
    unfold httpDo. rewrite Hh, Ht.
    destruct (decodeAuthOutcome_failure c _ Hf Hreq) as (e & ->). eauto.
  - intros c' r w'. unfold auth.GetToken.
    pose proof (checkCache_sameNetwork c w) as Hs.
    destruct (auth.checkCache c w) as [[tok |] w0]; cbn [snd] in Hs.
    { intros [= <- <- <-]. split; [reflexivity | now left]. }
    unfold auth.refreshToken.
    pose proof (checkCache_sameNetwork c w0) as Hs'.
    destruct (auth.checkCache c w0) as [[tok |] w1]; cbn [snd] in Hs'.
    { intros [= <- <- <-]. split; [reflexivity | now left]. }
    assert (Hh : w_http w1 = w_http w /\ w_trace w1 = w_trace w).
    { destruct Hs as (? & ? & ?), Hs' as (? & ? & ?). split; congruence. }
    destruct Hh as (Hh & Ht).
    destruct (newRequestError "POST" (auth.authURL c)) as [e |] eqn:Hreq.
    { intros [= <- <- <-]. split; [reflexivity | now left]. }
    unfold httpDo. rewrite Hh, Ht.
    destruct (auth.decodeAuthOutcome _) as [t | e] eqn:Hd.
    + unfold Now. intros [= <- <- <-]. split; [discriminate |].
      right. exists t. eexists. cbn [w_trace]. now repeat split.
    + intros [= <- <- <-]. split; [reflexivity | now left].
Qed.

Lemma lifetime_3600 (t : auth.TokenResponse) :
  auth.ExpiresIn t = 3600 -> auth.lifetime t = 3540 * Second.
Proof. unfold auth.lifetime. intros ->. reflexivity. Qed.

Lemma GetToken_cached `{GoRuntime} `{auth.TokenCodec}
  (c : auth.OAuthClient) (t : auth.TokenResponse) (w : World) :
  auth.token c = Some t ->
  w_clock w (w_reads w) < auth.tokenExpiry c ->
  auth.GetToken c w = ((c, Ok (auth.AccessToken t)), snd (Now w)).
Proof.
  intros Ht Hlt. unfold auth.GetToken, auth.checkCache. rewrite Ht.
  unfold Now. cbn [snd]. apply Z.ltb_lt in Hlt. now rewrite Hlt.
Qed.

Lemma GetToken_expired `{GoRuntime} `{auth.TokenCodec}
  (c : auth.OAuthClient) (t : auth.TokenResponse) (w : World) :
  auth.token c = Some t ->
  auth.tokenExpiry c <= w_clock w (w_reads w) ->
  w_clock w (w_reads w) <= w_clock w (S (w_reads w)) ->
  newRequestError "POST" (auth.authURL c) = None ->
  w_trace (snd (auth.GetToken c w)) = auth.authRequest c :: w_trace w.
Proof.
  intros Ht Hge Hmono Hreq.
  unfold auth.GetToken, auth.refreshToken, auth.checkCache. rewrite Ht.
  unfold Now. cbn [w_clock w_reads].
  apply Z.ltb_ge in Hge. rewrite Hge.
  assert (Hge2 : (w_clock w (S (w_reads w)) <? auth.tokenExpiry c) = false).
  { apply Z.ltb_ge. apply Z.ltb_ge in Hge. lia. }
  rewrite Hge2, Hreq. unfold httpDo. cbn [w_trace w_http].
  destruct (auth.decodeAuthOutcome _); reflexivity.
Qed.

(** C3.  Let the cache be as a refresh at time [t0] leaves it for a token
    with [expires_in = 3600].  A call of [GetToken] that reads the clock
    strictly before [t0 + 3540 s] returns the cached access token; the
    cache is unchanged and nothing is sent.  A call that reads the clock at
    or after [t0 + 3540 s] (the clock not running backwards between its
    two reads) sends the token request.  In particular the token is
    returned at [t0 + 3539 s], and a refresh starts at [t0 + 3541 s]. *)
Theorem cached_token_valid_for_3540s `{GoRuntime} `{auth.TokenCodec}
  (c0 : auth.OAuthClient) (t : auth.TokenResponse) (t0 : Z) (w : World) :
  auth.ExpiresIn t = 3600 ->
  let c := auth.storeToken c0 t t0 in
  let now := w_clock w (w_reads w) in
  (now < t0 + 3540 * Second ->
   auth.GetToken c w = ((c, Ok (auth.AccessToken t)), snd (Now w))
   /\ w_trace (snd (Now w)) = w_trace w)
  /\ (t0 + 3540 * Second <= now ->
      now <= w_clock w (S (w_reads w)) ->
      newRequestError "POST" (auth.authURL c) = None ->
      w_trace (snd (auth.GetToken c w)) = auth.authRequest c :: w_trace w)
  /\ (now = t0 + 3539 * Second ->
      auth.GetToken c w = ((c, Ok (auth.AccessToken t)), snd (Now w)))
  /\ (now = t0 + 3541 * Second ->
      now <= w_clock w (S (w_reads w)) ->
      newRequestError "POST" (auth.authURL c) = None ->
      w_trace (snd (auth.GetToken c w)) = auth.authRequest c :: w_trace w).
Proof.
  intros He c now.
  assert (Hexp : auth.tokenExpiry c = t0 + 3540 * Second).
  { subst c. cbn [auth.storeToken auth.tokenExpiry]. now rewrite lifetime_3600. }
  assert (Htok : auth.token c = Some t) by reflexivity.
  assert (Hsec : Second = 1000000000) by reflexivity.
  split; [| split; [| split]].
  - intros Hlt. split; [| reflexivity].
    apply (GetToken_cached c t w Htok). fold now. lia.
  - intros Hge Hmono Hreq. apply (GetToken_expired c t w Htok); fold now; try lia.
    assumption.
  - intros Hnow. apply (GetToken_cached c t w Htok). fold now. lia.
  - intros Hnow Hmono Hreq. apply (GetToken_expired c t w Htok); fold now; try lia.
    assumption.
Qed.

(** ** Initialization and the credential check *)

Lemma Initialize_result `{GoRuntime} `{auth.TokenCodec} `{tools.MetadataCodec}
  (env : gmap string string) (s : main.MCPServer)
  (settings : option (gmap string GoValue)) (w : World) :
  exists cfg c1 help w1,
    main.Initialize env s settings w
    = (({| main.config := cfg; main.apiClient := Some c1;
           main.resoTool := Some (tools.NewResoQueryTool c1 cfg);
           main.helpTool := Some help;
           main.pendingSettings := main.pendingSettings s |}, None), w1)
    /\ cfg = (let '(cfg0, err) := config.LoadFromMCPSettings (main.config s) settings in
              match err with
              | Some _ => config.LoadFromEnv env cfg0
              | None => cfg0
              end).
Proof.
  unfold main.Initialize.
  destruct (config.LoadFromMCPSettings _ _) as [cfg0 err].
  destruct (tools.NewResoHelpToolWithAPI _ _) as [[help c'] w1].
  eexists _, _, _, _. split; reflexivity.
Qed.

Lemma Execute_without_credentials `{GoRuntime} `{auth.TokenCodec} `{api.ApiCodec}
  `{tools.Presenter} (t : tools.ResoQueryTool) (e : string)
  (args : gmap string GoValue) (w : World) :
  config.ValidateCredentials (tools.config t) = Some e ->
  tools.Execute t args w = ((t, tools.errorResult ("Configuration error: " +:+ e)), w).
Proof. intros Hv. unfold tools.Execute. now rewrite Hv. Qed.

Lemma ValidateCredentials_absent (c : config.Config) :
  config.ValidateCredentials c <> None
  <-> config.ClientID c = "" \/ config.ClientSecret c = "".
Proof.
  unfold config.ValidateCredentials.
  destruct (String.eqb (config.ClientID c) "") eqn:Hi.
  - apply String.eqb_eq in Hi. split; [now left | discriminate].
  - apply String.eqb_neq in Hi.
    destruct (String.eqb (config.ClientSecret c) "") eqn:Hs.
    + apply String.eqb_eq in Hs. split; [now right | discriminate].
    + apply String.eqb_neq in Hs. split; [congruence | tauto].
Qed.

(** C9.  Whatever the environment, the server state, the message and the
    world, [initialize] answers with its result and never with the -32603
    error, and leaves the query tool in place, bound to the server's
    configuration.  If that configuration lacks the client id or the
    client secret, the absence shows when the query tool is called: the
    call answers with a tool result that is an error, "Configuration
    error: ...", whatever the arguments, and the tool, the server and the
    world (clock reads and requests sent) are as before the call. *)
Theorem initialize_succeeds_credentials_checked_on_use
  `{GoRuntime} `{auth.TokenCodec} `{api.ApiCodec} `{tools.Presenter}
  `{tools.MetadataCodec} `{main.RpcCodec}
  (env : gmap string string) (s : main.MCPServer) (msg : main.MCPMessage) (w : World) :
  exists s' w' t,
    main.handleInitialize env s msg w
    = ((s', main.resultMessage (main.ID msg)
              (main.InitializeResult "2024-11-05" "constellation1-mcp-server" "1.0.0")),
       w')
    /\ main.resoTool s' = Some t
    /\ tools.config t = main.config s'
    /\ (config.ValidateCredentials (main.config s') <> None
        <-> config.ClientID (main.config s') = ""
            \/ config.ClientSecret (main.config s') = "")
    /\ (forall e,
          config.ValidateCredentials (main.config s') = Some e ->
          (forall args w1,
              tools.Execute t args w1
              = ((t, tools.errorResult ("Configuration error: " +:+ e)), w1))
          /\ (forall call params w1,
                main.Params call <> VNil ->
                main.decodeCallToolParams (main.Params call) = Ok params ->
                main.Name params = "reso_query" ->
                main.handleToolsCall s' call w1
                = ((s', main.resultMessage (main.ID call)
                          (main.CallToolResult
                             (tools.errorResult ("Configuration error: " +:+ e)))),
                   w1))).
Proof.
  unfold main.handleInitialize.
  destruct (Initialize_result env s (main.gatherSettings s (main.Params msg)) w)
    as (cfg & c1 & help & w1 & -> & _).
  eexists _, w1, _. split; [reflexivity |].
  cbn [main.resoTool main.config tools.config tools.NewResoQueryTool].
  split; [reflexivity |]. split; [reflexivity |].
  split; [apply ValidateCredentials_absent |].
  intros e He. split.
  - intros args w2. now apply Execute_without_credentials.
  - intros call params w2 Hnil Hdec Hname.
    unfold main.handleToolsCall. cbn [main.resoTool].
    revert Hnil Hdec.
    destruct (main.Params call); intros Hnil Hdec; [congruence | ..];
      rewrite Hdec, Hname; cbn [String.eqb Ascii.eqb Bool.eqb];
      rewrite Execute_without_credentials with (e := e) by assumption;
      reflexivity.
Qed.

(** ** Configuration sources *)

Lemma nonEmpty_stringy (v : string) : spec.stringy (spec.nonEmpty v).
Proof. unfold spec.nonEmpty. destruct (String.eqb v ""); [now left | right; eauto]. Qed.

Lemma firstDefined_single {A : Type} (o : option A) : spec.firstDefined [o] = o.
Proof. now destruct o. Qed.

Lemma firstDefined_app {A : Type} (l l' : list (option A)) :
  spec.firstDefined (l ++ l') = spec.firstDefined (spec.firstDefined l :: l').
Proof.
  induction l as [| [a |] l IH]; cbn [app spec.firstDefined]; [reflexivity | reflexivity |].
  exact IH.
Qed.

Lemma firstDefined_nested {A : Type} (a : option A) (l : list (option A)) :
  spec.firstDefined [a; spec.firstDefined l] = spec.firstDefined (a :: l).
Proof.
  destruct a; [reflexivity |].
  change (spec.firstDefined [spec.firstDefined l] = spec.firstDefined l).
  apply firstDefined_single.
Qed.

Lemma firstDefined_app_nested {A : Type} (l l' : list (option A)) :
  spec.firstDefined (l ++ [spec.firstDefined l']) = spec.firstDefined (l ++ l').
Proof.
  induction l as [| [a |] l IH]; cbn [app spec.firstDefined];
    [apply firstDefined_single | reflexivity | exact IH].
Qed.

Lemma firstDefined_stringy (l : list (option GoValue)) :
  Forall spec.stringy l -> spec.stringy (spec.firstDefined l).
Proof.
  induction 1 as [| o l Ho _ IH]; cbn [spec.firstDefined]; [now left |].
  destruct o; [assumption | exact IH].
Qed.

Lemma lookup_fromFlag_eq (v k : string) (m : gmap string GoValue) :
  main.fromFlag v k m !! k = spec.firstDefined [spec.nonEmpty v; m !! k].
Proof.
  unfold main.fromFlag, spec.nonEmpty.
  destruct (String.eqb v ""); cbn [negb spec.firstDefined].
  - now destruct (m !! k).
  - apply lookup_insert_eq.
Qed.

Lemma lookup_fromFlag_ne (v k k' : string) (m : gmap string GoValue) :
  k <> k' -> main.fromFlag v k m !! k' = m !! k'.
Proof.
  intros Hne. unfold main.fromFlag.
  destruct (negb _); [now apply lookup_insert_ne | reflexivity].
Qed.

Lemma lookup_fromEnvIfUnset_eq (env : gmap string string) (name k : string)
  (m : gmap string GoValue) :
  spec.stringy (m !! k) ->
  main.fromEnvIfUnset env name k m !! k
  = spec.firstDefined [m !! k; spec.nonEmpty (config.Getenv env name)].
Proof.
  intros Hs. unfold main.fromEnvIfUnset, spec.nonEmpty, indexIsNil.
  destruct Hs as [Hn | (s & Hs)].
  - rewrite Hn. cbn [spec.firstDefined].
    destruct (String.eqb _ ""); cbn [negb andb]; [assumption | apply lookup_insert_eq].
  - rewrite Hs. cbn [spec.firstDefined]. now rewrite andb_false_r.
Qed.

Lemma lookup_fromEnvIfUnset_ne (env : gmap string string) (name k k' : string)
  (m : gmap string GoValue) :
  k <> k' -> main.fromEnvIfUnset env name k m !! k' = m !! k'.
Proof.
  intros Hne. unfold main.fromEnvIfUnset.
  destruct (negb _ && _); [now apply lookup_insert_ne | reflexivity].
Qed.

Ltac stringy_sources :=
  apply firstDefined_stringy;
  repeat (apply Forall_cons_2; [apply nonEmpty_stringy |]);
  apply Forall_nil_2.

Lemma envSettings_lookup (flags : main.Flags) (env : gmap string string)
  (k : spec.credential) :
  main.envSettings flags env !! spec.keyName k
  = spec.firstDefined
      [ spec.commandLine flags k; spec.genericEnv env k;
        spec.domainEnv env k; spec.clientEnv env k ].
Proof.
  unfold main.envSettings.
  set (m1 := main.fromFlag (main.clientID flags) "client_id" ∅).
  set (m2 := main.fromFlag (main.clientSecret flags) "client_secret" m1).
  set (m3 := main.fromEnvIfUnset env "CLIENT_ID" "client_id" m2).
  set (m4 := main.fromEnvIfUnset env "CLIENT_SECRET" "client_secret" m3).
  set (m5 := main.fromEnvIfUnset env "RESO_CLIENT_ID" "client_id" m4).
  set (m6 := main.fromEnvIfUnset env "RESO_CLIENT_SECRET" "client_secret" m5).
  set (m7 := main.fromEnvIfUnset env "MCP_RESO_CLIENT_ID" "client_id" m6).
  destruct k; cbn [spec.keyName spec.commandLine spec.genericEnv spec.domainEnv spec.clientEnv].
  - rewrite lookup_fromEnvIfUnset_ne by discriminate.
    assert (F2 : m2 !! "client_id" = spec.firstDefined [spec.nonEmpty (main.clientID flags)]).
    { subst m2 m1. rewrite lookup_fromFlag_ne by discriminate.
      rewrite lookup_fromFlag_eq, lookup_empty.
      now destruct (spec.nonEmpty _). }
    assert (F4 : m4 !! "client_id"
                 = spec.firstDefined [spec.nonEmpty (main.clientID flags);
                                      spec.nonEmpty (config.Getenv env "CLIENT_ID")]).
    { subst m4 m3. rewrite lookup_fromEnvIfUnset_ne by discriminate.
      rewrite lookup_fromEnvIfUnset_eq by (rewrite F2; stringy_sources).
      rewrite F2. symmetry. apply (firstDefined_app [_] [_]). }
    assert (F6 : m6 !! "client_id"
                 = spec.firstDefined [spec.nonEmpty (main.clientID flags);
                                      spec.nonEmpty (config.Getenv env "CLIENT_ID");
                                      spec.nonEmpty (config.Getenv env "RESO_CLIENT_ID")]).
    { subst m6 m5. rewrite lookup_fromEnvIfUnset_ne by discriminate.
      rewrite lookup_fromEnvIfUnset_eq by (rewrite F4; stringy_sources).
      rewrite F4. symmetry. apply (firstDefined_app [_; _] [_]). }
    subst m7. rewrite lookup_fromEnvIfUnset_eq by (rewrite F6; stringy_sources).
    rewrite F6. symmetry. apply (firstDefined_app [_; _; _] [_]).
  - assert (F2 : m2 !! "client_secret"
                 = spec.firstDefined [spec.nonEmpty (main.clientSecret flags)]).
    { subst m2 m1. rewrite lookup_fromFlag_eq.
      rewrite lookup_fromFlag_ne by discriminate. rewrite lookup_empty.
      now destruct (spec.nonEmpty _). }
    assert (F4 : m4 !! "client_secret"
                 = spec.firstDefined [spec.nonEmpty (main.clientSecret flags);
                                      spec.nonEmpty (config.Getenv env "CLIENT_SECRET")]).
    { subst m4 m3.
      rewrite lookup_fromEnvIfUnset_eq;
        rewrite lookup_fromEnvIfUnset_ne by discriminate;
        rewrite F2; [| stringy_sources].
      symmetry. apply (firstDefined_app [_] [_]). }
    assert (F6 : m6 !! "client_secret"
                 = spec.firstDefined [spec.nonEmpty (main.clientSecret flags);
                                      spec.nonEmpty (config.Getenv env "CLIENT_SECRET");
                                      spec.nonEmpty (config.Getenv env "RESO_CLIENT_SECRET")]).
    { subst m6 m5.
      rewrite lookup_fromEnvIfUnset_eq;
        rewrite lookup_fromEnvIfUnset_ne by discriminate;
        rewrite F4; [| stringy_sources].
      symmetry. apply (firstDefined_app [_; _] [_]). }
    subst m7.
    rewrite lookup_fromEnvIfUnset_eq;
      rewrite lookup_fromEnvIfUnset_ne by discriminate;
      rewrite F6; [| stringy_sources].
    symmetry. apply (firstDefined_app [_; _; _] [_]).
Qed.

Lemma startServer_pending (flags : main.Flags) (env : gmap string string) :
  default ∅ (main.pendingSettings (main.startServer flags env))
  = main.envSettings flags env.
Proof.
  unfold main.startServer.
  destruct (0 <? size (main.envSettings flags env))%nat eqn:Hs; cbn; [reflexivity |].
  apply Nat.ltb_ge in Hs. symmetry. apply map_size_empty_inv. lia.
Qed.

Lemma startServer_config (flags : main.Flags) (env : gmap string string) :
  main.config (main.startServer flags env) = config.DefaultConfig.
Proof. unfold main.startServer. now destruct (_ <? _)%nat. Qed.

Lemma lookup_overlay (dst : option (gmap string GoValue)) (src : gmap string GoValue)
  (k : string) :
  default ∅ (main.overlay dst src) !! k
  = spec.firstDefined [src !! k; default ∅ dst !! k].
Proof.
  unfold main.overlay. cbn [from_option id]. rewrite lookup_union.
  destruct (src !! k), (default ∅ dst !! k); reflexivity.
Qed.

Lemma lookup_copyKey (rawParams settings : gmap string GoValue) (k k' : string) :
  main.copyKey rawParams k settings !! k'
  = if String.eqb k k'
    then spec.firstDefined [rawParams !! k'; settings !! k']
    else settings !! k'.
Proof.
  unfold main.copyKey.
  destruct (String.eqb k k') eqn:E; [apply String.eqb_eq in E | apply String.eqb_neq in E].
  - subst k'. destruct (rawParams !! k); cbn [spec.firstDefined].
    + apply lookup_insert_eq.
    + now destruct (settings !! k).
  - destruct (rawParams !! k); [now apply lookup_insert_ne | reflexivity].
Qed.

Lemma gatherSettings_lookup `{main.RpcCodec} (s : main.MCPServer) (params : GoValue)
  (k : spec.credential) :
  default ∅ (main.gatherSettings s params) !! spec.keyName k
  = spec.firstDefined
      [ spec.bareKeys params k; spec.topLevelSettings params k;
        spec.capabilitySettings params k;
        default ∅ (main.pendingSettings s) !! spec.keyName k ].
Proof.
  unfold main.gatherSettings.
  set (decoded := match params with
                  | VNil => {| main.ProtocolVersion := ""; main.Capabilities := None;
                               main.ClientInfo := None |}
                  | _ => main.decodeInitializeParams params
                  end).
  set (s1 := match assertMap (default ∅ (main.Capabilities decoded) !! "settings") with
             | Some clientCaps => main.overlay (main.pendingSettings s) clientCaps
             | None => main.pendingSettings s
             end).
  assert (F1 : default ∅ s1 !! spec.keyName k
               = spec.firstDefined [spec.capabilitySettings params k;
                                    default ∅ (main.pendingSettings s) !! spec.keyName k]).
  { subst s1. unfold spec.capabilitySettings.
    assert (Hd : match params with
                 | VNil => None
                 | _ =>
                     match main.Capabilities (main.decodeInitializeParams params) with
                     | Some caps =>
                         match assertMap (caps !! "settings") with
                         | Some m => m !! spec.keyName k
                         | None => None
                         end
                     | None => None
                     end
                 end
                 = match assertMap (default ∅ (main.Capabilities decoded) !! "settings") with
                   | Some m => m !! spec.keyName k
                   | None => None
                   end).
    { subst decoded. destruct params; cbn [main.Capabilities from_option id];
        try (destruct (main.Capabilities _); cbn [from_option id]; reflexivity).
      now rewrite lookup_empty. }
    rewrite Hd.
    destruct (assertMap _) as [m |]; [apply lookup_overlay |].
    cbn [spec.firstDefined]. now destruct (default ∅ _ !! _). }
  clearbody s1. clear decoded.
  destruct params as [| b | f | n | str | l | rawParams];
    cbn [spec.bareKeys spec.topLevelSettings]; try exact F1.
  set (s2 := match assertMap (rawParams !! "settings") with
             | Some settingsMap => main.overlay s1 settingsMap
             | None => s1
             end).
  assert (F2 : default ∅ s2 !! spec.keyName k
               = spec.firstDefined
                   [match assertMap (rawParams !! "settings") with
                    | Some m => m !! spec.keyName k
                    | None => None
                    end;
                    spec.capabilitySettings (VMap rawParams) k;
                    default ∅ (main.pendingSettings s) !! spec.keyName k]).
  { subst s2. destruct (assertMap (rawParams !! "settings")) as [m |].
    - rewrite lookup_overlay, F1. apply firstDefined_nested.
    - exact F1. }
  clearbody s2. cbn [from_option id].
  rewrite !lookup_copyKey.
  destruct k; cbn [spec.keyName String.eqb Ascii.eqb Bool.eqb] in *;
    rewrite F2; apply firstDefined_nested.
Qed.

Lemma firstDefined_None {A : Type} (l : list (option A)) :
  spec.firstDefined l = None -> Forall (fun o => o = None) l.
Proof.
  induction l as [| [a |] l IH]; cbn [spec.firstDefined]; intros Hl.
  - apply Forall_nil_2.
  - discriminate.
  - apply Forall_cons_2; [reflexivity | now apply IH].
Qed.

Lemma nonEmpty_None (v : string) : spec.nonEmpty v = None -> v = "".
Proof.
  unfold spec.nonEmpty. destruct (String.eqb v "") eqn:E; [| discriminate].
  intros _. now apply String.eqb_eq.
Qed.

Lemma GetMetadata_credentials `{GoRuntime} `{auth.TokenCodec} (c : api.Client) (w : World) :
  auth.clientID (api.oauthClient (fst (fst (api.GetMetadata c w))))
  = auth.clientID (api.oauthClient c)
  /\ auth.clientSecret (api.oauthClient (fst (fst (api.GetMetadata c w))))
     = auth.clientSecret (api.oauthClient c).
Proof.
  unfold api.GetMetadata.
  assert (Hg : auth.clientID (fst (fst (auth.GetToken (api.oauthClient c) w)))
               = auth.clientID (api.oauthClient c)
               /\ auth.clientSecret (fst (fst (auth.GetToken (api.oauthClient c) w)))
                  = auth.clientSecret (api.oauthClient c)).
  { unfold auth.GetToken, auth.refreshToken.
    destruct (auth.checkCache _ w) as [[tok |] w0]; [now split |].
    destruct (auth.checkCache _ w0) as [[tok |] w1]; [now split |].
    destruct (newRequestError _ _); [now split |].
    destruct (httpDo _ _) as [o w2].
    destruct (auth.decodeAuthOutcome o); [| now split].
    destruct (Now w2). now split. }
  destruct (auth.GetToken _ _) as [[oc [token | e]] w1]; cbn [fst] in Hg |- *;
    [| exact Hg].
  destruct (newRequestError _ _); [exact Hg |].
  destruct (httpDo _ _) as [[e | e | status enc body] w2]; try exact Hg.
  destruct (negb _); exact Hg.
Qed.

Lemma Initialize_clients `{GoRuntime} `{auth.TokenCodec} `{tools.MetadataCodec}
  (env : gmap string string) (s : main.MCPServer)
  (settings : option (gmap string GoValue)) (w : World) :
  let s' := fst (fst (main.Initialize env s settings w)) in
  match main.apiClient s' with
  | Some c =>
      auth.clientID (api.oauthClient c) = config.ClientID (main.config s')
      /\ auth.clientSecret (api.oauthClient c) = config.ClientSecret (main.config s')
  | None => False
  end.
Proof.
  unfold main.Initialize.
  destruct (config.LoadFromMCPSettings _ _) as [cfg0 err].
  set (cfg := match err with Some _ => config.LoadFromEnv env cfg0 | None => cfg0 end).
  set (c := api.NewClient _ _).
  pose proof (GetMetadata_credentials c w) as Hmeta.
  unfold tools.NewResoHelpToolWithAPI.
  destruct (tools.parseFromFile w tools.cacheFile); [now split |].
  destruct (api.GetMetadata c w) as [[c1 [xml | e]] w1]; cbn [fst] in Hmeta.
  - destruct (tools.metadataParses xml); exact Hmeta.
  - exact Hmeta.
Qed.

Lemma LoadFromMCPSettings_credential (c : config.Config) (m : gmap string GoValue)
  (k : spec.credential) :
  spec.credentialOf k (fst (config.LoadFromMCPSettings c (Some m)))
  = spec.overrideWith (m !! spec.keyName k) (spec.credentialOf k c)
  /\ snd (config.LoadFromMCPSettings c (Some m)) = None.
Proof.
  split; [| reflexivity].
  unfold config.LoadFromMCPSettings, config.nonEmptyStringAt. cbn [fst].
  destruct k; cbn [spec.keyName spec.credentialOf].
  - destruct (m !! "client_id") as [[| | | | s | |] |]; cbn [assertString spec.overrideWith];
      try (destruct (assertString (m !! "client_secret")) as [s' |];
           [destruct (String.eqb s' "") |]; reflexivity).
    destruct (String.eqb s "");
      (destruct (assertString (m !! "client_secret")) as [s' |];
       [destruct (String.eqb s' "") |]; reflexivity).
  - destruct (m !! "client_secret") as [[| | | | s | |] |]; cbn [assertString spec.overrideWith];
      try (destruct (assertString (m !! "client_id")) as [s' |];
           [destruct (String.eqb s' "") |]; reflexivity).
    destruct (String.eqb s "");
      (destruct (assertString (m !! "client_id")) as [s' |];
       [destruct (String.eqb s' "") |]; reflexivity).
Qed.

Lemma LoadFromEnv_credential (env : gmap string string) (c : config.Config)
  (k : spec.credential) :
  spec.domainEnv env k = None ->
  spec.credentialOf k (config.LoadFromEnv env c) = spec.credentialOf k c.
Proof.
  intros Hd. apply nonEmpty_None in Hd.
  unfold config.LoadFromEnv, config.overrideFromEnv.
  destruct k; cbn [spec.credentialOf] in *.
  - rewrite Hd. cbn [String.eqb].
    destruct (String.eqb (config.Getenv env "RESO_CLIENT_SECRET") "");
      destruct (String.eqb (config.Getenv env "RESO_AUTH_URL") "");
      destruct (String.eqb (config.Getenv env "RESO_BASE_URL") ""); reflexivity.
  - rewrite Hd. cbn [String.eqb].
    destruct (String.eqb (config.Getenv env "RESO_CLIENT_ID") "");
      destruct (String.eqb (config.Getenv env "RESO_AUTH_URL") "");
      destruct (String.eqb (config.Getenv env "RESO_BASE_URL") ""); reflexivity.
Qed.

(** C1, as the program has it.  For the client id and for the client
    secret, the settings map that [initialize] merges, starting from what
    [main] captured, holds the value of the highest-precedence source that
    defines the key, the sources ranking, from the lowest up:
    client-prefixed environment, domain-prefixed environment, generic
    environment, command line, and the initialize parameters (settings
    under capabilities, then a top-level settings object, then bare keys).
    An environment variable or a flag defines a key when it is not empty,
    a shape of the parameters when the key is present in it; a source that
    does not define a key leaves the value of a lower one.  The
    configuration the components are built from takes the merged value
    when it is a non-empty string, and otherwise keeps the value it had
    (the empty default, on the first [initialize]). *)
Theorem credentials_follow_program_precedence
  `{GoRuntime} `{auth.TokenCodec} `{tools.MetadataCodec} `{main.RpcCodec}
  (flags : main.Flags) (env : gmap string string) (s : main.MCPServer)
  (msg : main.MCPMessage) (w : World) (k : spec.credential) :
  main.pendingSettings s = main.pendingSettings (main.startServer flags env) ->
  let merged := spec.firstDefined (spec.programSources flags env (main.Params msg) k) in
  let s' := fst (fst (main.handleInitialize env s msg w)) in
  default ∅ (main.gatherSettings s (main.Params msg)) !! spec.keyName k = merged
  /\ spec.credentialOf k (main.config s')
     = spec.overrideWith merged (spec.credentialOf k (main.config s))
  /\ (exists t c,
        main.resoTool s' = Some t /\ main.apiClient s' = Some c
        /\ tools.config t = main.config s' /\ tools.client t = c
        /\ auth.clientID (api.oauthClient c) = config.ClientID (main.config s')
        /\ auth.clientSecret (api.oauthClient c) = config.ClientSecret (main.config s')).
Proof.
  intros Hpending merged s'.
  assert (Hm : default ∅ (main.gatherSettings s (main.Params msg)) !! spec.keyName k
               = merged).
  { rewrite gatherSettings_lookup, Hpending, startServer_pending, envSettings_lookup.
    subst merged. unfold spec.programSources.
    apply (firstDefined_app_nested [_; _; _] [_; _; _; _]). }
  split; [exact Hm |].
  subst s'. unfold main.handleInitialize.
  pose proof (Initialize_clients env s (main.gatherSettings s (main.Params msg)) w)
    as Hclients.
  destruct (Initialize_result env s (main.gatherSettings s (main.Params msg)) w)
    as (cfg & c1 & help & w1 & Hinit & Hcfg).
  rewrite Hinit in Hclients |- *. cbn [fst main.config] in Hclients |- *.
  split.
  - subst cfg.
    destruct (main.gatherSettings s (main.Params msg)) as [m |] eqn:Hg.
    + cbn [from_option id] in Hm.
      pose proof (LoadFromMCPSettings_credential (main.config s) m k) as (Hc & He).
      destruct (config.LoadFromMCPSettings (main.config s) (Some m)) as [cfg0 err].
      cbn [fst snd] in Hc, He. subst err. now rewrite Hc, Hm.
    + cbn [from_option id] in Hm. rewrite lookup_empty in Hm.
      cbn [config.LoadFromMCPSettings]. rewrite <- Hm. cbn [spec.overrideWith].
      apply LoadFromEnv_credential.
      symmetry in Hm. apply firstDefined_None in Hm.
      unfold spec.programSources in Hm.
      repeat match goal with
             | Hf : Forall _ (_ :: _) |- _ =>
                 apply Forall_cons_1 in Hf; destruct Hf as [? Hf]
             end.
      assumption.
  - exists (tools.NewResoQueryTool c1 cfg), c1. cbn [main.resoTool main.apiClient].
    destruct Hclients as (Hid & Hsec). now repeat split.
Qed.

(** ** GetToken under concurrent callers *)

Lemma lookup_move (s : gettoken.sys) (i j : nat) (p0 p : gettoken.pc) :
  gettoken.threads s !! i = Some p0 ->
  gettoken.threads (gettoken.move s i p) !! j
  = if decide (i = j) then Some p else gettoken.threads s !! j.
Proof.
  intros Hi. unfold gettoken.move. cbn [gettoken.threads].
  destruct (decide (i = j)) as [-> | Hne].
  - apply list_lookup_insert_eq. now apply lookup_lt_Some in Hi.
  - now apply list_lookup_insert_ne.
Qed.

Lemma no_refresher (l : list gettoken.pc) :
  (forall i p, l !! i = Some p -> gettoken.refreshing p = false) ->
  filter (fun p => gettoken.refreshing p = true) l = [].
Proof.
  induction l as [| p l IH]; intros Hnone; [reflexivity |].
  rewrite filter_cons. destruct (decide (gettoken.refreshing p = true)) as [Hp | Hp].
  - specialize (Hnone 0%nat p eq_refl). congruence.
  - apply IH. intros i q Hi. exact (Hnone (S i) q Hi).
Qed.

Lemma at_most_one_refresher (l : list gettoken.pc) :
  (forall i j p q,
      l !! i = Some p -> l !! j = Some q ->
      gettoken.refreshing p = true -> gettoken.refreshing q = true -> i = j) ->
  (length (filter (fun p => gettoken.refreshing p = true) l) <= 1)%nat.
Proof.
  induction l as [| p l IH]; intros Huniq; [cbn; lia |].
  rewrite filter_cons. destruct (decide (gettoken.refreshing p = true)) as [Hp | Hp].
  - rewrite no_refresher; [cbn; lia |].
    intros i q Hi. destruct (gettoken.refreshing q) eqn:Hq; [| reflexivity].
    specialize (Huniq 0%nat (S i) p q eq_refl Hi Hp Hq). discriminate.
  - apply IH. intros i j p' q' Hi Hj Hp' Hq'.
    specialize (Huniq (S i) (S j) p' q' Hi Hj Hp' Hq'). lia.
Qed.

Lemma init_lockInv (n : nat) (c : auth.OAuthClient) :
  gettoken.lockInv (gettoken.init n c).
Proof.
  split.
  - intros _ i p Hi. apply lookup_replicate_1 in Hi as [-> _]. reflexivity.
  - intros i j p q Hi Hj Hp _. apply lookup_replicate_1 in Hi as [-> _]. discriminate.
Qed.

Lemma init_phaseInv `{auth.TokenCodec} (n : nat) (c : auth.OAuthClient)
  (sch : list gettoken.event) :
  gettoken.phaseInv c sch (gettoken.init n c).
Proof.
  left. repeat split. intros i p Hi.
  apply lookup_replicate_1 in Hi as [-> _]. exact I.
Qed.

Lemma lockInv_move (s s0 : gettoken.sys) (i : nat) (p0 p : gettoken.pc) :
  gettoken.threads s !! i = Some p0 ->
  gettoken.threads s0 = gettoken.threads s ->
  gettoken.lockInv s ->
  (gettoken.refreshing p0 = gettoken.refreshing p /\ gettoken.writer s0 = gettoken.writer s)
  \/ (gettoken.writer s = false /\ gettoken.refreshing p = true
      /\ gettoken.writer s0 = true)
  \/ (gettoken.refreshing p0 = true /\ gettoken.refreshing p = false) ->
  gettoken.lockInv (gettoken.move s0 i p).
Proof.
  intros Hi Hth [Hfree Huniq] Hcase.
  assert (Hi0 : gettoken.threads s0 !! i = Some p0) by now rewrite Hth.
  assert (Hlk : forall j q,
             gettoken.threads (gettoken.move s0 i p) !! j = Some q ->
             (i = j /\ q = p) \/ (i <> j /\ gettoken.threads s !! j = Some q)).
  { intros j q. rewrite (lookup_move s0 i j p0 p Hi0), Hth.
    destruct (decide (i = j)); [intros [= <-]; now left | intros Hj; now right]. }
  split.
  - cbn [gettoken.move gettoken.writer]. intros Hw j q Hj.
    destruct (Hlk j q Hj) as [[-> ->] | [Hne Hj']].
    + destruct Hcase as [[Hr Hw'] | [(_ & _ & Hw') | (_ & Hp)]].
      * rewrite <- Hr. apply (Hfree ltac:(congruence) j p0 Hi).
      * congruence.
      * assumption.
    + destruct Hcase as [[Hr Hw'] | [(_ & _ & Hw') | (Hp0 & _)]].
      * apply (Hfree ltac:(congruence) j q Hj').
      * congruence.
      * destruct (gettoken.refreshing q) eqn:Hq; [| reflexivity].
        now specialize (Huniq i j p0 q Hi Hj' Hp0 Hq).
  - intros j1 j2 q1 q2 Hj1 Hj2 Hq1 Hq2.
    destruct (Hlk j1 q1 Hj1) as [[<- ->] | [Hne1 Hj1']],
             (Hlk j2 q2 Hj2) as [[<- ->] | [Hne2 Hj2']]; try reflexivity.
    + destruct Hcase as [[Hr _] | [(Hw & _ & _) | (_ & Hp)]].
      * apply (Huniq i j2 p0 q2 Hi Hj2'); congruence.
      * specialize (Hfree Hw j2 q2 Hj2'). congruence.
      * congruence.
    + destruct Hcase as [[Hr _] | [(Hw & _ & _) | (_ & Hp)]].
      * apply (Huniq j1 i q1 p0 Hj1' Hi); congruence.
      * specialize (Hfree Hw j1 q1 Hj1'). congruence.
      * congruence.
    + now apply (Huniq j1 j2 q1 q2).
Qed.

Lemma step_lockInv `{GoRuntime} `{auth.TokenCodec}
  (ev : gettoken.event) (s s' : gettoken.sys) :
  gettoken.step ev s = Some s' -> gettoken.lockInv s -> gettoken.lockInv s'.
Proof.
  unfold gettoken.step. intros Hstep Hinv.
  destruct (gettoken.threads s !! gettoken.tid ev) as [p0 |] eqn:Hi; [| discriminate].
  assert (Hmove : forall s0 p,
             gettoken.threads s0 = gettoken.threads s ->
             (gettoken.refreshing p0 = gettoken.refreshing p
              /\ gettoken.writer s0 = gettoken.writer s)
             \/ (gettoken.writer s = false /\ gettoken.refreshing p = true
                 /\ gettoken.writer s0 = true)
             \/ (gettoken.refreshing p0 = true /\ gettoken.refreshing p = false) ->
             gettoken.lockInv (gettoken.move s0 (gettoken.tid ev) p)).
  { intros s0 p Hth Hcase. exact (lockInv_move s s0 _ p0 p Hi Hth Hinv Hcase). }
  destruct p0 as [| | tok | | | | | r].
  - destruct (gettoken.writer s) eqn:Hw; [discriminate |].
    injection Hstep as <-. apply Hmove; [reflexivity |]. left. now split.
  - destruct (auth.cachedToken _ _); injection Hstep as <-;
      (apply Hmove; [reflexivity |]); left; now split.
  - injection Hstep as <-. apply Hmove; [reflexivity |]. left. now split.
  - injection Hstep as <-. apply Hmove; [reflexivity |]. left. now split.
  - destruct (gettoken.writer s) eqn:Hw; [discriminate |]. cbn [orb] in Hstep.
    destruct (0 <? gettoken.readers s)%nat; [discriminate |].
    injection Hstep as <-. apply Hmove; [reflexivity |].
    right. left. now repeat split.
  - destruct (auth.cachedToken _ _); injection Hstep as <-;
      (apply Hmove; [reflexivity |]).
    + right. right. now split.
    + left. now split.
  - destruct (newRequestError _ _); [| destruct (auth.decodeAuthOutcome _)];
      injection Hstep as <-;
      (apply Hmove; [reflexivity |]); right; right; now split.
  - discriminate.
Qed.

Lemma forall_move (X Y : gettoken.pc -> Prop) (s s0 : gettoken.sys) (i : nat)
  (p0 p : gettoken.pc) :
  gettoken.threads s !! i = Some p0 ->
  gettoken.threads s0 = gettoken.threads s ->
  (forall j q, gettoken.threads s !! j = Some q -> X q) ->
  Y p ->
  (forall j q, j <> i -> gettoken.threads s !! j = Some q -> X q -> Y q) ->
  forall j q, gettoken.threads (gettoken.move s0 i p) !! j = Some q -> Y q.
Proof.
  intros Hi Hth HX HY Hother j q.
  assert (Hi0 : gettoken.threads s0 !! i = Some p0) by now rewrite Hth.
  rewrite (lookup_move s0 i j p0 p Hi0), Hth.
  destruct (decide (i = j)) as [<- | Hne]; [now intros [= <-] |].
  intros Hj. apply (Hother j q); [congruence | assumption | now apply (HX j)].
Qed.

Section single_flight.

Context `{GoRuntime} `{auth.TokenCodec}.
Variable c : auth.OAuthClient.
Variable sch : list gettoken.event.
Hypothesis Hreq : newRequestError "POST" (auth.authURL c) = None.
Hypothesis Hnever : gettoken.neverValid c sch.
Hypothesis Hsucceed : gettoken.exchangesSucceed sch.

Lemma cachedToken_after_store (ev0 ev : gettoken.event) (t : auth.TokenResponse) :
  In ev0 sch -> In ev sch ->
  auth.decodeAuthOutcome (gettoken.net ev0) = Ok t ->
  auth.cachedToken (auth.storeToken c t (gettoken.now ev0)) (gettoken.now ev)
  = Some (auth.AccessToken t).
Proof.
  intros H0' Hev Hd. destruct (Hsucceed ev0 ev H0' Hev) as (t' & Hd' & Hlt).
  assert (t' = t) by congruence. subst t'.
  unfold auth.cachedToken, auth.storeToken. cbn [auth.token auth.tokenExpiry].
  apply Z.ltb_lt in Hlt. now rewrite Hlt.
Qed.

Lemma step_phaseInv (ev : gettoken.event) (s s' : gettoken.sys) :
  In ev sch ->
  gettoken.step ev s = Some s' ->
  gettoken.lockInv s ->
  gettoken.phaseInv c sch s ->
  gettoken.phaseInv c sch s'.
Proof.
  intros Hev Hstep [Hfree Huniq] Hphase. unfold gettoken.step in Hstep.
  destruct (gettoken.threads s !! gettoken.tid ev) as [p0 |] eqn:Hi; [| discriminate].
  destruct Hphase as [(He & Hc & Hb) | (He & ev0 & t & Hin0 & Hd0 & Hc & Ha)].
  - (* nothing sent yet *)
    assert (Hkeep : forall s0 p,
               gettoken.threads s0 = gettoken.threads s ->
               gettoken.exchanges s0 = gettoken.exchanges s ->
               gettoken.cache s0 = gettoken.cache s ->
               gettoken.beforeExchange p ->
               gettoken.phaseInv c sch (gettoken.move s0 (gettoken.tid ev) p)).
    { intros s0 p Hth Hex Hca Hp. left. cbn [gettoken.move gettoken.exchanges gettoken.cache].
      split; [congruence |]. split; [congruence |].
      apply (forall_move gettoken.beforeExchange gettoken.beforeExchange s s0 _ p0 p);
        auto. }
    rewrite Hc in Hstep.
    destruct p0 as [| | tok | | | | | r].
    + destruct (gettoken.writer s); [discriminate |].
      injection Hstep as <-. now apply Hkeep.
    + rewrite (Hnever ev Hev) in Hstep. injection Hstep as <-. now apply Hkeep.
    + destruct (Hb _ _ Hi).
    + injection Hstep as <-. now apply Hkeep.
    + destruct (gettoken.writer s || _); [discriminate |].
      injection Hstep as <-. now apply Hkeep.
    + rewrite (Hnever ev Hev) in Hstep. injection Hstep as <-. now apply Hkeep.
    + rewrite Hreq in Hstep.
      destruct (Hsucceed ev ev Hev Hev) as (t & Hd & _). rewrite Hd in Hstep.
      injection Hstep as <-. right.
      split; [cbn; now rewrite He |]. exists ev, t.
      split; [assumption |]. split; [assumption |]. split; [reflexivity |].
      eapply forall_move with (s := s) (p0 := gettoken.Exchanging)
                              (X := gettoken.beforeExchange);
        [exact Hi | reflexivity | exact Hb | reflexivity |].
      intros j q Hne Hj Hq.
      destruct q; try exact I; try contradiction.
      specialize (Huniq _ _ _ _ Hj Hi eq_refl eq_refl). contradiction.
    + discriminate.
  - (* the token [t] is stored *)
    assert (Hkeep : forall s0 p,
               gettoken.threads s0 = gettoken.threads s ->
               gettoken.exchanges s0 = gettoken.exchanges s ->
               gettoken.cache s0 = gettoken.cache s ->
               gettoken.afterExchange t p ->
               gettoken.phaseInv c sch (gettoken.move s0 (gettoken.tid ev) p)).
    { intros s0 p Hth Hex Hca Hp. right. cbn [gettoken.move gettoken.exchanges gettoken.cache].
      split; [congruence |]. exists ev0, t. repeat split; try assumption; [congruence |].
      apply (forall_move (gettoken.afterExchange t) (gettoken.afterExchange t) s s0 _ p0 p);
        auto. }
    rewrite Hc in Hstep.
    destruct p0 as [| | tok | | | | | r].
    + destruct (gettoken.writer s); [discriminate |].
      injection Hstep as <-. now apply Hkeep.
    + rewrite (cachedToken_after_store ev0 ev t Hin0 Hev Hd0) in Hstep.
      injection Hstep as <-. now apply Hkeep.
    + injection Hstep as <-. apply Hkeep; try reflexivity.
      specialize (Ha _ _ Hi). cbn in Ha |- *. now subst tok.
    + injection Hstep as <-. now apply Hkeep.
    + destruct (gettoken.writer s || _); [discriminate |].
      injection Hstep as <-. now apply Hkeep.
    + rewrite (cachedToken_after_store ev0 ev t Hin0 Hev Hd0) in Hstep.
      injection Hstep as <-. now apply Hkeep.
    + destruct (Ha _ _ Hi).
    + discriminate.
Qed.

Lemma run_invariants (sch' : list gettoken.event) (s s' : gettoken.sys) :
  (forall ev, In ev sch' -> In ev sch) ->
  gettoken.run sch' s = Some s' ->
  gettoken.lockInv s ->
  gettoken.phaseInv c sch s ->
  gettoken.lockInv s' /\ gettoken.phaseInv c sch s'.
Proof.
  revert s. induction sch' as [| ev rest IH]; intros s Hsub Hrun Hl Hp.
  - injection Hrun as <-. now split.
  - cbn [gettoken.run] in Hrun.
    destruct (gettoken.step ev s) as [s1 |] eqn:Hstep; [| discriminate].
    apply (IH s1); [intros e He; apply Hsub; now right | assumption | |].
    + exact (step_lockInv ev s s1 Hstep Hl).
    + apply (step_phaseInv ev s s1); [apply Hsub; now left | assumption ..].
Qed.

End single_flight.

Lemma run_lockInv `{GoRuntime} `{auth.TokenCodec}
  (sch : list gettoken.event) (s s' : gettoken.sys) :
  gettoken.run sch s = Some s' -> gettoken.lockInv s -> gettoken.lockInv s'.
Proof.
  revert s. induction sch as [| ev rest IH]; intros s Hrun Hl.
  - now injection Hrun as <-.
  - cbn [gettoken.run] in Hrun.
    destruct (gettoken.step ev s) as [s1 |] eqn:Hstep; [| discriminate].
    apply (IH s1 Hrun). exact (step_lockInv ev s s1 Hstep Hl).
Qed.

(** *** Every caller returns *)

Lemma count_insert (P : gettoken.pc -> bool) (l : list gettoken.pc) (i : nat)
  (x y : gettoken.pc) :
  l !! i = Some x ->
  (length (filter (fun p => P p = true) (<[i := y]> l)) + (if P x then 1 else 0)
   = length (filter (fun p => P p = true) l) + (if P y then 1 else 0))%nat.
Proof.
  revert i. induction l as [| a l IH]; intros i Hi; [discriminate |].
  destruct i as [| i].
  - injection Hi as ->. cbn [list_insert insert]. rewrite !filter_cons.
    destruct (decide (P y = true)) as [Hy | Hy], (decide (P x = true)) as [Hx | Hx];
      try rewrite Hx; try rewrite Hy;
      try (apply not_true_is_false in Hx; rewrite Hx);
      try (apply not_true_is_false in Hy; rewrite Hy); cbn [length]; lia.
  - cbn in Hi. specialize (IH i Hi).
    change (<[S i := y]> (a :: l)) with (a :: <[i := y]> l).
    rewrite !filter_cons. destruct (decide (P a = true)); cbn [length]; lia.
Qed.

Lemma sum_insert (f : gettoken.pc -> nat) (l : list gettoken.pc) (i : nat)
  (x y : gettoken.pc) :
  l !! i = Some x ->
  (sum_list (map f (<[i := y]> l)) + f x = sum_list (map f l) + f y)%nat.
Proof.
  revert i. induction l as [| a l IH]; intros i Hi; [discriminate |].
  destruct i as [| i].
  - injection Hi as ->. cbn. lia.
  - cbn in Hi. specialize (IH i Hi).
    change (<[S i := y]> (a :: l)) with (a :: <[i := y]> l).
    cbn [map sum_list]. lia.
Qed.

Lemma count_positive (P : gettoken.pc -> bool) (l : list gettoken.pc) (i : nat)
  (x : gettoken.pc) :
  l !! i = Some x -> P x = true ->
  (1 <= length (filter (fun p => P p = true) l))%nat.
Proof.
  intros Hi Hx.
  assert (Hin : x ∈ filter (fun p => P p = true) l).
  { apply list_elem_of_filter. split; [assumption |]. now apply list_elem_of_lookup_2 in Hi. }
  destruct (filter _ l); [now apply not_elem_of_nil in Hin | cbn; lia].
Qed.

Lemma countersInv_move (s s0 : gettoken.sys) (i : nat) (p0 p : gettoken.pc) :
  gettoken.threads s !! i = Some p0 ->
  gettoken.threads s0 = gettoken.threads s ->
  gettoken.countersInv s ->
  (gettoken.readers s0 + (if gettoken.reading p0 then 1 else 0)
   = gettoken.readers s + (if gettoken.reading p then 1 else 0))%nat ->
  (gettoken.writer s0 = true ->
   gettoken.refreshing p = true
   \/ (gettoken.writer s = true /\ gettoken.refreshing p0 = false)) ->
  gettoken.countersInv (gettoken.move s0 i p).
Proof.
  intros Hi Hth [Hr Hw] Hreaders Hwriter.
  assert (Hi0 : gettoken.threads s0 !! i = Some p0) by now rewrite Hth.
  split.
  - cbn [gettoken.move gettoken.readers gettoken.threads]. rewrite Hth.
    pose proof (count_insert gettoken.reading (gettoken.threads s) i p0 p Hi). lia.
  - cbn [gettoken.move gettoken.writer]. intros Hw0.
    destruct (Hwriter Hw0) as [Hp | [Hws Hp0]].
    + exists i, p. split; [| assumption].
      rewrite (lookup_move s0 i i p0 p Hi0). now destruct (decide (i = i)).
    + destruct (Hw Hws) as (j & q & Hj & Hq). exists j, q. split; [| assumption].
      rewrite (lookup_move s0 i j p0 p Hi0), Hth.
      destruct (decide (i = j)) as [<- |]; [congruence | assumption].
Qed.

Lemma init_countersInv (n : nat) (c : auth.OAuthClient) :
  gettoken.countersInv (gettoken.init n c).
Proof.
  split; [| discriminate]. cbn [gettoken.init gettoken.readers gettoken.threads].
  induction n as [| n IH]; [reflexivity |].
  cbn [replicate]. rewrite filter_cons.
  destruct (decide (gettoken.reading gettoken.AtRLock = true)); [discriminate | exact IH].
Qed.

Lemma step_countersInv `{GoRuntime} `{auth.TokenCodec}
  (ev : gettoken.event) (s s' : gettoken.sys) :
  gettoken.step ev s = Some s' ->
  gettoken.countersInv s -> gettoken.countersInv s'.
Proof.
  unfold gettoken.step. intros Hstep Hinv.
  destruct (gettoken.threads s !! gettoken.tid ev) as [p0 |] eqn:Hi; [| discriminate].
  assert (Hpos : gettoken.reading p0 = true -> (1 <= gettoken.readers s)%nat).
  { intros Hp0. rewrite (proj1 Hinv).
    exact (count_positive gettoken.reading _ _ _ Hi Hp0). }
  assert (Hmove : forall s0 p,
             gettoken.threads s0 = gettoken.threads s ->
             (gettoken.readers s0 + (if gettoken.reading p0 then 1 else 0)
              = gettoken.readers s + (if gettoken.reading p then 1 else 0))%nat ->
             (gettoken.writer s0 = true ->
              gettoken.refreshing p = true
              \/ (gettoken.writer s = true /\ gettoken.refreshing p0 = false)) ->
             gettoken.countersInv (gettoken.move s0 (gettoken.tid ev) p)).
  { intros s0 p Hth Hr Hw. exact (countersInv_move s s0 _ p0 p Hi Hth Hinv Hr Hw). }
  destruct p0 as [| | tok | | | | | r].
  - destruct (gettoken.writer s) eqn:Hw; [discriminate |].
    injection Hstep as <-. apply Hmove; [reflexivity | cbn; lia |].
    cbn. congruence.
  - destruct (auth.cachedToken _ _); injection Hstep as <-;
      (apply Hmove; [reflexivity | cbn; lia |]); intros Hw; right; now split.
  - specialize (Hpos eq_refl). injection Hstep as <-.
    apply Hmove; [reflexivity | cbn; lia |]. intros Hw; right; now split.
  - specialize (Hpos eq_refl). injection Hstep as <-.
    apply Hmove; [reflexivity | cbn; lia |]. intros Hw; right; now split.
  - destruct (gettoken.writer s) eqn:Hw; [discriminate |]. cbn [orb] in Hstep.
    destruct (0 <? gettoken.readers s)%nat; [discriminate |].
    injection Hstep as <-. apply Hmove; [reflexivity | cbn; lia |]. now left.
  - destruct (auth.cachedToken _ _); injection Hstep as <-;
      (apply Hmove; [reflexivity | cbn; lia |]).
    + cbn. discriminate.
    + now left.
  - destruct (newRequestError _ _); [| destruct (auth.decodeAuthOutcome _)];
      injection Hstep as <-;
      (apply Hmove; [reflexivity | cbn; lia |]); cbn; discriminate.
  - discriminate.
Qed.

Lemma step_decreases `{GoRuntime} `{auth.TokenCodec}
  (ev : gettoken.event) (s s' : gettoken.sys) :
  gettoken.step ev s = Some s' ->
  (gettoken.totalStepsLeft s' < gettoken.totalStepsLeft s)%nat.
Proof.
  unfold gettoken.step, gettoken.totalStepsLeft. intros Hstep.
  destruct (gettoken.threads s !! gettoken.tid ev) as [p0 |] eqn:Hi; [| discriminate].
  assert (Hmove : forall s0 p,
             gettoken.threads s0 = gettoken.threads s ->
             (gettoken.stepsLeft p < gettoken.stepsLeft p0)%nat ->
             (sum_list (map gettoken.stepsLeft
                          (gettoken.threads (gettoken.move s0 (gettoken.tid ev) p)))
              < sum_list (map gettoken.stepsLeft (gettoken.threads s)))%nat).
  { intros s0 p Hth Hlt. cbn [gettoken.move gettoken.threads]. rewrite Hth.
    pose proof (sum_insert gettoken.stepsLeft _ _ _ p Hi). lia. }
  destruct p0 as [| | tok | | | | | r].
  - destruct (gettoken.writer s); [discriminate |].
    injection Hstep as <-. apply Hmove; [reflexivity | cbn; lia].
  - destruct (auth.cachedToken _ _); injection Hstep as <-;
      (apply Hmove; [reflexivity | cbn; lia]).
  - injection Hstep as <-. apply Hmove; [reflexivity | cbn; lia].
  - injection Hstep as <-. apply Hmove; [reflexivity | cbn; lia].
  - destruct (gettoken.writer s || _); [discriminate |].
    injection Hstep as <-. apply Hmove; [reflexivity | cbn; lia].
  - destruct (auth.cachedToken _ _); injection Hstep as <-;
      (apply Hmove; [reflexivity | cbn; lia]).
  - destruct (newRequestError _ _); [| destruct (auth.decodeAuthOutcome _)];
      injection Hstep as <-; (apply Hmove; [reflexivity | cbn; lia]).
  - discriminate.
Qed.

Lemma run_counters_and_length `{GoRuntime} `{auth.TokenCodec}
  (sch : list gettoken.event) (s s' : gettoken.sys) :
  gettoken.run sch s = Some s' ->
  gettoken.countersInv s ->
  gettoken.countersInv s'
  /\ (length sch + gettoken.totalStepsLeft s' <= gettoken.totalStepsLeft s)%nat.
Proof.
  revert s. induction sch as [| ev rest IH]; intros s Hrun Hc.
  - injection Hrun as <-. split; [assumption | cbn; lia].
  - cbn [gettoken.run] in Hrun.
    destruct (gettoken.step ev s) as [s1 |] eqn:Hstep; [| discriminate].
    destruct (IH s1 Hrun (step_countersInv ev s s1 Hstep Hc)) as [Hc' Hlen].
    split; [assumption |].
    pose proof (step_decreases ev s s1 Hstep). cbn [length]. lia.
Qed.

Lemma init_totalStepsLeft (n : nat) (c : auth.OAuthClient) :
  gettoken.totalStepsLeft (gettoken.init n c) = (6 * n)%nat.
Proof.
  unfold gettoken.totalStepsLeft. cbn [gettoken.init gettoken.threads].
  induction n as [| n IH]; [reflexivity |].
  cbn [replicate]. rewrite map_cons. cbn [sum_list gettoken.stepsLeft].
  rewrite IH. unfold id. lia.
Qed.

Lemma lock_holder_moves `{GoRuntime} `{auth.TokenCodec}
  (s : gettoken.sys) (i : nat) (p : gettoken.pc) (t : Z) (o : HttpOutcome) :
  gettoken.threads s !! i = Some p ->
  gettoken.holdsLock p = true ->
  is_Some (gettoken.step {| gettoken.tid := i; gettoken.now := t; gettoken.net := o |} s).
Proof.
  intros Hi Hp. unfold gettoken.step. cbn [gettoken.tid gettoken.now gettoken.net].
  rewrite Hi. destruct p; try discriminate.
  - destruct (auth.cachedToken _ _); eauto.
  - eauto.
  - eauto.
  - destruct (auth.cachedToken _ _); eauto.
  - destruct (newRequestError _ _); [| destruct (auth.decodeAuthOutcome _)]; eauto.
Qed.

Lemma no_holder_counters (s : gettoken.sys) :
  gettoken.countersInv s ->
  Forall (fun p => gettoken.holdsLock p = false) (gettoken.threads s) ->
  gettoken.readers s = 0%nat /\ gettoken.writer s = false.
Proof.
  intros [Hr Hw] Hall. split.
  - rewrite Hr. clear Hr Hw. induction Hall as [| p l Hp _ IH]; [reflexivity |].
    rewrite filter_cons. unfold gettoken.holdsLock in Hp.
    apply orb_false_elim in Hp as [Hp _].
    destruct (decide (gettoken.reading p = true)); [congruence | exact IH].
  - destruct (gettoken.writer s) eqn:Hws; [| reflexivity].
    destruct (Hw eq_refl) as (j & q & Hj & Hq).
    rewrite Forall_lookup in Hall. specialize (Hall j q Hj).
    unfold gettoken.holdsLock in Hall. apply orb_false_elim in Hall as [_ Hall].
    congruence.
Qed.

Lemma some_caller_can_move `{GoRuntime} `{auth.TokenCodec} (s : gettoken.sys) :
  gettoken.countersInv s ->
  (exists i p, gettoken.threads s !! i = Some p /\ gettoken.finished p = false) ->
  exists i, forall t o,
    is_Some (gettoken.step {| gettoken.tid := i; gettoken.now := t; gettoken.net := o |} s).
Proof.
  intros Hc (i & p & Hi & Hp).
  destruct (decide (Exists (fun p => gettoken.holdsLock p = true) (gettoken.threads s)))
    as [Hex | Hnone].
  - apply Exists_exists in Hex as (q & Hq & Hhold).
    apply list_elem_of_lookup_1 in Hq as [j Hj].
    exists j. intros t o. now apply (lock_holder_moves s j q).
  - assert (Hall : Forall (fun p => gettoken.holdsLock p = false) (gettoken.threads s)).
    { apply Forall_forall. intros q Hq.
      destruct (gettoken.holdsLock q) eqn:Hh; [| reflexivity].
      exfalso. apply Hnone. apply Exists_exists. eauto. }
    destruct (no_holder_counters s Hc Hall) as [Hr Hw].
    rewrite Forall_lookup in Hall. specialize (Hall i p Hi).
    exists i. intros t o. unfold gettoken.step. cbn [gettoken.tid]. rewrite Hi.
    destruct p; try discriminate; rewrite ?Hw, ?Hr; cbn; eauto.
Qed.

(** C2, as the program has it.  Callers of [GetToken] on one client, in
    any number and under any interleaving: at every point of the run at
    most one of them is inside the exclusive section of [refreshToken], so
    two refreshes never run at once; the run has at most six steps per
    caller, and while a caller has not returned some caller can take its
    next step whatever the clock and the network answer, so every caller
    returns.  If moreover the cache holds no valid token at any clock
    reading of the run, the token request can be created, and every answer
    the network gives is a token whose expiry lies beyond the run, then at
    most one token request is sent, every caller that has returned has
    returned the same access token, and a returned caller means exactly
    one request was sent.  (An exchange that fails is not shared: see the
    counterexample.) *)
Theorem refresh_exclusive_and_single_flight_on_success `{GoRuntime} `{auth.TokenCodec}
  (n : nat) (c : auth.OAuthClient) (sch : list gettoken.event) (s : gettoken.sys) :
  gettoken.run sch (gettoken.init n c) = Some s ->
  (gettoken.refreshers s <= 1)%nat
  /\ (length sch <= 6 * n)%nat
  /\ ((exists i p, gettoken.threads s !! i = Some p /\ gettoken.finished p = false) ->
      exists i, forall t o,
        is_Some (gettoken.step
                   {| gettoken.tid := i; gettoken.now := t; gettoken.net := o |} s))
  /\ (newRequestError "POST" (auth.authURL c) = None ->
      gettoken.neverValid c sch ->
      gettoken.exchangesSucceed sch ->
      (gettoken.exchanges s <= 1)%nat
      /\ (forall i j r r',
            gettoken.threads s !! i = Some (gettoken.Done r) ->
            gettoken.threads s !! j = Some (gettoken.Done r') ->
            r = r' /\ exists tok, r = Ok tok)
      /\ (forall i r,
            gettoken.threads s !! i = Some (gettoken.Done r) ->
            gettoken.exchanges s = 1%nat)).
Proof.
  intros Hrun.
  destruct (run_counters_and_length sch _ s Hrun (init_countersInv n c))
    as [Hcount Hlen].
  rewrite init_totalStepsLeft in Hlen.
  split; [| split; [lia |]; split; [exact (some_caller_can_move s Hcount) |]].
  - apply at_most_one_refresher.
    exact (proj2 (run_lockInv sch _ s Hrun (init_lockInv n c))).
  - intros Hreq Hnever Hsucceed.
    destruct (run_invariants c sch Hreq Hnever Hsucceed sch _ s
                (fun ev Hev => Hev) Hrun (init_lockInv n c) (init_phaseInv n c sch))
      as [_ [(He & _ & Hb) | (He & ev0 & t & _ & _ & _ & Ha)]].
    + split; [lia |]. split.
      * intros i j r r' Hi _. destruct (Hb _ _ Hi).
      * intros i r Hi. destruct (Hb _ _ Hi).
    + split; [lia |]. split.
      * intros i j r r' Hi Hj.
        pose proof (Ha _ _ Hi) as Hr. pose proof (Ha _ _ Hj) as Hr'.
        cbn in Hr, Hr'. subst. split; [reflexivity | eauto].
      * intros i r _. exact He.
Qed.

(* ================================================================== *)
(** * Further properties of the packages *)
(* ================================================================== *)

(** ** Strings *)

Lemma string_app_cons (c : ascii) (a b : string) : String c a +:+ b = String c (a +:+ b).
Proof. reflexivity. Qed.

Lemma string_app_nil_l (b : string) : "" +:+ b = b.
Proof. reflexivity. Qed.

Lemma string_length_app (a b : string) :
  String.length (a +:+ b) = (String.length a + String.length b)%nat.
Proof.
  induction a as [| c a IH]; rewrite ?string_app_cons, ?string_app_nil_l; cbn [String.length];
    [reflexivity | now rewrite IH].
Qed.

Lemma app_assoc_string (a b c : string) : (a +:+ b) +:+ c = a +:+ (b +:+ c).
Proof.
  induction a as [| x a IH]; rewrite ?string_app_cons, ?string_app_nil_l; [reflexivity | now rewrite IH].
Qed.

Lemma string_app_nil_r (a : string) : a +:+ "" = a.
Proof.
  induction a as [| x a IH]; rewrite ?string_app_cons, ?string_app_nil_l; [reflexivity | now rewrite IH].
Qed.

Lemma substring_all (s : string) : substring 0 (String.length s) s = s.
Proof.
  induction s as [| c s IH]; cbn [String.length substring];
    [reflexivity | now rewrite IH].
Qed.

Lemma substring_app_l (a b : string) :
  substring 0 (String.length a) (a +:+ b) = a.
Proof.
  induction a as [| c a IH]; rewrite ?string_app_cons, ?string_app_nil_l; cbn [String.length substring];
    [now destruct b | now rewrite IH].
Qed.

Lemma substring_app_skip (a b : string) (n m : nat) :
  substring (String.length a + n) m (a +:+ b) = substring n m b.
Proof.
  induction a as [| c a IH]; rewrite ?string_app_cons, ?string_app_nil_l; cbn [String.length Nat.add substring];
    [reflexivity | exact IH].
Qed.

Lemma String_prefix_nil (s : string) : String.prefix "" s = true.
Proof. now destruct s. Qed.

Lemma String_prefix_app (p r : string) : String.prefix p (p +:+ r) = true.
Proof.
  induction p as [| c p IH]; rewrite ?string_app_cons, ?string_app_nil_l; cbn [String.prefix]; [apply String_prefix_nil |].
  destruct (ascii_dec c c); [exact IH | congruence].
Qed.

Lemma String_prefix_inv (p s : string) :
  String.prefix p s = true -> exists r, s = p +:+ r.
Proof.
  revert s. induction p as [| c p IH]; intros s Hp.
  - now exists s.
  - destruct s as [| d s]; [discriminate |]. cbn [String.prefix] in Hp.
    destruct (ascii_dec c d) as [<- |]; [| discriminate].
    destruct (IH s Hp) as [r ->]. now exists r.
Qed.

Lemma Contains_app (a sub c : string) : Contains (a +:+ sub +:+ c) sub = true.
Proof.
  induction a as [| x a IH].
  - rewrite ?string_app_cons, ?string_app_nil_l. destruct (sub +:+ c) eqn:E.
    + destruct sub; [reflexivity | discriminate].
    + cbn [Contains]. rewrite <- E, String_prefix_app. reflexivity.
  - rewrite ?string_app_cons; cbn [Contains]. rewrite IH. apply orb_true_r.
Qed.

Lemma Contains_prefix (p r : string) : Contains (p +:+ r) p = true.
Proof. exact (Contains_app "" p r). Qed.

Lemma Contains_inv (s sub : string) :
  Contains s sub = true -> exists a c, s = a +:+ sub +:+ c.
Proof.
  induction s as [| x s IH]; cbn [Contains]; intros Hc.
  - rewrite orb_false_r in Hc. apply String_prefix_inv in Hc as [r ->]. now exists "", r.
  - apply orb_true_iff in Hc as [Hp | Hc].
    + apply String_prefix_inv in Hp as [r ->]. now exists "", r.
    + destruct (IH Hc) as (a & c & ->). now exists (String x a), c.
Qed.

Lemma Contains_suffix_of_sub (s x sub : string) :
  Contains s (x +:+ sub) = true -> Contains s sub = true.
Proof.
  intros Hc. apply Contains_inv in Hc as (a & c & ->).
  rewrite app_assoc_string, <- (app_assoc_string a x). apply Contains_app.
Qed.

Lemma HasPrefix_app (p r : string) : metadata.HasPrefix (p +:+ r) p = true.
Proof. apply String_prefix_app. Qed.

Lemma HasSuffix_app (a b : string) : metadata.HasSuffix (a +:+ b) b = true.
Proof.
  unfold metadata.HasSuffix. rewrite string_length_app.
  apply andb_true_iff. split; [apply Nat.leb_le; lia |].
  replace (String.length a + String.length b - String.length b)%nat
    with (String.length a + 0)%nat by lia.
  rewrite substring_app_skip, substring_all. apply String.eqb_refl.
Qed.

Lemma TrimPrefix_app (p r : string) : metadata.TrimPrefix (p +:+ r) p = r.
Proof.
  unfold metadata.TrimPrefix. rewrite HasPrefix_app, string_length_app.
  replace (String.length p + String.length r - String.length p)%nat
    with (String.length r) by lia.
  rewrite <- (Nat.add_0_r (String.length p)) at 1.
  rewrite substring_app_skip. apply substring_all.
Qed.

Lemma slice_collection (inner : string) (c : ascii) :
  metadata.slice ("Collection(" +:+ inner +:+ String c "") 11
    (Z.of_nat (String.length ("Collection(" +:+ inner +:+ String c "")) - 1)
  = Some inner.
Proof.
  unfold metadata.slice. rewrite !string_length_app. cbn [String.length].
  replace (0 <=? 11) with true by reflexivity.
  replace (11 <=? Z.of_nat (11 + (String.length inner + 1)) - 1) with true
    by (symmetry; apply Z.leb_le; lia).
  replace (Z.of_nat (11 + (String.length inner + 1)) - 1
           <=? Z.of_nat (11 + (String.length inner + 1))) with true
    by (symmetry; apply Z.leb_le; lia).
  cbn [andb]. f_equal.
  replace (Z.to_nat (Z.of_nat (11 + (String.length inner + 1)) - 1 - 11))
    with (String.length inner) by lia.
  change (Z.to_nat 11) with (String.length "Collection(" + 0)%nat.
  rewrite substring_app_skip. apply substring_app_l.
Qed.

(** ** Package config *)



Lemma LoadFromEnv_fields (env : gmap string string) (c : config.Config) :
  let pick := fun name old =>
    if String.eqb (config.Getenv env name) "" then old else config.Getenv env name in
  config.LoadFromEnv env c
  = {| config.ClientID := pick "RESO_CLIENT_ID" (config.ClientID c);
       config.ClientSecret := pick "RESO_CLIENT_SECRET" (config.ClientSecret c);
       config.AuthURL := pick "RESO_AUTH_URL" (config.AuthURL c);
       config.BaseURL := pick "RESO_BASE_URL" (config.BaseURL c) |}.
Proof.
  unfold config.LoadFromEnv, config.overrideFromEnv. destruct c as [i s a b].
  destruct (String.eqb (config.Getenv env "RESO_CLIENT_ID") "");
    destruct (String.eqb (config.Getenv env "RESO_CLIENT_SECRET") "");
    destruct (String.eqb (config.Getenv env "RESO_AUTH_URL") "");
    destruct (String.eqb (config.Getenv env "RESO_BASE_URL") ""); reflexivity.
Qed.

(** X2.  [LoadFromEnv] reads the four [RESO_] variables and nothing else:
    each field takes the value of its variable when that is set and not
    empty, and keeps its own otherwise.  So loading twice is loading once,
    a configuration that [Validate] accepts is still accepted afterwards,
    and the generic and the client-prefixed variables that [main] reads
    have no effect here. *)
Theorem load_from_env_overrides_set_fields (env : gmap string string)
  (c : config.Config) (name v : string) :
  let pick := fun name old =>
    if String.eqb (config.Getenv env name) "" then old else config.Getenv env name in
  config.LoadFromEnv env c
  = {| config.ClientID := pick "RESO_CLIENT_ID" (config.ClientID c);
       config.ClientSecret := pick "RESO_CLIENT_SECRET" (config.ClientSecret c);
       config.AuthURL := pick "RESO_AUTH_URL" (config.AuthURL c);
       config.BaseURL := pick "RESO_BASE_URL" (config.BaseURL c) |}
  /\ config.LoadFromEnv env (config.LoadFromEnv env c) = config.LoadFromEnv env c
  /\ (config.Validate c = None -> config.Validate (config.LoadFromEnv env c) = None)
  /\ (~ In name [ "RESO_CLIENT_ID"; "RESO_CLIENT_SECRET"; "RESO_AUTH_URL";
                  "RESO_BASE_URL" ] ->
      config.LoadFromEnv (<[name := v]> env) c = config.LoadFromEnv env c).
Proof.
  intros pick. split; [apply LoadFromEnv_fields |]. split; [| split].
  - rewrite !LoadFromEnv_fields. cbv zeta.
    cbn [config.ClientID config.ClientSecret config.AuthURL config.BaseURL].
    destruct (String.eqb (config.Getenv env "RESO_CLIENT_ID") "") eqn:E1;
      destruct (String.eqb (config.Getenv env "RESO_CLIENT_SECRET") "") eqn:E2;
      destruct (String.eqb (config.Getenv env "RESO_AUTH_URL") "") eqn:E3;
      destruct (String.eqb (config.Getenv env "RESO_BASE_URL") "") eqn:E4;
      rewrite ?E1, ?E2, ?E3, ?E4; reflexivity.
  - rewrite LoadFromEnv_fields. cbv zeta. unfold config.Validate.
    cbn [config.ClientID config.ClientSecret config.AuthURL config.BaseURL].
    destruct (String.eqb (config.ClientID c) "") eqn:F1; [discriminate |].
    destruct (String.eqb (config.ClientSecret c) "") eqn:F2; [discriminate |].
    destruct (String.eqb (config.AuthURL c) "") eqn:F3; [discriminate |].
    destruct (String.eqb (config.BaseURL c) "") eqn:F4; [discriminate |].
    intros _.
    destruct (String.eqb (config.Getenv env "RESO_CLIENT_ID") "") eqn:E1;
      destruct (String.eqb (config.Getenv env "RESO_CLIENT_SECRET") "") eqn:E2;
      destruct (String.eqb (config.Getenv env "RESO_AUTH_URL") "") eqn:E3;
      destruct (String.eqb (config.Getenv env "RESO_BASE_URL") "") eqn:E4;
      rewrite ?E1, ?E2, ?E3, ?E4, ?F1, ?F2, ?F3, ?F4; reflexivity.
  - intros Hname. cbn [In] in Hname.
    assert (Hget : forall k,
               In k [ "RESO_CLIENT_ID"; "RESO_CLIENT_SECRET"; "RESO_AUTH_URL";
                      "RESO_BASE_URL" ] ->
               config.Getenv (<[name := v]> env) k = config.Getenv env k).
    { intros k Hk. unfold config.Getenv. rewrite lookup_insert_ne; [reflexivity |].
      intros ->. cbn [In] in Hk. tauto. }
    rewrite !LoadFromEnv_fields. cbv zeta.
    rewrite !Hget by (cbn [In]; tauto). reflexivity.
Qed.

(** X3.  [LoadFromMCPSettings] fails only on a nil map, and then leaves
    the configuration as it was.  On a map it never fails, even without
    credentials; it sets the client id and the client secret from
    non-empty string values and keeps them otherwise (key absent, value
    not a string, or empty); the two endpoints are never changed, whatever
    keys the map holds; and applying the same map again changes
    nothing. *)
Theorem load_from_settings_sets_only_credentials (c : config.Config)
  (m : gmap string GoValue) :
  config.LoadFromMCPSettings c None = (c, Some "no settings provided")
  /\ (let c' := fst (config.LoadFromMCPSettings c (Some m)) in
      snd (config.LoadFromMCPSettings c (Some m)) = None
      /\ config.ClientID c'
         = match m !! "client_id" with
           | Some (VString v) => if String.eqb v "" then config.ClientID c else v
           | _ => config.ClientID c
           end
      /\ config.ClientSecret c'
         = match m !! "client_secret" with
           | Some (VString v) => if String.eqb v "" then config.ClientSecret c else v
           | _ => config.ClientSecret c
           end
      /\ config.AuthURL c' = config.AuthURL c
      /\ config.BaseURL c' = config.BaseURL c
      /\ config.LoadFromMCPSettings c' (Some m) = (c', None)).
Proof.
  split; [reflexivity |]. cbv zeta.
  unfold config.LoadFromMCPSettings, config.nonEmptyStringAt. cbn [fst snd].
  destruct (m !! "client_id") as [[| | | | i | |] |];
    destruct (m !! "client_secret") as [[| | | | s | |] |];
    cbn [assertString];
    try destruct (String.eqb i "") eqn:Ei;
    try destruct (String.eqb s "") eqn:Es;
    cbn [config.setClientID config.setClientSecret config.ClientID
         config.ClientSecret config.AuthURL config.BaseURL];
    repeat (split; [reflexivity |]); destruct c; reflexivity.
Qed.

(** ** Package auth *)


Lemma Encode_formData (c : auth.OAuthClient) :
  Encode (auth.formData c)
  = "client_id=" +:+ QueryEscape (auth.clientID c) +:+ "&grant_type=client_credentials".
Proof.
  unfold auth.formData, Set_. generalize (auth.clientID c). intros id.
  unfold Encode, encodePairs.
  replace (sortedKeys (<["client_id" := [id]]> (<["grant_type" := ["client_credentials"]]> ∅)))
    with ["client_id"; "grant_type"] by (vm_compute; reflexivity).
  cbn [flat_map map app].
  rewrite lookup_total_insert_eq.
  rewrite lookup_total_insert_ne by discriminate.
  rewrite lookup_total_insert_eq.
  cbn [flat_map map app joinAmp]. reflexivity.
Qed.

Lemma GetToken_fresh `{GoRuntime} `{auth.TokenCodec} (c : auth.OAuthClient) (w : World) :
  auth.token c = None ->
  auth.GetToken c w
  = match newRequestError "POST" (auth.authURL c) with
    | Some e => ((c, Err ("failed to create request: " +:+ e)), w)
    | None =>
        let '(o, w2) := httpDo (auth.authRequest c) w in
        match auth.decodeAuthOutcome o with
        | Err e => ((c, Err e), w2)
        | Ok t =>
            let '(now, w3) := Now w2 in
            ((auth.storeToken c t now, Ok (auth.AccessToken t)), w3)
        end
    end.
Proof.
  intros Ht. unfold auth.GetToken, auth.refreshToken, auth.checkCache.
  now rewrite Ht.
Qed.

(** X4.  The token request carries the credentials in a Basic header, the
    base64 of [id:secret], and a form body of two fields in key order,
    [client_id] with the id percent-encoded and then [grant_type]; the
    secret is not in the body.  A client as [NewOAuthClient] builds it
    holds no token, so its first [GetToken] sends this request without
    reading the clock, and reads the clock once when the answer is a
    token. *)
Theorem token_request_format `{GoRuntime} `{auth.TokenCodec}
  (id secret url : string) (w : World) :
  let c := auth.NewOAuthClient id secret url in
  auth.authRequest c
  = EvAuthPost url ("Basic " +:+ base64Encode (id +:+ ":" +:+ secret))
      ("client_id=" +:+ QueryEscape id +:+ "&grant_type=client_credentials")
  /\ (newRequestError "POST" url = None ->
      let w' := snd (auth.GetToken c w) in
      w_trace w' = auth.authRequest c :: w_trace w
      /\ (w_reads w'
          = match auth.decodeAuthOutcome (w_http w (length (w_trace w))) with
            | Ok _ => S (w_reads w)
            | Err _ => w_reads w
            end)).
Proof.
  intros c. split.
  - unfold auth.authRequest, auth.basicCredentials. rewrite Encode_formData.
    reflexivity.
  - intros Hreq. cbv zeta. rewrite (GetToken_fresh c w eq_refl).
    cbn [auth.authURL c auth.NewOAuthClient]. rewrite Hreq.
    unfold httpDo. destruct (auth.decodeAuthOutcome _); now split.
Qed.


(** X6.  [ClearToken] keeps the credentials and the auth URL and empties
    the cache: afterwards [IsTokenValid] answers [false] without reading
    the clock and [GetToken] sends the token request, whatever token was
    cached before.  Clearing twice is clearing once, and clearing a new
    client changes nothing.  Whenever [IsTokenValid] answers [true],
    [GetToken] at the same clock reading returns the cached token and
    sends nothing. *)
Theorem clear_token_forces_refresh `{GoRuntime} `{auth.TokenCodec}
  (c : auth.OAuthClient) (w : World) (id secret url : string) :
  auth.authRequest (auth.ClearToken c) = auth.authRequest c
  /\ auth.IsTokenValid (auth.ClearToken c) w = (false, w)
  /\ (newRequestError "POST" (auth.authURL c) = None ->
      w_trace (snd (auth.GetToken (auth.ClearToken c) w))
      = auth.authRequest c :: w_trace w)
  /\ auth.ClearToken (auth.ClearToken c) = auth.ClearToken c
  /\ auth.ClearToken (auth.NewOAuthClient id secret url)
     = auth.NewOAuthClient id secret url
  /\ (fst (auth.IsTokenValid c w) = true ->
      exists t,
        auth.token c = Some t
        /\ auth.GetToken c w
           = ((c, Ok (auth.AccessToken t)), snd (auth.IsTokenValid c w))
        /\ w_trace (snd (auth.IsTokenValid c w)) = w_trace w).
Proof.
  split; [reflexivity |]. split; [reflexivity |]. split; [| split; [| split]].
  - intros Hreq. rewrite (GetToken_fresh (auth.ClearToken c) w eq_refl).
    cbn [auth.ClearToken auth.authURL]. rewrite Hreq.
    unfold httpDo. now destruct (auth.decodeAuthOutcome _).
  - reflexivity.
  - reflexivity.
  - unfold auth.IsTokenValid, auth.GetToken, auth.checkCache.
    destruct (auth.token c) as [t |]; [| discriminate].
    unfold Now. destruct (_ <? _); [| discriminate].
    intros _. exists t. now repeat split.
Qed.

Lemma refreshToken_effects `{GoRuntime} `{auth.TokenCodec}
  (c : auth.OAuthClient) (w : World) :
  let '((c', r), w') := auth.refreshToken c w in
  (w_trace w' = w_trace w \/ w_trace w' = auth.authRequest c :: w_trace w)
  /\ (w_reads w <= w_reads w' <= w_reads w + 2)%nat
  /\ w_clock w' = w_clock w /\ w_http w' = w_http w
  /\ w_files w' = w_files w /\ w_writable w' = w_writable w
  /\ auth.clientID c' = auth.clientID c
  /\ auth.clientSecret c' = auth.clientSecret c
  /\ auth.authURL c' = auth.authURL c
  /\ (w_trace w' = w_trace w -> c' = c).
Proof.
  unfold auth.refreshToken, auth.checkCache.
  destruct (auth.token c) as [t |].
  - unfold Now. destruct (_ <? _).
    + cbn. repeat split; auto; lia.
    + destruct (newRequestError _ _).
      * cbn. repeat split; auto; lia.
      * unfold httpDo. destruct (auth.decodeAuthOutcome _); cbn.
        -- repeat split; auto; try lia.
           intros Hbad. exfalso. apply (f_equal (@length _)) in Hbad. cbn in Hbad. lia.
        -- repeat split; auto; try lia.
  - destruct (newRequestError _ _).
    + cbn. repeat split; auto; lia.
    + unfold httpDo. destruct (auth.decodeAuthOutcome _); cbn.
      * repeat split; auto; try lia.
        intros Hbad. exfalso. apply (f_equal (@length _)) in Hbad. cbn in Hbad. lia.
      * repeat split; auto; try lia.
Qed.

Lemma GetToken_effects `{GoRuntime} `{auth.TokenCodec}
  (c : auth.OAuthClient) (w : World) :
  let '((c', r), w') := auth.GetToken c w in
  (w_trace w' = w_trace w \/ w_trace w' = auth.authRequest c :: w_trace w)
  /\ (w_reads w <= w_reads w' <= w_reads w + 3)%nat
  /\ w_clock w' = w_clock w /\ w_http w' = w_http w
  /\ w_files w' = w_files w /\ w_writable w' = w_writable w
  /\ auth.clientID c' = auth.clientID c
  /\ auth.clientSecret c' = auth.clientSecret c
  /\ auth.authURL c' = auth.authURL c
  /\ (w_trace w' = w_trace w -> c' = c).
Proof.
  unfold auth.GetToken.
  destruct (auth.checkCache c w) as [[tok |] w1] eqn:Hc.
  - unfold auth.checkCache in Hc. destruct (auth.token c); [| discriminate].
    unfold Now in Hc. destruct (_ <? _); [| discriminate].
    injection Hc as _ <-. cbn. repeat split; auto; lia.
  - assert (Hw1 : w_trace w1 = w_trace w /\ (w_reads w <= w_reads w1 <= w_reads w + 1)%nat
                  /\ w_clock w1 = w_clock w /\ w_http w1 = w_http w
                  /\ w_files w1 = w_files w /\ w_writable w1 = w_writable w).
    { unfold auth.checkCache in Hc. destruct (auth.token c).
      - unfold Now in Hc. injection Hc as _ <-. cbn. repeat split; auto; lia.
      - injection Hc as <-. repeat split; auto; lia. }
    destruct Hw1 as (Ht & Hr & Hk & Hh & Hf & Hwr).
    pose proof (refreshToken_effects c w1) as Href.
    destruct (auth.refreshToken c w1) as [[c' r] w'].
    destruct Href as (Ht' & Hr' & Hk' & Hh' & Hf' & Hwr' & Hi & Hs & Hu & Hsame).
    rewrite Ht in Ht', Hsame.
    repeat split; try congruence; try lia; auto.
Qed.

(** X7.  One call of [GetToken] sends nothing or exactly the token
    request of its client, reads the clock at most three times, and
    leaves the file system alone; the client it returns has the same
    credentials and auth URL, and is the same client altogether when
    nothing was sent. *)
Theorem get_token_sends_at_most_one_request `{GoRuntime} `{auth.TokenCodec}
  (c : auth.OAuthClient) (w : World) :
  let c' := fst (fst (auth.GetToken c w)) in
  let w' := snd (auth.GetToken c w) in
  (w_trace w' = w_trace w \/ w_trace w' = auth.authRequest c :: w_trace w)
  /\ (authExchanges w' <= S (authExchanges w))%nat
  /\ (w_reads w <= w_reads w' <= w_reads w + 3)%nat
  /\ w_files w' = w_files w
  /\ auth.clientID c' = auth.clientID c
  /\ auth.clientSecret c' = auth.clientSecret c
  /\ auth.authURL c' = auth.authURL c
  /\ (w_trace w' = w_trace w -> c' = c).
Proof.
  cbv zeta. pose proof (GetToken_effects c w) as Heff.
  destruct (auth.GetToken c w) as [[c' r] w']. cbn [fst snd].
  destruct Heff as (Ht & Hr & _ & _ & Hf & _ & Hi & Hs & Hu & Hsame).
  repeat split; auto; try lia.
  unfold authExchanges. destruct Ht as [-> | ->]; [lia |].
  rewrite filter_cons. destruct (decide _); cbn [length]; lia.
Qed.

(** ** Package api *)

Lemma skipLimits_lookup (entity : string) :
  api.skipLimits !! entity
  = if api.IsValidEntity entity
    then Some (api.GetEntitySkipLimit entity) else None.
Proof.
  destruct (api.IsValidEntity entity) eqn:Hv.
  - apply IsValidEntity_catalog in Hv. cbn [spec.catalogNames In] in Hv.
    repeat (destruct Hv as [<- | Hv]; [reflexivity |]). contradiction.
  - assert (Hn : ~ In entity spec.catalogNames).
    { intros Hin. apply IsValidEntity_catalog in Hin. congruence. }
    cbn [spec.catalogNames In] in Hn.
    unfold api.skipLimits. cbn [list_to_map foldr fst snd uncurry].
    rewrite !lookup_insert_ne by (intros <-; tauto).
    apply lookup_empty.
Qed.

(** X8.  The entity catalog and the table of skip limits name the same
    nine entities: an entity is valid exactly when the table has a limit
    for it, so that the default of 50000 is what an unsupported entity
    gets and no supported one.  Every limit lies between 50000 and
    1000000; the catalog names are distinct; and the URL of every catalog
    entry is [/odata/] followed by its name. *)
Theorem catalog_and_skip_limits_agree (entity : string) :
  (api.IsValidEntity entity = true <-> api.skipLimits !! entity <> None)
  /\ (api.IsValidEntity entity = false -> api.GetEntitySkipLimit entity = 50000)
  /\ 50000 <= api.GetEntitySkipLimit entity <= 1000000
  /\ NoDup (map api.Name api.GetSupportedEntities)
  /\ Forall (fun e => api.URL e = "/odata/" +:+ api.Name e) api.GetSupportedEntities.
Proof.
  split; [| split; [| split; [| split]]].
  - rewrite skipLimits_lookup. destruct (api.IsValidEntity entity);
      split; congruence.
  - intros Hv. unfold api.GetEntitySkipLimit. now rewrite skipLimits_lookup, Hv.
  - destruct (api.IsValidEntity entity) eqn:Hv.
    + apply IsValidEntity_catalog in Hv. cbn [spec.catalogNames In] in Hv.
      repeat (destruct Hv as [<- | Hv]; [vm_compute; split; discriminate |]).
      contradiction.
    + unfold api.GetEntitySkipLimit. rewrite skipLimits_lookup, Hv. lia.
  - apply (bool_decide_unpack (NoDup (map api.Name api.GetSupportedEntities))).
    vm_compute. exact I.
  - unfold api.GetSupportedEntities.
    repeat (apply Forall_cons_2; [reflexivity |]). apply Forall_nil_2.
Qed.

Lemma QueryEscape_uint (d : Decimal.uint) :
  QueryEscape (NilEmpty.string_of_uint d) = NilEmpty.string_of_uint d.
Proof.
  induction d; cbn [NilEmpty.string_of_uint]; [reflexivity | ..];
    (cbn [QueryEscape];
     match goal with
     | |- context [isUnreserved ?c] =>
         replace (isUnreserved c) with true by reflexivity
     end; now rewrite IHd).
Qed.

Lemma QueryEscape_Itoa (n : Z) : QueryEscape (Itoa n) = Itoa n.
Proof.
  unfold Itoa, NilZero.string_of_int.
  destruct (Z.to_int n) as [d | d].
  - unfold NilZero.string_of_uint. destruct d; try apply QueryEscape_uint.
    reflexivity.
  - cbn [QueryEscape].
    replace (isUnreserved "-") with true by reflexivity.
    unfold NilZero.string_of_uint.
    destruct d; try (now rewrite QueryEscape_uint). reflexivity.
Qed.

Lemma pairs_of_conditional_sets (f : string -> string -> string)
  (sel fil t k ord : string) (bsel bfil bt bk bord nulls case : bool) :
  let q : Values := ∅ in
  let q := if bsel then Set_ q "$select" sel else q in
  let q := if bfil then Set_ q "$filter" fil else q in
  let q := if bt then Set_ q "$top" t else q in
  let q := if bk then Set_ q "$skip" k else q in
  let q := if bord then Set_ q "$orderby" ord else q in
  let q := if nulls then Set_ q "$ignorenulls" "true" else q in
  let q := if case then Set_ q "$ignorecase" "true" else q in
  let pairs :=
    ((if bfil then [f "$filter" fil] else [])
     ++ (if case then [f "$ignorecase" "true"] else [])
     ++ (if nulls then [f "$ignorenulls" "true"] else [])
     ++ (if bord then [f "$orderby" ord] else [])
     ++ (if bsel then [f "$select" sel] else [])
     ++ (if bk then [f "$skip" k] else [])
     ++ (if bt then [f "$top" t] else []))%list in
  flat_map (fun key => map (f key) (q !!! key)) (sortedKeys q) = pairs
  /\ size q = length pairs.
Proof.
  destruct bsel, bfil, bt, bk, bord, nulls, case; vm_compute; split; reflexivity.
Qed.

(** X9.  The URL of a query is the base URL, a slash and the entity,
    followed, when a parameter is set, by a question mark and the
    parameters joined by [&]: each as its name with the dollar sign
    written [%24], an equals sign and the percent-encoded value, in the
    order filter, ignorecase, ignorenulls, orderby, select, skip, top,
    whatever the order of the fields in the request. *)
Theorem query_url_lists_parameters_in_key_order (c : api.Client) (p : api.QueryParams) :
  let pairs :=
    ((if negb (String.eqb (api.Filter p) "")
      then ["%24filter=" +:+ QueryEscape (api.Filter p)] else [])
     ++ (if api.IgnoreCase p then ["%24ignorecase=true"] else [])
     ++ (if api.IgnoreNulls p then ["%24ignorenulls=true"] else [])
     ++ (if negb (String.eqb (api.OrderBy p) "")
         then ["%24orderby=" +:+ QueryEscape (api.OrderBy p)] else [])
     ++ (if negb (String.eqb (api.Select p) "")
         then ["%24select=" +:+ QueryEscape (api.Select p)] else [])
     ++ (if 0 <? api.Skip p then ["%24skip=" +:+ Itoa (api.Skip p)] else [])
     ++ (if 0 <? api.Top p then ["%24top=" +:+ Itoa (api.Top p)] else []))%list in
  api.queryURL c p
  = match pairs with
    | [] => api.baseURL c +:+ "/" +:+ api.Entity p
    | _ => (api.baseURL c +:+ "/" +:+ api.Entity p) +:+ "?" +:+ joinAmp pairs
    end.
Proof.
  intros pairs.
  destruct (pairs_of_conditional_sets
              (fun key x => QueryEscape key +:+ "=" +:+ QueryEscape x)
              (api.Select p) (api.Filter p) (Itoa (api.Top p)) (Itoa (api.Skip p))
              (api.OrderBy p)
              (negb (String.eqb (api.Select p) "")) (negb (String.eqb (api.Filter p) ""))
              (0 <? api.Top p) (0 <? api.Skip p)
              (negb (String.eqb (api.OrderBy p) "")) (api.IgnoreNulls p)
              (api.IgnoreCase p)) as [Hpairs Hsize].
  cbv zeta in Hpairs, Hsize. rewrite !QueryEscape_Itoa in Hpairs, Hsize.
  unfold api.queryURL, Encode, encodePairs.
  change (size (api.buildQueryParams p)) with
    (size (let q : Values := ∅ in
           let q := if negb (String.eqb (api.Select p) "")
                    then Set_ q "$select" (api.Select p) else q in
           let q := if negb (String.eqb (api.Filter p) "")
                    then Set_ q "$filter" (api.Filter p) else q in
           let q := if 0 <? api.Top p
                    then Set_ q "$top" (Itoa (api.Top p)) else q in
           let q := if 0 <? api.Skip p
                    then Set_ q "$skip" (Itoa (api.Skip p)) else q in
           let q := if negb (String.eqb (api.OrderBy p) "")
                    then Set_ q "$orderby" (api.OrderBy p) else q in
           let q := if api.IgnoreNulls p
                    then Set_ q "$ignorenulls" "true" else q in
           let q := if api.IgnoreCase p
                    then Set_ q "$ignorecase" "true" else q in
           q)).
  cbv zeta. rewrite Hsize.
  unfold api.buildQueryParams. cbv zeta. rewrite Hpairs.
  fold pairs.
  change ((if negb (String.eqb (api.Filter p) "")
           then [QueryEscape "$filter" +:+ "=" +:+ QueryEscape (api.Filter p)]
           else [])
          ++ (if api.IgnoreCase p
              then [QueryEscape "$ignorecase" +:+ "=" +:+ QueryEscape "true"] else [])
          ++ (if api.IgnoreNulls p
              then [QueryEscape "$ignorenulls" +:+ "=" +:+ QueryEscape "true"] else [])
          ++ (if negb (String.eqb (api.OrderBy p) "")
              then [QueryEscape "$orderby" +:+ "=" +:+ QueryEscape (api.OrderBy p)]
              else [])
          ++ (if negb (String.eqb (api.Select p) "")
              then [QueryEscape "$select" +:+ "=" +:+ QueryEscape (api.Select p)]
              else [])
          ++ (if 0 <? api.Skip p
              then [QueryEscape "$skip" +:+ "=" +:+ Itoa (api.Skip p)] else [])
          ++ (if 0 <? api.Top p
              then [QueryEscape "$top" +:+ "=" +:+ Itoa (api.Top p)] else []))%list
    with pairs.
  destruct pairs; reflexivity.
Qed.

Lemma Query_Ok_inv `{GoRuntime} `{auth.TokenCodec} `{api.ApiCodec}
  (c c' : api.Client) (p : api.QueryParams) (w w' : World) (resp : api.APIResponse) :
  api.Query c p w = ((c', Ok resp), w') ->
  api.validate p = None
  /\ exists oc tok w1 enc raw body parsed,
       auth.GetToken (api.oauthClient c) (snd (Now w)) = ((oc, Ok tok), w1)
       /\ c' = api.withOAuth c oc
       /\ newRequestError "GET" (api.queryURL c p) = None
       /\ w_trace w' = EvApiGet (api.queryURL c p) ("Bearer " +:+ tok) :: w_trace w1
       /\ w_http w (length (w_trace w1)) = Response 200 enc raw
       /\ api.readBody enc raw = Ok body
       /\ api.parseAPIResponse body = Ok parsed
       /\ w_reads w' = S (w_reads w1)
       /\ resp = api.withMetadata parsed (w_clock w (w_reads w))
                   (w_clock w (w_reads w1) - w_clock w (w_reads w)) p.
Proof.
  unfold api.Query. unfold Now at 1. cbn [snd].
  destruct (api.validate p); [discriminate |]. intros Hq. split; [reflexivity |].
  pose proof (GetToken_effects (api.oauthClient c) (snd (Now w))) as Heff.
  unfold Now in Heff. cbn [snd] in Heff.
  destruct (auth.GetToken _ _) as [[oc [tok | e]] w1]; [| discriminate].
  destruct Heff as (_ & _ & Hclock & Hhttp & _).
  cbn [w_clock w_http] in Hclock, Hhttp.
  destruct (newRequestError "GET" _) eqn:Hreq; [discriminate |].
  unfold httpDo in Hq.
  destruct (w_http w1 (length (w_trace w1))) as [e | e | status enc raw] eqn:Ho;
    [discriminate | discriminate |].
  destruct (api.readBody enc raw) as [body | e] eqn:Hb; [| discriminate].
  unfold api.decodeQueryBody in Hq.
  destruct (status =? 200) eqn:Hs; cbn [negb] in Hq.
  2: { destruct (api.parseErrorResponse body) as [[code message] |]; discriminate. }
  apply Z.eqb_eq in Hs. subst status.
  destruct (api.parseAPIResponse body) as [parsed | e] eqn:Hparse; [| discriminate].
  unfold Now in Hq. cbn [w_clock w_reads w_trace] in Hq.
  injection Hq as <- <- <-.
  exists oc, tok, w1, enc, raw, body, parsed. cbn [w_trace w_reads].
  rewrite <- Hhttp, <- Hclock. repeat split; auto.
Qed.

(** X10.  [Query] returns a response only if the request passed both
    validations, a token was obtained, and the answer to the GET it sent,
    to the URL of the request with that token as bearer, had status 200
    and a body that, gunzipped when the content encoding says so, parsed.
    The response is the parsed one stamped with the request, the clock
    reading at the start of the call, and the time elapsed up to the last
    clock reading of the call. *)
Theorem query_success_means_validated_200 `{GoRuntime} `{auth.TokenCodec} `{api.ApiCodec}
  (c c' : api.Client) (p : api.QueryParams) (w w' : World) (resp : api.APIResponse) :
  api.Query c p w = ((c', Ok resp), w') ->
  In (api.Entity p) spec.catalogNames
  /\ (api.Skip p <= 0 \/ api.Skip p <= api.GetEntitySkipLimit (api.Entity p))
  /\ api.RequestParams resp = p
  /\ api.RequestTime resp = w_clock w (w_reads w)
  /\ api.RequestTime resp + api.ResponseTime resp = w_clock w (pred (w_reads w'))
  /\ exists tok enc raw body parsed rest,
       w_trace w' = EvApiGet (api.queryURL c p) ("Bearer " +:+ tok) :: rest
       /\ w_http w (length rest) = Response 200 enc raw
       /\ api.readBody enc raw = Ok body
       /\ api.parseAPIResponse body = Ok parsed
       /\ api.Value resp = api.Value parsed
       /\ api.Count resp = api.Count parsed
       /\ api.NextLink resp = api.NextLink parsed.
Proof.
  intros Hq. apply Query_Ok_inv in Hq as (Hv & oc & tok & w1 & enc & raw & body
                                            & parsed & _ & _ & _ & Ht & Ho & Hb & Hp
                                            & Hr & ->).
  unfold api.validate in Hv.
  destruct (api.IsValidEntity (api.Entity p)) eqn:Hvalid; [| discriminate].
  cbn [negb] in Hv.
  destruct ((0 <? api.Skip p) && _) eqn:Hskip; [discriminate |].
  split; [now apply IsValidEntity_catalog |]. split.
  { apply andb_false_iff in Hskip as [Hs | Hs].
    - left. apply Z.ltb_ge in Hs. lia.
    - right. apply Z.ltb_ge in Hs. lia. }
  cbn [api.withMetadata api.RequestParams api.RequestTime api.ResponseTime
       api.Value api.Count api.NextLink].
  rewrite Hr. cbn [pred].
  split; [reflexivity |]. split; [reflexivity |]. split; [lia |].
  exists tok, enc, raw, body, parsed, (w_trace w1). now repeat split.
Qed.




Lemma GetMetadata_Ok_inv `{GoRuntime} `{auth.TokenCodec}
  (c c' : api.Client) (w w' : World) (body : string) :
  api.GetMetadata c w = ((c', Ok body), w') ->
  exists oc tok w1 enc,
    auth.GetToken (api.oauthClient c) w = ((oc, Ok tok), w1)
    /\ c' = api.withOAuth c oc
    /\ w_trace w'
       = EvApiGet (api.baseURL c +:+ "/$metadata") ("Bearer " +:+ tok) :: w_trace w1
    /\ w_http w (length (w_trace w1)) = Response 200 enc body.
Proof.
  unfold api.GetMetadata.
  pose proof (GetToken_effects (api.oauthClient c) w) as Heff.
  destruct (auth.GetToken _ _) as [[oc [tok | e]] w1]; [| discriminate].
  destruct Heff as (_ & _ & _ & Hhttp & _).
  destruct (newRequestError "GET" _); [discriminate |].
  unfold httpDo.
  destruct (w_http w1 (length (w_trace w1))) as [e | e | status enc raw] eqn:Ho;
    [discriminate | discriminate |].
  destruct (status =? 200) eqn:Hs; cbn [negb]; [| discriminate].
  apply Z.eqb_eq in Hs. subst status.
  intros [= <- <- <-]. exists oc, tok, w1, enc. cbn [w_trace].
  rewrite <- Hhttp. now repeat split.
Qed.

(** X12.  [GetMetadata] returns a document only when a token was
    obtained and the GET it sent, to the base URL followed by
    [/$metadata] with that token as bearer, was answered with status 200;
    the document is the body as it arrived, whatever the content encoding
    of the answer.  With a token in the cache it sends just that GET, and
    an answer with another status is an error that quotes the status and
    the body. *)
Theorem metadata_is_the_raw_200_body `{GoRuntime} `{auth.TokenCodec}
  (c : api.Client) (w : World) :
  (forall c' w' body,
      api.GetMetadata c w = ((c', Ok body), w') ->
      exists tok enc rest,
        w_trace w'
        = EvApiGet (api.baseURL c +:+ "/$metadata") ("Bearer " +:+ tok) :: rest
        /\ w_http w (length rest) = Response 200 enc body)
  /\ (forall t status enc body,
        auth.token (api.oauthClient c) = Some t ->
        w_clock w (w_reads w) < auth.tokenExpiry (api.oauthClient c) ->
        newRequestError "GET" (api.baseURL c +:+ "/$metadata") = None ->
        w_http w (length (w_trace w)) = Response status enc body ->
        w_trace (snd (api.GetMetadata c w))
        = EvApiGet (api.baseURL c +:+ "/$metadata")
            ("Bearer " +:+ auth.AccessToken t) :: w_trace w
        /\ snd (fst (api.GetMetadata c w))
           = (if status =? 200 then Ok body
              else Err ("metadata request failed with status " +:+ Itoa status
                        +:+ ": " +:+ body))).
Proof.
  split.
  - intros c' w' body Hm.
    apply GetMetadata_Ok_inv in Hm as (oc & tok & w1 & enc & _ & _ & Ht & Ho).
    exists tok, enc, (w_trace w1). now split.
  - intros t status enc body Ht Hlt Hreq Ho. unfold api.GetMetadata.
    rewrite (GetToken_cached (api.oauthClient c) t w Ht Hlt), Hreq.
    unfold httpDo, Now. cbn [snd w_http w_trace]. rewrite Ho.
    destruct (status =? 200); now split.
Qed.

Lemma queryURL_testParams (c : api.Client) :
  api.queryURL c api.testParams
  = api.baseURL c +:+ "/Property?%24ignorenulls=true&%24top=1".
Proof.
  unfold api.queryURL.
  replace (size (api.buildQueryParams api.testParams)) with 2%nat
    by (vm_compute; reflexivity).
  replace (Encode (api.buildQueryParams api.testParams))
    with "%24ignorenulls=true&%24top=1" by (vm_compute; reflexivity).
  cbn [Nat.ltb Nat.leb api.testParams api.Entity].
  rewrite app_assoc_string. reflexivity.
Qed.

(** X13.  The query [TestConnection] sends asks for one [Property] record
    with nulls ignored; it passes both validations.  [TestConnection]
    reports success only after that GET was answered with status 200, and
    reports a failure of [GetToken] as an authentication failure without
    having sent a GET. *)
Theorem test_connection_sends_one_property_query
  `{GoRuntime} `{auth.TokenCodec} `{api.ApiCodec} (c : api.Client) (w : World) :
  api.validate api.testParams = None
  /\ api.queryURL c api.testParams
     = api.baseURL c +:+ "/Property?%24ignorenulls=true&%24top=1"
  /\ (forall c' w',
        api.TestConnection c w = ((c', None), w') ->
        exists tok enc raw rest,
          w_trace w'
          = EvApiGet (api.baseURL c +:+ "/Property?%24ignorenulls=true&%24top=1")
              ("Bearer " +:+ tok) :: rest
          /\ w_http w (length rest) = Response 200 enc raw)
  /\ (forall oc e w1,
        auth.GetToken (api.oauthClient c) w = ((oc, Err e), w1) ->
        api.TestConnection c w
        = ((api.withOAuth c oc, Some ("authentication failed: " +:+ e)), w1)
        /\ (w_trace w1 = w_trace w
            \/ w_trace w1 = auth.authRequest (api.oauthClient c) :: w_trace w)).
Proof.
  split; [reflexivity |]. split; [apply queryURL_testParams |]. split.
  - intros c' w'. unfold api.TestConnection.
    pose proof (GetToken_effects (api.oauthClient c) w) as Heff.
    destruct (auth.GetToken _ _) as [[oc [tok | e]] w1]; [| discriminate].
    destruct Heff as (_ & _ & Hclock & Hhttp & _).
    destruct (api.Query _ _ w1) as [[c2 [resp | e]] w2] eqn:Hq; [| discriminate].
    intros [= <- <-].
    apply Query_Ok_inv in Hq as (_ & oc' & tok' & w0 & enc & raw & body & parsed
                                   & _ & _ & _ & Ht & Ho & _).
    rewrite queryURL_testParams in Ht. cbn [api.withOAuth api.baseURL] in Ht.
    exists tok', enc, raw, (w_trace w0). split; [exact Ht |]. now rewrite <- Hhttp.
  - intros oc e w1 Hg. unfold api.TestConnection. rewrite Hg. split; [reflexivity |].
    pose proof (GetToken_effects (api.oauthClient c) w) as Heff.
    rewrite Hg in Heff. tauto.
Qed.

(** ** Package metadata *)

Lemma extractEnumType_collection (inner : string) :
  metadata.extractEnumType ("Collection(" +:+ inner +:+ ")")
  = Some (if Contains inner metadata.enumsNamespace
          then metadata.TrimPrefix inner metadata.enumsNamespace
          else inner).
Proof.
  unfold metadata.extractEnumType.
  rewrite HasPrefix_app.
  rewrite <- (app_assoc_string "Collection(" inner ")"), HasSuffix_app.
  rewrite (app_assoc_string "Collection(" inner ")").
  cbn [andb]. rewrite slice_collection. now destruct (Contains inner _).
Qed.

(** X14.  [extractEnumType] never panics: the slice it takes is within
    bounds whenever the prefix and suffix tests pass.  A type in the enum
    namespace yields its name, alone or in a collection; any other
    collection yields its element type as it stands, so that the
    collection of a primitive type is taken for an enum; a type that is
    neither yields the empty string. *)
Theorem extractEnumType_total_and_values (propType name inner : string) :
  (exists r, metadata.extractEnumType propType = Some r)
  /\ metadata.extractEnumType (metadata.enumsNamespace +:+ name) = Some name
  /\ metadata.extractEnumType
       ("Collection(" +:+ (metadata.enumsNamespace +:+ name) +:+ ")")
     = Some name
  /\ (Contains inner metadata.enumsNamespace = false ->
      metadata.extractEnumType ("Collection(" +:+ inner +:+ ")") = Some inner)
  /\ (metadata.HasPrefix propType "Collection(" = false ->
      Contains propType metadata.enumsNamespace = false ->
      metadata.extractEnumType propType = Some "").
Proof.
  split; [| split; [| split; [| split]]].
  - unfold metadata.extractEnumType.
    destruct (metadata.HasPrefix propType "Collection(") eqn:Hp; cbn [andb].
    2: { destruct (Contains propType _); eauto. }
    destruct (metadata.HasSuffix propType ")") eqn:Hs.
    2: { destruct (Contains propType _); eauto. }
    apply String_prefix_inv in Hp as [r ->].
    destruct r as [| c r]; [discriminate |].
    unfold metadata.slice. rewrite string_length_app. cbn [String.length].
    replace (0 <=? 11) with true by reflexivity.
    replace (11 <=? Z.of_nat (11 + S (String.length r)) - 1) with true
      by (symmetry; apply Z.leb_le; lia).
    replace (Z.of_nat (11 + S (String.length r)) - 1
             <=? Z.of_nat (11 + S (String.length r))) with true
      by (symmetry; apply Z.leb_le; lia).
    cbn [andb]. destruct (Contains _ _); eauto.
  - unfold metadata.extractEnumType.
    replace (metadata.HasPrefix (metadata.enumsNamespace +:+ name) "Collection(")
      with false by reflexivity.
    cbn [andb].
    now rewrite Contains_prefix, TrimPrefix_app.
  - rewrite extractEnumType_collection.
    now rewrite Contains_prefix, TrimPrefix_app.
  - intros Hc. now rewrite extractEnumType_collection, Hc.
  - intros Hp Hc. unfold metadata.extractEnumType. now rewrite Hp, Hc.
Qed.

Lemma formatTypeFuel_enough (fuel fuel' : nat) (s : string) :
  (String.length s <= fuel)%nat -> (String.length s <= fuel')%nat ->
  metadata.formatTypeFuel fuel s = metadata.formatTypeFuel fuel' s
  /\ metadata.formatTypeFuel fuel s <> metadata.OutOfFuel.
Proof.
  revert fuel' s. induction fuel as [| fuel IH]; intros fuel' s Hf Hf'.
  - destruct s; [| cbn in Hf; lia]. now destruct fuel'.
  - destruct fuel' as [| fuel'].
    { destruct s; [| cbn in Hf'; lia]. split; [reflexivity | discriminate]. }
    cbn [metadata.formatTypeFuel].
    destruct (metadata.HasPrefix s "Collection(") eqn:Hp.
    2: { split; [reflexivity |].
         destruct (metadata.HasPrefix s "Edm."); [discriminate |].
         destruct (Contains s _); discriminate. }
    destruct (metadata.slice s 11 _) as [inner |] eqn:Hs;
      [| split; [reflexivity | discriminate]].
    assert (Hlen : (String.length inner < String.length s)%nat).
    { apply String_prefix_inv in Hp as [r ->]. unfold metadata.slice in Hs.
      destruct (_ && _); [| discriminate]. injection Hs as <-.
      change ("" +:+ r) with r. rewrite string_length_app. cbn [String.length].
      assert (Hsub : forall m t, (String.length (substring 0 m t) <= String.length t)%nat).
      { intros m t. revert m. induction t as [| c t IHt]; intros [| m]; cbn;
          try lia. specialize (IHt m). lia. }
      match goal with
      | |- context [substring 0 ?m r] => specialize (Hsub m r)
      end. lia. }
    destruct (IH fuel' inner ltac:(lia) ltac:(lia)) as [-> Hne].
    split; [reflexivity |].
    destruct (IH fuel' inner ltac:(lia) ltac:(lia)) as [Heq _].
    rewrite <- Heq. destruct (metadata.formatTypeFuel fuel inner);
      [discriminate | discriminate | congruence].
Qed.

(** X15.  [formatType] always comes to an end.  It returns the type as
    it stands, or without its [Edm.] or enum-namespace prefix, when the
    type does not start with [Collection(]; for a type that does, it
    drops the eleven characters and the last one, whatever that is, and
    formats the rest; and it panics on the type [Collection(] itself,
    whose slice bounds are out of order. *)
Theorem formatType_collection_slice (propType inner : string) (c : ascii) :
  metadata.formatType propType <> metadata.OutOfFuel
  /\ metadata.formatType "Collection(" = metadata.Panics
  /\ metadata.formatType ("Collection(" +:+ inner +:+ String c "")
     = match metadata.formatType inner with
       | metadata.Returns r => metadata.Returns ("Collection of " +:+ r)
       | o => o
       end
  /\ (metadata.HasPrefix propType "Collection(" = false ->
      metadata.formatType propType
      = metadata.Returns
          (if metadata.HasPrefix propType "Edm."
           then metadata.TrimPrefix propType "Edm."
           else if Contains propType metadata.enumsNamespace
                then metadata.TrimPrefix propType metadata.enumsNamespace
                else propType)).
Proof.
  split; [| split; [| split]].
  - exact (proj2 (formatTypeFuel_enough _ _ propType (le_n _) (le_n _))).
  - reflexivity.
  - unfold metadata.formatType at 1.
    remember (String.length ("Collection(" +:+ inner +:+ String c "")) as n eqn:Hn.
    rewrite !string_length_app in Hn. cbn [String.length] in Hn.
    destruct n as [| n]; [lia |].
    cbn [metadata.formatTypeFuel].
    rewrite HasPrefix_app, slice_collection.
    unfold metadata.formatType.
    destruct (formatTypeFuel_enough n (String.length inner) inner
                ltac:(lia) ltac:(lia)) as [-> _].
    now destruct (metadata.formatTypeFuel _ inner).
  - intros Hp. unfold metadata.formatType.
    destruct (String.length propType); cbn [metadata.formatTypeFuel]; rewrite Hp;
      destruct (metadata.HasPrefix propType "Edm."); try reflexivity;
      destruct (Contains propType _); reflexivity.
Qed.


(** ** Field categories *)

Lemma String_leb_trans (a b c : string) :
  String.leb a b = true -> String.leb b c = true -> String.leb a c = true.
Proof.
  unfold String.leb. revert b c.
  induction a as [| x a IH]; intros [| y b] [| z c]; cbn [String.compare];
    try congruence.
  unfold Ascii.compare.
  destruct (N.compare_spec (N_of_ascii x) (N_of_ascii y)) as [Hxy | Hxy | Hxy];
    destruct (N.compare_spec (N_of_ascii y) (N_of_ascii z)) as [Hyz | Hyz | Hyz];
    try congruence.
  - rewrite Hxy, Hyz, N.compare_refl. apply IH.
  - rewrite Hxy. now rewrite (proj2 (N.compare_lt_iff _ _) Hyz).
  - rewrite <- Hyz. now rewrite (proj2 (N.compare_lt_iff _ _) Hxy).
  - now rewrite (proj2 (N.compare_lt_iff _ _) (N.lt_trans _ _ _ Hxy Hyz)).
Qed.

#[local] Instance keyLe_trans : Transitive keyLe.
Proof. intros a b c. apply String_leb_trans. Qed.

#[local] Instance keyLe_antisym : AntiSymm (=) keyLe.
Proof. intros a b. apply String.leb_antisym. Qed.

#[local] Instance keyLe_total : Total keyLe.
Proof. intros a b. apply String.leb_total. Qed.

Lemma sortStrings_Permutation (l l' : list string) :
  l ≡ₚ l' -> metadata.sortStrings l = metadata.sortStrings l'.
Proof.
  intros Hp. unfold metadata.sortStrings.
  apply (Sorted_unique keyLe); try apply Sorted_merge_sort; try apply _.
  now rewrite !merge_sort_Permutation.
Qed.

Lemma categorizeField_identification `{metadata.Unicode} (f : string) :
  metadata.categorizeField f = "Identification" <-> metadata.isKeyField f = true.
Proof.
  unfold metadata.categorizeField, metadata.isKeyField.
  destruct (Contains (metadata.ToLower f) "key") eqn:Hkey; [now cbn |].
  destruct (Contains (metadata.ToLower f) "id") eqn:Hid; [now cbn |].
  cbn [orb].
  destruct (Contains (metadata.ToLower f) "mlsid") eqn:Hmls.
  { apply (Contains_suffix_of_sub _ "mls" "id") in Hmls. congruence. }
  cbn [orb].
  destruct (String.eqb_spec f "ListingKey") as [-> | _];
    [vm_compute in Hkey; discriminate |].
  destruct (String.eqb_spec f "ListingId") as [-> | _];
    [vm_compute in Hid; discriminate |].
  cbn [orb].
  repeat match goal with
         | |- context [if ?b then _ else _] => destruct b
         end; split; discriminate.
Qed.

Lemma lookup_foldl_addField `{metadata.Unicode} (order : list string) (cat : string) :
  foldl metadata.addField ∅ order !! cat
  = match filter (fun f => metadata.categorizeField f = cat) order with
    | [] => None
    | l => Some l
    end.
Proof.
  induction order as [| x order IH] using rev_ind; [reflexivity |].
  rewrite foldl_app, filter_app. cbn [foldl]. unfold metadata.addField at 1.
  rewrite filter_cons, filter_nil.
  destruct (decide (metadata.categorizeField x = cat)) as [-> | Hne].
  - rewrite lookup_insert_eq, IH.
    destruct (filter _ order); reflexivity.
  - rewrite lookup_insert_ne by assumption. rewrite IH, app_nil_r. reflexivity.
Qed.

(** X16.  A field is categorized [Identification] exactly when its
    lower-cased name contains [key] or [id]: the tests on [mlsid],
    [ListingKey] and [ListingId] never decide.  A field whose name
    contains [area] is never categorized [Property Details], the group
    that tests for it second: it is [Identification] or
    [Address & Location].  Every field gets one of the nine category
    names. *)
Theorem identification_is_key_or_id `{metadata.Unicode} (f : string) :
  (metadata.categorizeField f = "Identification"
   <-> Contains (metadata.ToLower f) "key" = true
       \/ Contains (metadata.ToLower f) "id" = true)
  /\ (Contains (metadata.ToLower f) "area" = true ->
      metadata.categorizeField f = "Identification"
      \/ metadata.categorizeField f = "Address & Location")
  /\ In (metadata.categorizeField f)
       [ "Identification"; "Address & Location"; "Pricing & Financial";
         "Property Details"; "Agent & Office Info"; "Status & Dates";
         "Features & Amenities"; "Media & Marketing"; "Other" ].
Proof.
  split; [| split].
  - rewrite categorizeField_identification. unfold metadata.isKeyField.
    apply orb_true_iff.
  - intros Harea. unfold metadata.categorizeField. rewrite Harea.
    destruct (_ || _); [now left |]. right.
    now rewrite !orb_true_r.
  - unfold metadata.categorizeField.
    repeat match goal with
           | |- context [if ?b then _ else _] => destruct b
           end; solve_In.
Qed.

(** X17.  The fields of an entity come out of [GetFieldsByCategory] the
    same in whatever order the map of fields is visited: a category that
    some field falls in holds exactly its fields, sorted, and no other
    category is present.  [getKeyFields] likewise does not depend on the
    order, and returns the list filed under [Identification]. *)
Theorem fields_by_category_sorted_any_order `{metadata.Unicode}
  (order order' : list string) (cat : string) :
  metadata.fieldsByCategory order !! cat
  = match filter (fun f => metadata.categorizeField f = cat) order with
    | [] => None
    | l => Some (metadata.sortStrings l)
    end
  /\ (order ≡ₚ order' ->
      metadata.fieldsByCategory order = metadata.fieldsByCategory order'
      /\ metadata.keyFields order = metadata.keyFields order')
  /\ metadata.keyFields order
     = default [] (metadata.fieldsByCategory order !! "Identification").
Proof.
  assert (Hlookup : forall o c,
             metadata.fieldsByCategory o !! c
             = match filter (fun f => metadata.categorizeField f = c) o with
               | [] => None
               | l => Some (metadata.sortStrings l)
               end).
  { intros o c. unfold metadata.fieldsByCategory.
    rewrite lookup_fmap, lookup_foldl_addField. now destruct (filter _ o). }
  split; [apply Hlookup |]. split.
  - intros Hp. split.
    + apply map_eq. intros c. rewrite !Hlookup.
      assert (Hf : filter (fun f => metadata.categorizeField f = c) order
                   ≡ₚ filter (fun f => metadata.categorizeField f = c) order')
        by now rewrite Hp.
      destruct (filter _ order) as [| a l] eqn:E;
        destruct (filter _ order') as [| a' l'] eqn:E'.
      * reflexivity.
      * now apply Permutation_nil_cons in Hf.
      * symmetry in Hf. now apply Permutation_nil_cons in Hf.
      * f_equal. now apply sortStrings_Permutation.
    + unfold metadata.keyFields. apply sortStrings_Permutation. now rewrite Hp.
  - rewrite Hlookup. unfold metadata.keyFields.
    rewrite (list_filter_iff (fun f => metadata.isKeyField f = true)
               (fun f => metadata.categorizeField f = "Identification")).
    2: { intros x. symmetry. apply categorizeField_identification. }
    destruct (filter _ order); reflexivity.
Qed.

(** ** Package tools *)

Lemma Query_effects `{GoRuntime} `{auth.TokenCodec} `{api.ApiCodec}
  (c : api.Client) (p : api.QueryParams) (w : World) :
  let '((c', r), w') := api.Query c p w in
  api.baseURL c' = api.baseURL c
  /\ w_files w' = w_files w
  /\ (forall resp, r = Ok resp ->
      exists tok rest,
        w_trace w' = EvApiGet (api.queryURL c p) ("Bearer " +:+ tok) :: rest).
Proof.
  destruct (api.Query c p w) as [[c' r] w'] eqn:Hq.
  assert (Hbase : api.baseURL c' = api.baseURL c /\ w_files w' = w_files w).
  { revert Hq. unfold api.Query. unfold Now at 1.
    destruct (api.validate p); [now intros [= <- _ <-] |].
    pose proof (GetToken_effects (api.oauthClient c) (snd (Now w))) as Heff.
    destruct (auth.GetToken _ _) as [[oc tok] w1].
    destruct Heff as (_ & _ & _ & _ & Hf & _). unfold Now in Hf. cbn [snd w_files] in Hf.
    destruct tok as [tok | e]; [| now intros [= <- _ <-]].
    destruct (newRequestError _ _); [now intros [= <- _ <-] |].
    unfold httpDo. destruct (w_http w1 _) as [e | e | status enc raw];
      [now intros [= <- _ <-] | now intros [= <- _ <-] |].
    destruct (api.readBody enc raw) as [body | e]; [| now intros [= <- _ <-]].
    destruct (api.decodeQueryBody status body); unfold Now; now intros [= <- _ <-]. }
  destruct Hbase as [Hb Hf]. split; [exact Hb |]. split; [exact Hf |].
  intros resp ->.
  apply Query_Ok_inv in Hq as (_ & oc & tok & w1 & _ & _ & _ & _ & _ & _ & _ & Ht & _).
  eauto.
Qed.

(** X18.  A result of the query tool is either an error, with one text
    item that starts with the name of the stage that failed
    (configuration, argument parsing, query, formatting), or a success,
    with two text items, the summary and the full response.  A success
    means a GET was sent.  When the entity argument is missing or not a
    string, and the credentials are configured, the call fails at parsing
    with nothing sent and the clock not read.  The tool's configuration
    and base URL are never changed by a call. *)
Theorem execute_reports_the_failed_stage
  `{GoRuntime} `{auth.TokenCodec} `{api.ApiCodec} `{tools.Presenter}
  (t : tools.ResoQueryTool) (args : gmap string GoValue) (w : World) :
  let t' := fst (fst (tools.Execute t args w)) in
  let r := snd (fst (tools.Execute t args w)) in
  let w' := snd (tools.Execute t args w) in
  ((tools.IsError r = true
    /\ exists stage e,
         In stage [ "Configuration error: "; "Error parsing arguments: ";
                    "Error executing query: "; "Error formatting response: " ]
         /\ tools.Content r = [ {| tools.Type_ := "text"; tools.Text := stage +:+ e |} ])
   \/ (tools.IsError r = false
       /\ (exists summary full,
             tools.Content r = [ {| tools.Type_ := "text"; tools.Text := summary |};
                                 {| tools.Type_ := "text"; tools.Text := full |} ])
       /\ exists url bearer rest, w_trace w' = EvApiGet url bearer :: rest))
  /\ tools.config t' = tools.config t
  /\ api.baseURL (tools.client t') = api.baseURL (tools.client t)
  /\ (config.ValidateCredentials (tools.config t) = None ->
      assertString (args !! "entity") = None ->
      tools.Execute t args w
      = ((t, tools.errorResult "Error parsing arguments: entity is required"), w)).
Proof.
  cbv zeta. split; [| split; [| split]].
  - unfold tools.Execute.
    destruct (config.ValidateCredentials _) as [e |].
    { left. split; [reflexivity |]. exists "Configuration error: ", e.
      split; [solve_In | reflexivity]. }
    destruct (tools.parseArguments args) as [p | e].
    2: { left. split; [reflexivity |]. exists "Error parsing arguments: ", e.
         split; [solve_In | reflexivity]. }
    pose proof (Query_effects (tools.client t) p w) as Hq.
    destruct (api.Query _ _ _) as [[c1 [resp | e]] w1].
    2: { left. split; [reflexivity |]. exists "Error executing query: ", e.
         split; [solve_In | reflexivity]. }
    destruct Hq as (_ & _ & Hget). destruct (Hget resp eq_refl) as (tok & rest & Htrace).
    destruct (api.ToJSON resp) as [json | e].
    2: { left. split; [reflexivity |]. exists "Error formatting response: ", e.
         split; [solve_In | reflexivity]. }
    right. cbn [fst snd tools.IsError tools.Content]. split; [reflexivity |].
    split; eauto.
  - unfold tools.Execute.
    destruct (config.ValidateCredentials _); [reflexivity |].
    destruct (tools.parseArguments args); [| reflexivity].
    destruct (api.Query _ _ _) as [[c1 [resp | e]] w1]; [| reflexivity].
    now destruct (api.ToJSON resp).
  - unfold tools.Execute.
    destruct (config.ValidateCredentials _); [reflexivity |].
    destruct (tools.parseArguments args) as [p |]; [| reflexivity].
    pose proof (Query_effects (tools.client t) p w) as Hq.
    destruct (api.Query _ _ _) as [[c1 [resp | e]] w1]; [| now destruct Hq].
    destruct Hq as (Hb & _). now destruct (api.ToJSON resp).
  - intros Hc He. unfold tools.Execute, tools.parseArguments. now rewrite Hc, He.
Qed.

Lemma buildQueryParams_flags (p : api.QueryParams) :
  api.buildQueryParams p !! "$ignorenulls"
  = (if api.IgnoreNulls p then Some ["true"] else None)
  /\ api.buildQueryParams p !! "$ignorecase"
     = (if api.IgnoreCase p then Some ["true"] else None).
Proof. split; solve_key_lookup. Qed.

(** X19.  The arguments parse exactly when [entity] is a string; the
    entity is taken as given, without trimming, so that a catalog name
    followed by a space is rejected by [Query] as unsupported.  Nulls are
    ignored by default: the query carries [$ignorenulls=true] unless the
    argument [ignorenulls] is the boolean [false], and carries
    [$ignorecase=true] only if [ignorecase] is the boolean [true]; a
    value of another type at either key is ignored. *)
Theorem ignorenulls_is_on_by_default `{GoRuntime} (args : gmap string GoValue) :
  (assertString (args !! "entity") = None ->
   tools.parseArguments args = Err "entity is required")
  /\ (forall entity,
        args !! "entity" = Some (VString entity) ->
        exists p,
          tools.parseArguments args = Ok p
          /\ api.Entity p = entity
          /\ api.buildQueryParams p !! "$ignorenulls"
             = match args !! "ignorenulls" with
               | Some (VBool false) => None
               | _ => Some ["true"]
               end
          /\ api.buildQueryParams p !! "$ignorecase"
             = match args !! "ignorecase" with
               | Some (VBool true) => Some ["true"]
               | _ => None
               end
          /\ (In entity spec.catalogNames -> api.validate p = None \/ 0 < api.Skip p)
          /\ (forall name,
                In name spec.catalogNames -> entity = name +:+ " " ->
                api.validate p = Some ("unsupported entity: " +:+ entity))).
Proof.
  split.
  - intros He. unfold tools.parseArguments. now rewrite He.
  - intros entity He. eexists. split; [apply (parseArguments_entity _ _ He) |].
    split; [reflexivity |].
    rewrite (proj1 (buildQueryParams_flags _)), (proj2 (buildQueryParams_flags _)).
    cbn [api.IgnoreNulls api.IgnoreCase]. unfold tools.boolArg.
    split; [| split; [| split]].
    + destruct (args !! "ignorenulls") as [[| [|] | | | | |] |]; reflexivity.
    + destruct (args !! "ignorecase") as [[| [|] | | | | |] |]; reflexivity.
    + intros Hin. unfold api.validate. cbn [api.Entity api.Skip].
      rewrite (proj2 (IsValidEntity_catalog entity) Hin). cbn [negb].
      destruct (0 <? tools.intArg args "skip" 0) eqn:Hs;
        [right; now apply Z.ltb_lt | now left].
    + intros name Hin ->. unfold api.validate. cbn [api.Entity].
      replace (api.IsValidEntity (name +:+ " ")) with false; [reflexivity |].
      cbn [spec.catalogNames In] in Hin.
      repeat (destruct Hin as [<- | Hin]; [reflexivity |]). contradiction.
Qed.

Lemma trimLeftSpace_blank (l : list ascii) :
  forallb isAsciiSpace l = true -> trimLeftSpace l = [].
Proof.
  induction l as [| c l IH]; [reflexivity |]. cbn [forallb trimLeftSpace].
  intros Hb. apply andb_true_iff in Hb as [-> Hl]. now apply IH.
Qed.

Lemma TrimSpace_blank (s : string) :
  forallb isAsciiSpace (list_ascii_of_string s) = true -> TrimSpace s = "".
Proof. intros Hb. unfold TrimSpace. now rewrite (trimLeftSpace_blank _ Hb). Qed.

Lemma buildQueryParams_texts (p : api.QueryParams) :
  api.buildQueryParams p !! "$select"
  = (if String.eqb (api.Select p) "" then None else Some [api.Select p])
  /\ api.buildQueryParams p !! "$filter"
     = (if String.eqb (api.Filter p) "" then None else Some [api.Filter p])
  /\ api.buildQueryParams p !! "$orderby"
     = (if String.eqb (api.OrderBy p) "" then None else Some [api.OrderBy p]).
Proof. split; [| split]; solve_key_lookup. Qed.

(** X20.  A [select], [filter] or [orderby] argument made of ASCII white
    space only (spaces, tabs, line breaks) is trimmed to the empty string:
    the arguments parse to the same request as with the argument left
    out, and the query carries no parameter for it. *)
Theorem blank_text_argument_sends_no_parameter `{GoRuntime}
  (args : gmap string GoValue) (entity k s : string) :
  args !! "entity" = Some (VString entity) ->
  In k ["select"; "filter"; "orderby"] ->
  args !! k = Some (VString s) ->
  forallb isAsciiSpace (list_ascii_of_string s) = true ->
  tools.parseArguments args = tools.parseArguments (delete k args)
  /\ exists p,
       tools.parseArguments args = Ok p
       /\ api.buildQueryParams p !! ("$" +:+ k) = None.
Proof.
  intros He Hk Hs Hblank.
  pose proof (TrimSpace_blank s Hblank) as Ht.
  pose proof (parseArguments_entity args entity He) as Hp.
  cbn [In] in Hk.
  destruct Hk as [<- | [<- | [<- | []]]].
  - split.
    + rewrite Hp, (parseArguments_entity (delete "select" args) entity)
        by (now rewrite lookup_delete_ne).
      unfold tools.trimmedArg, tools.intArg, tools.boolArg.
      rewrite lookup_delete_eq, !lookup_delete_ne by discriminate.
      rewrite Hs. cbn [assertString]. now rewrite Ht.
    + eexists. split; [exact Hp |].
      change ("$" +:+ "select") with "$select".
      rewrite (proj1 (buildQueryParams_texts _)). cbn [api.Select].
      unfold tools.trimmedArg. rewrite Hs. cbn [assertString]. now rewrite Ht.
  - split.
    + rewrite Hp, (parseArguments_entity (delete "filter" args) entity)
        by (now rewrite lookup_delete_ne).
      unfold tools.trimmedArg, tools.intArg, tools.boolArg.
      rewrite lookup_delete_eq, !lookup_delete_ne by discriminate.
      rewrite Hs. cbn [assertString]. now rewrite Ht.
    + eexists. split; [exact Hp |].
      change ("$" +:+ "filter") with "$filter".
      rewrite (proj1 (proj2 (buildQueryParams_texts _))). cbn [api.Filter].
      unfold tools.trimmedArg. rewrite Hs. cbn [assertString]. now rewrite Ht.
  - split.
    + rewrite Hp, (parseArguments_entity (delete "orderby" args) entity)
        by (now rewrite lookup_delete_ne).
      unfold tools.trimmedArg, tools.intArg, tools.boolArg.
      rewrite lookup_delete_eq, !lookup_delete_ne by discriminate.
      rewrite Hs. cbn [assertString]. now rewrite Ht.
    + eexists. split; [exact Hp |].
      change ("$" +:+ "orderby") with "$orderby".
      rewrite (proj2 (proj2 (buildQueryParams_texts _))). cbn [api.OrderBy].
      unfold tools.trimmedArg. rewrite Hs. cbn [assertString]. now rewrite Ht.
Qed.

Lemma GetMetadata_files `{GoRuntime} `{auth.TokenCodec} (c : api.Client) (w : World) :
  w_files (snd (api.GetMetadata c w)) = w_files w
  /\ w_writable (snd (api.GetMetadata c w)) = w_writable w.
Proof.
  unfold api.GetMetadata.
  pose proof (GetToken_effects (api.oauthClient c) w) as Heff.
  destruct (auth.GetToken _ _) as [[oc [tok | e]] w1];
    destruct Heff as (_ & _ & _ & _ & Hf & Hw & _); [| now split].
  destruct (newRequestError _ _); [now split |].
  unfold httpDo. destruct (w_http w1 _) as [e | e | status enc body]; [now split ..|].
  destruct (negb _); now split.
Qed.

(** X21.  The help tool is built from the cached metadata file when that
    exists and parses, without any request.  Otherwise, when the live
    metadata is fetched and parses and the cache file can be written, the
    document is stored there: building the help tool again finds it and
    sends nothing, with or without an API client. *)
Theorem fetched_metadata_is_cached `{GoRuntime} `{auth.TokenCodec} `{tools.MetadataCodec}
  (c : api.Client) (w : World) :
  (forall d apiClient,
      tools.parseFromFile w tools.cacheFile = Some d ->
      tools.NewResoHelpToolWithAPI apiClient w
      = (({| tools.metadataParser := Some d |}, apiClient), w))
  /\ (forall c1 w1 doc,
        tools.parseFromFile w tools.cacheFile = None ->
        api.GetMetadata c w = ((c1, Ok doc), w1) ->
        tools.metadataParses doc = true ->
        w_writable w = true ->
        exists w2,
          tools.NewResoHelpToolWithAPI (Some c) w
          = (({| tools.metadataParser := Some doc |}, Some c1), w2)
          /\ w_files w2 = <[tools.cacheFile := doc]> (w_files w)
          /\ w_trace w2 = w_trace w1
          /\ forall apiClient,
               tools.NewResoHelpToolWithAPI apiClient w2
               = (({| tools.metadataParser := Some doc |}, apiClient), w2)).
Proof.
  split.
  - intros d apiClient Hd. unfold tools.NewResoHelpToolWithAPI. now rewrite Hd.
  - intros c1 w1 doc Hmiss Hget Hparse Hwr.
    pose proof (GetMetadata_files c w) as [Hf Hw]. rewrite Hget in Hf, Hw.
    cbn [snd] in Hf, Hw.
    exists (writeFile tools.cacheFile doc w1).
    unfold tools.NewResoHelpToolWithAPI at 1. rewrite Hmiss, Hget, Hparse.
    split; [reflexivity |].
    unfold writeFile. rewrite Hw, Hwr. cbn [w_files w_trace]. rewrite Hf.
    split; [reflexivity |]. split; [reflexivity |].
    intros apiClient. unfold tools.NewResoHelpToolWithAPI, tools.parseFromFile.
    cbn [w_files]. now rewrite lookup_insert_eq, Hparse.
Qed.





(** ** Package main *)

Lemma handleInitialize_result `{GoRuntime} `{auth.TokenCodec} `{tools.MetadataCodec}
  `{main.RpcCodec} (env : gmap string string) (s : main.MCPServer)
  (msg : main.MCPMessage) (w : World) :
  exists cfg c1 help w1,
    main.handleInitialize env s msg w
    = (({| main.config := cfg; main.apiClient := Some c1;
           main.resoTool := Some (tools.NewResoQueryTool c1 cfg);
           main.helpTool := Some help;
           main.pendingSettings := main.pendingSettings s |},
        main.resultMessage (main.ID msg)
          (main.InitializeResult "2024-11-05" "constellation1-mcp-server" "1.0.0")),
       w1).
Proof.
  unfold main.handleInitialize.
  destruct (Initialize_result env s (main.gatherSettings s (main.Params msg)) w)
    as (cfg & c1 & help & w1 & -> & _).
  now exists cfg, c1, help, w1.
Qed.

Lemma handleToolsCall_shape `{GoRuntime} `{auth.TokenCodec} `{api.ApiCodec}
  `{tools.Presenter} `{main.RpcCodec}
  (s : main.MCPServer) (msg : main.MCPMessage) (w : World) :
  let r := snd (fst (main.handleToolsCall s msg w)) in
  (exists tr, r = main.resultMessage (main.ID msg) (main.CallToolResult tr))
  \/ (exists code m, r = main.errorMessage (main.ID msg) code m
                     /\ In code [-32601; -32602; -32603]).
Proof.
  cbv zeta. unfold main.handleToolsCall.
  destruct (main.resoTool s) as [t |].
  2: { right. exists (-32603), "Server not initialized". split; [reflexivity | solve_In]. }
  match goal with
  | |- context [match ?d with Ok _ => _ | Err _ => _ end] => destruct d as [params | e]
  end.
  2: { right. exists (-32602), "Invalid params". split; [reflexivity | solve_In]. }
  destruct (String.eqb (main.Name params) "reso_query").
  { destruct (tools.Execute _ _ _) as [[t1 tr] w1]. left. now exists tr. }
  destruct (String.eqb (main.Name params) "reso_help").
  { destruct (main.helpTool s).
    - left. eauto.
    - right. exists (-32603), "Server not initialized". split; [reflexivity | solve_In]. }
  right. exists (-32601), ("Tool not found: " +:+ main.Name params).
  split; [reflexivity | solve_In].
Qed.

Lemma HandleMessage_shape
  `{GoRuntime} `{auth.TokenCodec} `{api.ApiCodec} `{tools.Presenter}
  `{tools.MetadataCodec} `{main.RpcCodec}
  (env : gmap string string) (s : main.MCPServer) (msg : main.MCPMessage) (w : World) :
  let r := snd (fst (main.HandleMessage env s msg w)) in
  main.Method msg <> "initialized" ->
  (exists v, r = main.resultMessage (main.ID msg) v)
  \/ (exists code m, r = main.errorMessage (main.ID msg) code m
                     /\ In code [-32601; -32602; -32603]).
Proof.
  cbv zeta. intros Hm. unfold main.HandleMessage.
  destruct (String.eqb (main.Method msg) "initialize").
  { destruct (handleInitialize_result env s msg w) as (cfg & c1 & help & w1 & ->).
    left. eauto. }
  rewrite (proj2 (String.eqb_neq _ _) Hm).
  destruct (String.eqb (main.Method msg) "tools/list").
  { cbn [fst snd]. unfold main.handleToolsList.
    destruct (main.resoTool s), (main.helpTool s);
      first [left; eauto; fail | right; eexists _, _; split; [reflexivity | solve_In]]. }
  destruct (String.eqb (main.Method msg) "tools/call").
  { destruct (handleToolsCall_shape s msg w) as [(tr & ->) | (code & m & -> & Hc)];
      [left | right]; eauto. }
  destruct (String.eqb (main.Method msg) "resources/list"); [left; cbn; eauto |].
  destruct (String.eqb (main.Method msg) "resources/read").
  { cbn [fst snd]. unfold main.handleResourcesRead.
    destruct (_ || _); [left; eauto |].
    right. eexists _, _. split; [reflexivity | solve_In]. }
  right. eexists _, _. split; [reflexivity | solve_In].
Qed.

(** X23.  Every answer of [HandleMessage] to a request carries protocol
    version 2.0 and the id of the request, and holds either a result or an
    error, never both and never neither; an error has one of the codes
    -32601, -32602, -32603.  The one exception is the notification
    [initialized]: its answer is the empty message, and the server and the
    world are as before. *)
Theorem response_echoes_request_id
  `{GoRuntime} `{auth.TokenCodec} `{api.ApiCodec} `{tools.Presenter}
  `{tools.MetadataCodec} `{main.RpcCodec}
  (env : gmap string string) (s : main.MCPServer) (msg : main.MCPMessage) (w : World) :
  let r := snd (fst (main.HandleMessage env s msg w)) in
  (main.Method msg = "initialized" ->
   main.HandleMessage env s msg w = ((s, main.emptyMessage), w))
  /\ (main.Method msg <> "initialized" ->
      main.JSONRPC r = "2.0" /\ main.ID r = main.ID msg
      /\ ((exists v, main.Result r = Some v /\ main.Error r = None)
          \/ (exists e, main.Result r = None /\ main.Error r = Some e
                        /\ In (main.Code e) [-32601; -32602; -32603]))).
Proof.
  cbv zeta. split.
  - intros Hm. unfold main.HandleMessage. now rewrite Hm.
  - intros Hm.
    destruct (HandleMessage_shape env s msg w Hm) as [(v & ->) | (code & m & -> & Hc)];
      cbn [main.resultMessage main.errorMessage main.JSONRPC main.ID main.Result
           main.Error].
    + split; [reflexivity |]. split; [reflexivity |]. left. eauto.
    + split; [reflexivity |]. split; [reflexivity |]. right.
      exists {| main.Code := code; main.Message := m |}. now repeat split.
Qed.

Lemma Execute_effects `{GoRuntime} `{auth.TokenCodec} `{api.ApiCodec} `{tools.Presenter}
  (t : tools.ResoQueryTool) (args : gmap string GoValue) (w : World) :
  tools.config (fst (fst (tools.Execute t args w))) = tools.config t
  /\ w_files (snd (tools.Execute t args w)) = w_files w.
Proof.
  unfold tools.Execute.
  destruct (config.ValidateCredentials _); [now split |].
  destruct (tools.parseArguments args) as [p |]; [| now split].
  pose proof (Query_effects (tools.client t) p w) as Hq.
  destruct (api.Query _ _ _) as [[c1 [resp | e]] w1]; destruct Hq as (_ & Hf & _);
    [| now split].
  now destruct (api.ToJSON resp).
Qed.

(** X24.  Only [initialize] and [tools/call] can change anything: every
    other method, known or not, leaves the server and the world as they
    were, and a method that is none of the six is answered with error
    -32601 naming it.  A [tools/call] leaves the configuration, the help
    tool, the pending settings and the file system alone, and changes
    nothing at all unless the tool is [reso_query]. *)
Theorem only_initialize_and_tool_calls_change_state
  `{GoRuntime} `{auth.TokenCodec} `{api.ApiCodec} `{tools.Presenter}
  `{tools.MetadataCodec} `{main.RpcCodec}
  (env : gmap string string) (s : main.MCPServer) (msg : main.MCPMessage) (w : World) :
  let s' := fst (fst (main.HandleMessage env s msg w)) in
  let w' := snd (main.HandleMessage env s msg w) in
  (main.Method msg <> "initialize" -> main.Method msg <> "tools/call" ->
   s' = s /\ w' = w)
  /\ (~ In (main.Method msg)
          [ "initialize"; "initialized"; "tools/list"; "tools/call";
            "resources/list"; "resources/read" ] ->
      main.HandleMessage env s msg w
      = ((s, main.errorMessage (main.ID msg) (-32601)
               ("Method not found: " +:+ main.Method msg)), w))
  /\ (main.Method msg = "tools/call" ->
      main.config s' = main.config s
      /\ main.helpTool s' = main.helpTool s
      /\ main.pendingSettings s' = main.pendingSettings s
      /\ w_files w' = w_files w
      /\ (forall params,
            main.decodeCallToolParams (main.Params msg) = Ok params ->
            main.Name params <> "reso_query" ->
            s' = s /\ w' = w)).
Proof.
  cbv zeta. split; [| split].
  - intros Hi Hc. unfold main.HandleMessage.
    rewrite (proj2 (String.eqb_neq _ _) Hi), (proj2 (String.eqb_neq _ _) Hc).
    repeat match goal with
           | |- context [if ?b then _ else _] => destruct b
           end; now split.
  - intros Hn. cbn [In] in Hn. unfold main.HandleMessage.
    repeat match goal with
           | |- context [String.eqb (main.Method msg) ?m] =>
               destruct (String.eqb_spec (main.Method msg) m) as [E | _];
               [exfalso; apply Hn; rewrite E; tauto |]
           end.
    reflexivity.
  - intros Hm. unfold main.HandleMessage. rewrite Hm. cbn [String.eqb Ascii.eqb Bool.eqb].
    unfold main.handleToolsCall.
    destruct (main.resoTool s) as [t |]; [| repeat split; auto].
    destruct (main.Params msg) eqn:Hp; cbv beta iota zeta.
    { cbn [main.Name String.eqb Ascii.eqb Bool.eqb]. repeat split; auto. }
    all: destruct (main.decodeCallToolParams _) as [params | e] eqn:Hd;
      [| repeat split; auto; intros; discriminate].
    all: destruct (String.eqb_spec (main.Name params) "reso_query") as [Hq | Hq];
      [ pose proof (Execute_effects t (main.Arguments params) w) as [Hcfg Hfiles];
        destruct (tools.Execute _ _ _) as [[t1 tr] w1]; cbn [fst snd] in *;
        split; [reflexivity |]; split; [reflexivity |]; split; [reflexivity |];
        split; [exact Hfiles |];
        intros params' [= <-] Hne; contradiction
      | destruct (String.eqb (main.Name params) "reso_help");
        [destruct (main.helpTool s) eqn:Hh |]; cbn [fst snd]; repeat split; auto ].
Qed.

(** X25.  A server as [main] starts it answers [tools/list] and
    [tools/call] with error -32603, server not initialized, and changes
    nothing.  Any [initialize] request sets both tools and the API client;
    once they are set, no message unsets them, and [tools/list] is
    answered with the two tools, [reso_query] and [reso_help]. *)
Theorem initialized_server_stays_initialized
  `{GoRuntime} `{auth.TokenCodec} `{api.ApiCodec} `{tools.Presenter}
  `{tools.MetadataCodec} `{main.RpcCodec}
  (flags : main.Flags) (env : gmap string string) (s : main.MCPServer)
  (msg : main.MCPMessage) (w : World) :
  let ready := fun s => is_Some (main.resoTool s) /\ is_Some (main.helpTool s)
                        /\ is_Some (main.apiClient s) in
  let s0 := main.startServer flags env in
  main.handleToolsList s0 msg
  = main.errorMessage (main.ID msg) (-32603) "Server not initialized"
  /\ main.handleToolsCall s0 msg w
     = ((s0, main.errorMessage (main.ID msg) (-32603) "Server not initialized"), w)
  /\ (main.Method msg = "initialize" ->
      ready (fst (fst (main.HandleMessage env s msg w))))
  /\ (ready s ->
      ready (fst (fst (main.HandleMessage env s msg w)))
      /\ main.handleToolsList s msg
         = main.resultMessage (main.ID msg)
             (main.ListToolsResult ["reso_query"; "reso_help"])).
Proof.
  cbv zeta.
  assert (Hs0 : main.resoTool (main.startServer flags env) = None).
  { unfold main.startServer. now destruct (_ <? _)%nat. }
  split; [| split; [| split]].
  - unfold main.handleToolsList. now rewrite Hs0.
  - unfold main.handleToolsCall. now rewrite Hs0.
  - intros Hm. unfold main.HandleMessage. rewrite Hm. cbn [String.eqb Ascii.eqb Bool.eqb].
    destruct (handleInitialize_result env s msg w) as (cfg & c1 & help & w1 & ->).
    cbn. repeat split; eauto.
  - intros (Ht & Hh & Hc). split.
    + unfold main.HandleMessage.
      destruct (String.eqb (main.Method msg) "initialize").
      { destruct (handleInitialize_result env s msg w) as (cfg & c1 & help & w1 & ->).
        cbn. repeat split; eauto. }
      destruct (String.eqb (main.Method msg) "initialized"); [now repeat split |].
      destruct (String.eqb (main.Method msg) "tools/list"); [now repeat split |].
      destruct (String.eqb (main.Method msg) "tools/call").
      2: { repeat match goal with
                  | |- context [if ?b then _ else _] => destruct b
                  end; now repeat split. }
      unfold main.handleToolsCall. destruct Ht as [t Ht]. rewrite Ht.
      destruct (main.Params msg); cbv beta iota zeta;
        try (destruct (main.decodeCallToolParams _) as [params | e];
             [| cbn; rewrite Ht; now repeat split]);
        match goal with
        | |- context [String.eqb ?n "reso_query"] =>
            destruct (String.eqb n "reso_query");
            [ destruct (tools.Execute _ _ _) as [[t1 tr] w1]; cbn; repeat split; eauto
            | destruct (String.eqb n "reso_help");
              [destruct (main.helpTool s) eqn:Ehelp |];
              cbn; rewrite ?Ht, ?Ehelp; repeat split; eauto ]
        end.
    + unfold main.handleToolsList. destruct Ht as [t ->], Hh as [h ->]. reflexivity.
Qed.





Lemma GetMetadata_fresh_trace `{GoRuntime} `{auth.TokenCodec} (c : api.Client) (w : World) :
  auth.token (api.oauthClient c) = None ->
  newRequestError "POST" (auth.authURL (api.oauthClient c)) = None ->
  w_trace (snd (api.GetMetadata c w)) = auth.authRequest (api.oauthClient c) :: w_trace w
  \/ exists tok,
       w_trace (snd (api.GetMetadata c w))
       = EvApiGet (api.baseURL c +:+ "/$metadata") ("Bearer " +:+ tok)
           :: auth.authRequest (api.oauthClient c) :: w_trace w.
Proof.
  intros Ht Hreq. remember (api.GetMetadata c w) as g eqn:Hg.
  unfold api.GetMetadata in Hg.
  rewrite (GetToken_fresh (api.oauthClient c) w Ht), Hreq in Hg.
  unfold httpDo, Now in Hg. cbn [w_http w_trace w_clock w_reads] in Hg.
  destruct (auth.decodeAuthOutcome _) as [t | e]; [| subst g; now left].
  destruct (newRequestError "GET" _); [subst g; now left |].
  cbn [w_http w_trace w_clock w_reads w_files w_writable] in Hg.
  destruct (w_http w _) as [e | e | status enc body];
    [subst g; right; eexists; reflexivity ..|].
  destruct (status =? 200); subst g; right; eexists; reflexivity.
Qed.

(** X28.  [initialize] goes to the network unless the cached metadata
    file exists and parses, in which case the world is left as it was.
    With no cache file, it sends a token request built from the
    credentials it has just configured, empty or not, and then at most
    the GET for the metadata. *)
Theorem initialize_fetches_metadata_unless_cached
  `{GoRuntime} `{auth.TokenCodec} `{tools.MetadataCodec} `{main.RpcCodec}
  (env : gmap string string) (s : main.MCPServer) (msg : main.MCPMessage) (w : World) :
  let s' := fst (fst (main.handleInitialize env s msg w)) in
  let w' := snd (main.handleInitialize env s msg w) in
  let cfg := main.config s' in
  let oauth := auth.NewOAuthClient (config.ClientID cfg) (config.ClientSecret cfg)
                 (config.AuthURL cfg) in
  (forall d,
      tools.parseFromFile w tools.cacheFile = Some d ->
      w' = w /\ main.helpTool s' = Some {| tools.metadataParser := Some d |})
  /\ (w_files w !! tools.cacheFile = None ->
      newRequestError "POST" (config.AuthURL cfg) = None ->
      w_trace w' = auth.authRequest oauth :: w_trace w
      \/ exists tok,
           w_trace w'
           = EvApiGet (config.BaseURL cfg +:+ "/$metadata") ("Bearer " +:+ tok)
               :: auth.authRequest oauth :: w_trace w).
Proof.
  cbv zeta. unfold main.handleInitialize, main.Initialize.
  destruct (config.LoadFromMCPSettings _ _) as [cfg0 err].
  set (cfg := match err with Some _ => config.LoadFromEnv env cfg0 | None => cfg0 end).
  set (oauth := auth.NewOAuthClient _ _ _).
  set (c := api.NewClient _ _).
  split.
  - intros d Hd. unfold tools.NewResoHelpToolWithAPI. rewrite Hd. now split.
  - intros Hnone.
    assert (Hmiss : tools.parseFromFile w tools.cacheFile = None)
      by (unfold tools.parseFromFile; now rewrite Hnone).
    unfold tools.NewResoHelpToolWithAPI. rewrite Hmiss.
    pose proof (GetMetadata_fresh_trace c w eq_refl) as Htrace.
    destruct (api.GetMetadata c w) as [[c1 r] w1]. cbn [snd] in Htrace.
    assert (Hw : forall doc, w_trace (writeFile tools.cacheFile doc w1) = w_trace w1).
    { intros doc. unfold writeFile. now destruct (w_writable w1). }
    destruct r as [doc | e]; [destruct (tools.metadataParses doc) |];
      cbn [fst snd main.config]; rewrite ?Hw; exact Htrace.
Qed.

Lemma serve_app `{GoRuntime} `{auth.TokenCodec} `{api.ApiCodec} `{tools.Presenter}
  `{tools.MetadataCodec} `{main.RpcCodec} `{main.LineCodec}
  (env : gmap string string) (l1 l2 : list string) (s : main.MCPServer) (w : World) :
  main.serve env s (l1 ++ l2)%list w
  = let '((s1, out1), w1) := main.serve env s l1 w in
    let '((s2, out2), w2) := main.serve env s1 l2 w1 in
    ((s2, (out1 ++ out2)%list), w2).
Proof.
  revert s w. induction l1 as [| text l1 IH]; intros s w.
  - cbn [app main.serve]. now destruct (main.serve env s l2 w) as [[s2 out2] w2].
  - cbn [app main.serve].
    destruct (String.eqb (TrimSpace text) ""); [apply IH |].
    destruct (main.parseMessage _) as [msg |]; [| apply IH].
    destruct (main.HandleMessage env s msg w) as [[s1 response] w1].
    rewrite IH.
    destruct (main.serve env s1 l1 w1) as [[s2 out] w2].
    destruct (main.serve env s2 l2 w2) as [[s3 out'] w3].
    now rewrite app_assoc.
Qed.

Lemma serve_length `{GoRuntime} `{auth.TokenCodec} `{api.ApiCodec} `{tools.Presenter}
  `{tools.MetadataCodec} `{main.RpcCodec} `{main.LineCodec}
  (env : gmap string string) (lines : list string) (s : main.MCPServer) (w : World) :
  (length (snd (fst (main.serve env s lines w))) <= length lines)%nat.
Proof.
  revert s w. induction lines as [| text lines IH]; intros s w; [reflexivity |].
  cbn [main.serve length].
  destruct (String.eqb (TrimSpace text) ""); [specialize (IH s w); lia |].
  destruct (main.parseMessage _) as [msg |]; [| specialize (IH s w); lia].
  destruct (main.HandleMessage env s msg w) as [[s1 response] w1].
  specialize (IH s1 w1).
  destruct (main.serve env s1 lines w1) as [[s2 out] w2]. cbn [fst snd] in *.
  rewrite length_app.
  destruct (negb _); [destruct (main.marshalMessage _) |]; cbn [length]; lia.
Qed.

(** X29.  The read loop prints at most one line per input line, and
    serving one batch of lines after another is serving them in one go.
    A line that is blank after trimming, a line that does not parse and
    the notification [initialized] print nothing and change nothing.  A
    request that parses, whatever its method, is handed to
    [HandleMessage], and its answer is printed if it can be marshalled;
    the loop goes on after a line it could not parse or answer. *)
Theorem read_loop_answers_each_request
  `{GoRuntime} `{auth.TokenCodec} `{api.ApiCodec} `{tools.Presenter}
  `{tools.MetadataCodec} `{main.RpcCodec} `{main.LineCodec}
  (env : gmap string string) (s : main.MCPServer) (w : World)
  (text : string) (lines lines' : list string) :
  (length (snd (fst (main.serve env s lines w))) <= length lines)%nat
  /\ main.serve env s (lines ++ lines')%list w
     = (let '((s1, out1), w1) := main.serve env s lines w in
        let '((s2, out2), w2) := main.serve env s1 lines' w1 in
        ((s2, (out1 ++ out2)%list), w2))
  /\ (TrimSpace text = ""
      \/ main.parseMessage (TrimSpace text) = None
      \/ (exists msg, main.parseMessage (TrimSpace text) = Some msg
                      /\ main.Method msg = "initialized") ->
      main.serve env s (text :: lines) w = main.serve env s lines w)
  /\ (forall msg,
        TrimSpace text <> "" ->
        main.parseMessage (TrimSpace text) = Some msg ->
        main.Method msg <> "initialized" ->
        let '((s1, response), w1) := main.HandleMessage env s msg w in
        let '((s2, out), w2) := main.serve env s1 lines w1 in
        main.serve env s (text :: lines) w
        = ((s2, match main.marshalMessage response with
                | Some printed => printed :: out
                | None => out
                end), w2)).
Proof.
  split; [apply serve_length |]. split; [apply serve_app |]. split.
  - intros Hskip. cbn [main.serve].
    destruct (String.eqb_spec (TrimSpace text) "") as [| Hne]; [reflexivity |].
    destruct Hskip as [Hb | [Hp | (msg & Hp & Hm)]]; [contradiction | now rewrite Hp |].
    rewrite Hp.
    assert (Hnote : main.HandleMessage env s msg w = ((s, main.emptyMessage), w))
      by (unfold main.HandleMessage; now rewrite Hm).
    rewrite Hnote.
    cbn [main.emptyMessage main.JSONRPC String.eqb negb app].
    now destruct (main.serve env s lines w) as [[s2 out] w2].
  - intros msg Hne Hp Hm.
    assert (Hj : main.JSONRPC (snd (fst (main.HandleMessage env s msg w))) = "2.0")
      by (destruct (HandleMessage_shape env s msg w Hm)
            as [(v & ->) | (code & m & -> & _)]; reflexivity).
    destruct (main.HandleMessage env s msg w) as [[s1 response] w1] eqn:Hh.
    cbn [fst snd] in Hj.
    destruct (main.serve env s1 lines w1) as [[s2 out] w2] eqn:Hs.
    cbn [main.serve]. rewrite (proj2 (String.eqb_neq _ _) Hne), Hp, Hh, Hs, Hj.
    cbn [String.eqb Ascii.eqb Bool.eqb negb].
    now destruct (main.marshalMessage response).
Qed.

(* ================================================================== *)
(** * The properties on concrete inputs *)
(* ================================================================== *)

Import sample.

(** ** Configuration sources *)

(** With [CLIENT_ID=generic-id] and [RESO_CLIENT_ID=domain-id] and no other
    source, the ranking "generic below domain-prefixed" selects
    [domain-id]; the server is configured with [generic-id]. *)
Lemma generic_env_outranks_domain_env :
  spec.firstDefined (spec.claimedSources noFlags twoEnvIds VNil spec.KClientID)
  = Some (VString "domain-id")
  /\ config.ClientID
       (main.config
          (fst (fst (main.handleInitialize twoEnvIds
                       (main.startServer noFlags twoEnvIds)
                       (initializeMessage VNil) world0))))
     = "generic-id".
Proof. split; vm_compute; reflexivity. Qed.

Lemma credentials_follow_program_precedence_witness :
  default ∅ (main.gatherSettings (main.startServer noFlags twoEnvIds) VNil) !! "client_id"
  = Some (VString "generic-id")
  /\ config.ClientID
       (main.config
          (fst (fst (main.handleInitialize twoEnvIds
                       (main.startServer noFlags twoEnvIds)
                       (initializeMessage VNil) world0))))
     = "generic-id".
Proof.
  destruct (credentials_follow_program_precedence noFlags twoEnvIds
              (main.startServer noFlags twoEnvIds)
              (initializeMessage VNil) world0 spec.KClientID eq_refl)
    as (Hmerged & Hconfig & _).
  vm_compute in Hmerged, Hconfig |- *. now split.
Defined.

(** A key given in the initialize parameters wins over the command line,
    and a key the parameters omit keeps the command line's value. *)
Example initialize_params_override_flags :
  let flags := {| main.clientID := "flag-id"; main.clientSecret := "flag-secret" |} in
  let params := VMap (list_to_map [("client_id", VString "param-id")]) in
  let s := fst (fst (main.handleInitialize ∅ (main.startServer flags ∅)
                       (initializeMessage params) world0)) in
  config.ClientID (main.config s) = "param-id"
  /\ config.ClientSecret (main.config s) = "flag-secret".
Proof. split; vm_compute; reflexivity. Qed.

(** ** Concurrent callers *)

(** Two callers, no cached token, the first exchange times out: two
    requests are sent, and the callers return an error and a token. *)
Lemma failed_exchange_is_repeated :
  exists s,
    gettoken.run scheduleFailure (gettoken.init 2 oauth0) = Some s
    /\ gettoken.exchanges s = 2%nat
    /\ gettoken.threads s
       = [ gettoken.Done (Err "failed to make request: timeout");
           gettoken.Done (Ok "tok") ].
Proof. eexists. split; [vm_compute; reflexivity |]. split; reflexivity. Qed.

Lemma scheduleSuccess_never_valid : gettoken.neverValid oauth0 scheduleSuccess.
Proof. intros e _. reflexivity. Defined.

Lemma scheduleSuccess_exchanges_succeed : gettoken.exchangesSucceed scheduleSuccess.
Proof.
  intros e e' He He'. exists token0.
  cbn [scheduleSuccess bothMiss app In] in He, He'.
  repeat (destruct He as [<- | He]; [| try contradiction]);
    (split; [reflexivity |]);
    repeat (destruct He' as [<- | He']; [reflexivity | try contradiction]).
Defined.

Lemma refresh_exclusive_and_single_flight_on_success_witness :
  exists s,
    gettoken.run scheduleSuccess (gettoken.init 2 oauth0) = Some s
    /\ (gettoken.refreshers s <= 1)%nat
    /\ (gettoken.exchanges s <= 1)%nat
    /\ gettoken.threads s = [ gettoken.Done (Ok "tok"); gettoken.Done (Ok "tok") ].
Proof.
  destruct (gettoken.run scheduleSuccess (gettoken.init 2 oauth0)) as [s |] eqn:Hrun;
    [| vm_compute in Hrun; discriminate].
  exists s. split; [reflexivity |].
  destruct (refresh_exclusive_and_single_flight_on_success 2 oauth0
              scheduleSuccess s Hrun) as (Hexcl & _ & _ & Hsingle).
  split; [exact Hexcl |].
  destruct (Hsingle eq_refl scheduleSuccess_never_valid
              scheduleSuccess_exchanges_succeed) as (Hone & _ & _).
  split; [exact Hone |].
  vm_compute in Hrun. now injection Hrun as <-.
Defined.

(** ** The token cache *)

Lemma cached_token_valid_for_3540s_witness :
  auth.GetToken (auth.storeToken oauth0 token0 0) (worldAt (3539 * Second))
  = ((auth.storeToken oauth0 token0 0, Ok "tok"), snd (Now (worldAt (3539 * Second))))
  /\ w_trace (snd (auth.GetToken (auth.storeToken oauth0 token0 0)
                     (worldAt (3541 * Second))))
     = [ auth.authRequest (auth.storeToken oauth0 token0 0) ].
Proof.
  destruct (cached_token_valid_for_3540s oauth0 token0 0 (worldAt (3539 * Second))
              eq_refl) as (_ & _ & Hbefore & _).
  destruct (cached_token_valid_for_3540s oauth0 token0 0 (worldAt (3541 * Second))
              eq_refl) as (_ & _ & _ & Hafter).
  split.
  - exact (Hbefore eq_refl).
  - apply (Hafter eq_refl); [vm_compute; discriminate | reflexivity].
Defined.

Lemma failed_refresh_keeps_cache_witness :
  exists e w',
    auth.GetToken oauth0 (world 1000 (Response 503 "" "unavailable"))
    = ((oauth0, Err e), w').
Proof.
  apply (proj1 (failed_refresh_keeps_cache oauth0
                  (world 1000 (Response 503 "" "unavailable")))).
  - intros n. reflexivity.
  - apply spec.StatusNotOK. discriminate.
Defined.

Example failed_refresh_message :
  fst (auth.GetToken oauth0 (world 1000 (Response 503 "" "unavailable")))
  = (oauth0, Err "authentication failed with status 503: unavailable").
Proof. vm_compute. reflexivity. Qed.

(** A stale token survives a failed refresh: the next call tries again. *)
Example stale_token_survives_failure :
  let c := auth.storeToken oauth0 token0 0 in
  let w := world (4000 * Second) (DoFails "timeout") in
  fst (auth.GetToken c w) = (c, Err "failed to make request: timeout").
Proof. vm_compute. reflexivity. Qed.

(** ** Query validation and parameters *)

Lemma query_validates_before_network_witness :
  fst (api.Query client0 (query "Foo" 0) world0)
  = (client0, Err "unsupported entity: Foo")
  /\ fst (api.Query client0 (query "Media" 600000) world0)
     = (client0, Err "skip value 600000 exceeds limit 50000 for entity Media")
  /\ spec.proceeds client0 (query "Media" 40000) world0.
Proof.
  destruct (query_validates_before_network client0 (query "Foo" 0) world0)
    as (Hentity & _ & _).
  destruct (query_validates_before_network client0 (query "Media" 600000) world0)
    as (_ & Hskip & _).
  destruct (query_validates_before_network client0 (query "Media" 40000) world0)
    as (_ & _ & Hwithin).
  split; [| split].
  - destruct Hentity as [Heq _]; [cbn; intuition discriminate |].
    rewrite Heq. reflexivity.
  - destruct Hskip as [Heq _]; [solve_In | reflexivity | reflexivity |].
    rewrite Heq. reflexivity.
  - apply Hwithin; [solve_In | vm_compute; discriminate].
Defined.

(** The request that goes out for [skip=40000] against [Media]. *)
Example media_within_limit_is_sent :
  let '((_, r), w) := api.Query client0 (query "Media" 40000) world0 in
  is_err r = false
  /\ w_trace w
     = [ EvApiGet
           "https://listings.cdatalabs.com/odata/Media?%24ignorenulls=true&%24skip=40000"
           "Bearer tok";
         EvAuthPost "https://authenticate.constellation1apis.com/oauth2/token"
           "Basic id:secret" "client_id=id&grant_type=client_credentials" ].
Proof. vm_compute. split; reflexivity. Qed.

Lemma parameters_only_for_set_fields_witness :
  api.buildQueryParams (query "Media" 0) !! "$skip" = None
  /\ api.buildQueryParams (query "Media" 0) !! "$top" = None
  /\ dom (api.buildQueryParams (query "Media" 0)) = {[ "$ignorenulls" ]}.
Proof.
  destruct (parameters_only_for_set_fields (query "Media" 0))
    as (_ & _ & _ & _ & _ & _ & _ & _ & Htop & Hskip & _).
  split; [exact (Hskip eq_refl) |]. split; [exact (Htop eq_refl) |].
  vm_compute. reflexivity.
Defined.

Lemma expand_is_dropped_witness :
  exists p,
    tools.parseArguments
      (args [("entity", VString "Property"); ("expand", VString "  Media  ")])
    = Ok p
    /\ api.Expand p = "Media"
    /\ api.buildQueryParams p !! "$expand" = None.
Proof.
  destruct (expand_is_dropped
              (args [("entity", VString "Property"); ("expand", VString "  Media  ")])
              "Property" "  Media  " eq_refl eq_refl)
    as (p & Hp & He & Hq & _).
  exists p. split; [exact Hp |]. split; [| exact Hq].
  rewrite He. vm_compute. reflexivity.
Defined.

(** ** The top and skip arguments *)

(** Without [top] the request carries no top; [top = 5000] is accepted
    and goes out as it is. *)
Lemma top_neither_defaulted_nor_bounded :
  (exists p,
      tools.parseArguments (args [("entity", VString "Property")]) = Ok p
      /\ api.Top p = 0
      /\ api.buildQueryParams p !! "$top" = None)
  /\ (exists p,
        tools.parseArguments
          (args [("entity", VString "Property"); ("top", VFloat64 float5000)])
        = Ok p
        /\ api.Top p = 5000
        /\ api.validate p = None
        /\ api.buildQueryParams p !! "$top" = Some ["5000"]).
Proof.
  split; eexists; (split; [vm_compute; reflexivity |]); repeat split;
    vm_compute; reflexivity.
Qed.

Lemma top_forwarded_unchecked_witness :
  exists p,
    tools.parseArguments
      (args [("entity", VString "Property"); ("top", VString "5000")])
    = Ok p
    /\ api.Top p = 5000
    /\ api.buildQueryParams p !! "$top" = Some ["5000"].
Proof.
  destruct (tools.parseArguments
              (args [("entity", VString "Property"); ("top", VString "5000")]))
    as [p | e] eqn:Hp; [| vm_compute in Hp; discriminate].
  exists p. split; [reflexivity |].
  destruct (top_forwarded_unchecked _ p Hp) as (_ & Hgiven & _).
  destruct (Hgiven (VString "5000") 5000 eq_refl eq_refl) as [Ht Hq].
  split; [exact Ht | exact Hq].
Defined.

Lemma numeric_arguments_coerced_witness :
  (exists p,
      tools.parseArguments
        (<["top" := VFloat64 float25]> (args [("entity", VString "Property")]))
      = Ok p /\ api.Top p = 25)
  /\ (exists p,
        tools.parseArguments
          (<["top" := VString "25"]> (args [("entity", VString "Property")]))
        = Ok p /\ api.Top p = 25)
  /\ (exists p,
        tools.parseArguments
          (<["top" := VString "many"]> (args [("entity", VString "Property")]))
        = Ok p /\ api.Top p = 0).
Proof.
  destruct (numeric_arguments_coerced (args [("entity", VString "Property")])
              "Property" "top" eq_refl (or_introl eq_refl)) as [Hnum Hnon].
  split; [| split].
  - apply (Hnum 25 (VFloat64 float25)); reflexivity.
  - apply (Hnum 25 (VString "25")); reflexivity.
  - apply Hnon. reflexivity.
Defined.

(** A floating-point number with a fraction is truncated toward zero, a
    string with an explicit plus sign is read, a string with a fraction
    is not. *)
Example fractional_and_signed_inputs :
  tools.coerceInt (VFloat64 (S754_finite false 7 (-1))) = Some 3
  /\ tools.coerceInt (VString "+7") = Some 7
  /\ tools.coerceInt (VString "3.5") = None.
Proof. split; [| split]; vm_compute; reflexivity. Qed.

(** ** Initialization *)

Lemma initialize_succeeds_credentials_checked_on_use_witness :
  exists s' w',
    main.handleInitialize ∅ main.NewMCPServer (initializeMessage VNil) world0
    = ((s', main.resultMessage (main.ID (initializeMessage VNil))
              (main.InitializeResult "2024-11-05" "constellation1-mcp-server" "1.0.0")),
       w').
Proof.
  destruct (initialize_succeeds_credentials_checked_on_use
              ∅ main.NewMCPServer (initializeMessage VNil) world0)
    as (s' & w' & _ & Hinit & _).
  now exists s', w'.
Defined.

(** No credentials anywhere: [initialize] answers with its result, and the
    query tool answers with the configuration error. *)
Example credentials_missing_on_use :
  let '((s1, m1), w1) :=
    main.HandleMessage ∅ (main.startServer noFlags ∅) (initializeMessage VNil) world0 in
  let call :=
    {| main.JSONRPC := "2.0"; main.ID := VFloat64 (S754_finite false 2 0);
       main.Method := "tools/call";
       main.Params :=
         VMap (list_to_map
                 [ ("name", VString "reso_query");
                   ("arguments", VMap (list_to_map [("entity", VString "Property")])) ]);
       main.Result := None; main.Error := None |} in
  let '((s2, m2), w2) := main.HandleMessage ∅ s1 call w1 in
  main.Error m1 = None
  /\ main.Error m2 = None
  /\ main.Result m2
     = Some (main.CallToolResult
               (tools.errorResult
                  "Configuration error: client_id is required - please configure in MCP settings"))
  /\ w_trace w2 = w_trace w1.
Proof. vm_compute. repeat split; reflexivity. Qed.

(** ** Further properties, on concrete inputs *)


Lemma load_from_env_overrides_set_fields_witness :
  let env : gmap string string :=
    list_to_map [("RESO_BASE_URL", "https://example.test/odata"); ("CLIENT_ID", "generic")] in
  config.LoadFromEnv env config.DefaultConfig
  = {| config.ClientID := ""; config.ClientSecret := "";
       config.AuthURL := config.AuthURL config.DefaultConfig;
       config.BaseURL := "https://example.test/odata" |}.
Proof.
  intros env.
  rewrite (proj1 (load_from_env_overrides_set_fields env config.DefaultConfig "" "")).
  reflexivity.
Defined.

Lemma load_from_settings_sets_only_credentials_witness :
  let m := args [("client_id", VString ""); ("client_secret", VString "secret");
                 ("auth_url", VString "https://example.test/token")] in
  config.LoadFromMCPSettings config.DefaultConfig (Some m)
  = ({| config.ClientID := ""; config.ClientSecret := "secret";
        config.AuthURL := config.AuthURL config.DefaultConfig;
        config.BaseURL := config.BaseURL config.DefaultConfig |}, None).
Proof.
  intros m.
  destruct (proj2 (load_from_settings_sets_only_credentials config.DefaultConfig m))
    as (Herr & Hid & Hsecret & Hauth & Hbase & _).
  destruct (config.LoadFromMCPSettings config.DefaultConfig (Some m)) as [c' err].
  cbn [fst snd] in *. subst err. f_equal.
  destruct c' as [i s a b]. cbn [config.ClientID config.ClientSecret config.AuthURL
                                 config.BaseURL] in *.
  now rewrite Hid, Hsecret, Hauth, Hbase.
Defined.



Lemma query_success_means_validated_200_witness :
  exists c' resp w',
    api.Query client0 (query "Property" 0) world0 = ((c', Ok resp), w')
    /\ api.RequestParams resp = query "Property" 0
    /\ api.RequestTime resp = 1000
    /\ api.RequestTime resp + api.ResponseTime resp = 1000.
Proof.
  destruct (api.Query client0 (query "Property" 0) world0) as [[c' [resp | e]] w'] eqn:Hq;
    [| vm_compute in Hq; discriminate].
  exists c', resp, w'. split; [reflexivity |].
  destruct (query_success_means_validated_200 _ _ _ _ _ _ Hq)
    as (_ & _ & Hp & Ht & Hr & _).
  split; [exact Hp |]. split; [exact Ht |].
  rewrite Hr. reflexivity.
Defined.


Lemma token_request_format_witness :
  auth.authRequest (auth.NewOAuthClient "a b&c" "secret" "https://example.test/token")
  = EvAuthPost "https://example.test/token" "Basic a b&c:secret"
      "client_id=a+b%26c&grant_type=client_credentials".
Proof.
  rewrite (proj1 (token_request_format "a b&c" "secret" "https://example.test/token"
                    world0)).
  reflexivity.
Defined.

Lemma clear_token_forces_refresh_witness :
  auth.IsTokenValid (auth.storeToken oauth0 token0 1000) (worldAt 2000)
  = (true, snd (Now (worldAt 2000)))
  /\ auth.IsTokenValid (auth.ClearToken (auth.storeToken oauth0 token0 1000)) (worldAt 2000)
     = (false, worldAt 2000)
  /\ w_trace (snd (auth.GetToken (auth.ClearToken (auth.storeToken oauth0 token0 1000))
                     (worldAt 2000)))
     = [auth.authRequest oauth0].
Proof.
  destruct (clear_token_forces_refresh (auth.storeToken oauth0 token0 1000)
              (worldAt 2000) "" "" "") as (_ & Hvalid & Hsend & _).
  split; [reflexivity |]. split; [exact Hvalid |]. now apply Hsend.
Defined.

Lemma get_token_sends_at_most_one_request_witness :
  (authExchanges (snd (auth.GetToken oauth0 world0)) <= 1)%nat
  /\ auth.clientSecret (fst (fst (auth.GetToken oauth0 world0))) = "secret".
Proof.
  destruct (get_token_sends_at_most_one_request oauth0 world0)
    as (_ & Hone & _ & _ & _ & Hsecret & _).
  split; [exact Hone | exact Hsecret].
Defined.

Lemma catalog_and_skip_limits_agree_witness :
  api.skipLimits !! "Media" <> None
  /\ api.GetEntitySkipLimit "media" = 50000.
Proof.
  destruct (catalog_and_skip_limits_agree "Media") as (Hvalid & _).
  destruct (catalog_and_skip_limits_agree "media") as (_ & Hdefault & _).
  split; [now apply Hvalid | now apply Hdefault].
Defined.

Lemma query_url_lists_parameters_in_key_order_witness :
  api.queryURL client0
    {| api.Entity := "Property"; api.Select := "ListingKey,ListPrice";
       api.Filter := "City eq 'Austin'"; api.Top := 5; api.Skip := 0;
       api.OrderBy := ""; api.Expand := "Media"; api.IgnoreNulls := true;
       api.IgnoreCase := false |}
  = "https://listings.cdatalabs.com/odata/Property?%24filter=City+eq+%27Austin%27&%24ignorenulls=true&%24select=ListingKey%2CListPrice&%24top=5".
Proof.
  rewrite query_url_lists_parameters_in_key_order. vm_compute. reflexivity.
Defined.

Lemma metadata_is_the_raw_200_body_witness :
  exists c' w',
    api.GetMetadata client0 gzipWorld = ((c', Ok "tok"), w')
    /\ exists tok rest,
         w_trace w'
         = EvApiGet "https://listings.cdatalabs.com/odata/$metadata" ("Bearer " +:+ tok)
             :: rest
         /\ w_http gzipWorld (length rest) = Response 200 "gzip" "tok".
Proof.
  destruct (api.GetMetadata client0 gzipWorld) as [[c' [body | e]] w'] eqn:Hm;
    [| vm_compute in Hm; discriminate].
  assert (Hb : body = "tok") by (vm_compute in Hm; now injection Hm as _ <- _).
  subst body. exists c', w'. split; [reflexivity |].
  destruct (proj1 (metadata_is_the_raw_200_body client0 gzipWorld) _ _ _ Hm)
    as (tok & enc & rest & Ht & Ho).
  exists tok, rest. split; [exact Ht |]. rewrite Ho.
  vm_compute in Ho. now injection Ho as <-.
Defined.

Lemma test_connection_sends_one_property_query_witness :
  exists c' w' tok rest,
    api.TestConnection client0 world0 = ((c', None), w')
    /\ w_trace w'
       = EvApiGet "https://listings.cdatalabs.com/odata/Property?%24ignorenulls=true&%24top=1"
           ("Bearer " +:+ tok) :: rest.
Proof.
  destruct (api.TestConnection client0 world0) as [[c' [e |]] w'] eqn:Ht;
    [vm_compute in Ht; discriminate |].
  destruct (proj1 (proj2 (proj2 (test_connection_sends_one_property_query client0 world0)))
              _ _ Ht) as (tok & enc & raw & rest & Htrace & _).
  exists c', w', tok, rest. split; [reflexivity | exact Htrace].
Defined.

Lemma extractEnumType_total_and_values_witness :
  metadata.extractEnumType "Collection(org.reso.metadata.enums.Appliances)"
  = Some "Appliances"
  /\ metadata.extractEnumType "Collection(Edm.String)" = Some "Edm.String"
  /\ metadata.extractEnumType "Edm.String" = Some "".
Proof.
  destruct (extractEnumType_total_and_values "Edm.String" "Appliances" "Edm.String")
    as (_ & _ & Henum & Hprim & Hnone).
  split; [exact Henum |]. split; [now apply Hprim | now apply Hnone].
Defined.

Lemma formatType_collection_slice_witness :
  metadata.formatType "Collection(Edm.String)" = metadata.Returns "Collection of String"
  /\ metadata.formatType "Collection(Edm.String" = metadata.Returns "Collection of Strin"
  /\ metadata.formatType "Collection(Collection()" = metadata.Panics.
Proof.
  destruct (formatType_collection_slice "" "Edm.String" ")") as (_ & _ & Hclosed & _).
  destruct (formatType_collection_slice "" "Edm.Strin" "g") as (_ & _ & Hopen & _).
  destruct (formatType_collection_slice "" "Collection(" ")") as (_ & Hpanic & Hnested & _).
  split; [exact Hclosed |]. split; [exact Hopen |].
  change ("Collection(" +:+ "Collection(" +:+ ")") with "Collection(Collection()" in Hnested.
  now rewrite Hnested, Hpanic.
Defined.

Lemma identification_is_key_or_id_witness :
  metadata.categorizeField "ListAgentMlsId" = "Identification"
  /\ metadata.categorizeField "Provider" = "Identification"
  /\ (metadata.categorizeField "LotSizeArea" = "Identification"
      \/ metadata.categorizeField "LotSizeArea" = "Address & Location").
Proof.
  split; [| split].
  - apply (proj1 (identification_is_key_or_id "ListAgentMlsId")). now right.
  - apply (proj1 (identification_is_key_or_id "Provider")). now right.
  - now apply (proj1 (proj2 (identification_is_key_or_id "LotSizeArea"))).
Defined.

Lemma fields_by_category_sorted_any_order_witness :
  metadata.fieldsByCategory ["ListPrice"; "ListingKey"; "City"; "ClosePrice"; "ListingId"]
  = metadata.fieldsByCategory ["City"; "ListingId"; "ClosePrice"; "ListingKey"; "ListPrice"]
  /\ metadata.fieldsByCategory ["ListPrice"; "ListingKey"; "City"; "ClosePrice"; "ListingId"]
     !! "Pricing & Financial" = Some ["ClosePrice"; "ListPrice"]
  /\ metadata.keyFields ["ListPrice"; "ListingKey"; "City"; "ClosePrice"; "ListingId"]
     = ["ListingId"; "ListingKey"].
Proof.
  destruct (fields_by_category_sorted_any_order
              ["ListPrice"; "ListingKey"; "City"; "ClosePrice"; "ListingId"]
              ["City"; "ListingId"; "ClosePrice"; "ListingKey"; "ListPrice"]
              "Pricing & Financial") as (Hlookup & Hperm & Hkeys).
  split; [| split].
  - apply Hperm.
    apply (bool_decide_unpack
             (["ListPrice"; "ListingKey"; "City"; "ClosePrice"; "ListingId"]
              ≡ₚ ["City"; "ListingId"; "ClosePrice"; "ListingKey"; "ListPrice"])).
    vm_compute. exact I.
  - rewrite Hlookup. vm_compute. reflexivity.
  - rewrite Hkeys. vm_compute. reflexivity.
Defined.

Lemma execute_reports_the_failed_stage_witness :
  tools.Execute (tools.NewResoQueryTool client0
                   (config.setClientSecret (config.setClientID config.DefaultConfig "id")
                      "secret"))
    (args [("entity", VFloat64 float25)]) world0
  = ((tools.NewResoQueryTool client0
        (config.setClientSecret (config.setClientID config.DefaultConfig "id") "secret"),
      tools.errorResult "Error parsing arguments: entity is required"), world0).
Proof.
  apply (proj2 (proj2 (proj2 (execute_reports_the_failed_stage _ _ _))));
    reflexivity.
Defined.

Lemma ignorenulls_is_on_by_default_witness :
  exists p,
    tools.parseArguments (args [("entity", VString "Property");
                                ("ignorenulls", VString "false")]) = Ok p
    /\ api.buildQueryParams p !! "$ignorenulls" = Some ["true"]
    /\ api.buildQueryParams p !! "$ignorecase" = None.
Proof.
  destruct (proj2 (ignorenulls_is_on_by_default
                     (args [("entity", VString "Property");
                            ("ignorenulls", VString "false")]))
              "Property" eq_refl) as (p & Hp & _ & Hnulls & Hcase & _).
  exists p. split; [exact Hp |]. split; [exact Hnulls | exact Hcase].
Defined.

Lemma blank_text_argument_sends_no_parameter_witness :
  tools.parseArguments (args [("entity", VString "Property"); ("filter", VString "  ")])
  = tools.parseArguments (args [("entity", VString "Property")]).
Proof.
  destruct (blank_text_argument_sends_no_parameter
              (args [("entity", VString "Property"); ("filter", VString "  ")])
              "Property" "filter" "  " eq_refl ltac:(right; now left) eq_refl eq_refl)
    as [Hsame _].
  rewrite Hsame. vm_compute. reflexivity.
Defined.

Lemma fetched_metadata_is_cached_witness :
  exists c1 w2,
    tools.NewResoHelpToolWithAPI (Some client0) world0
    = (({| tools.metadataParser := Some "tok" |}, Some c1), w2)
    /\ w_files w2 !! tools.cacheFile = Some "tok"
    /\ tools.NewResoHelpToolWithAPI None w2
       = (({| tools.metadataParser := Some "tok" |}, None), w2).
Proof.
  destruct (api.GetMetadata client0 world0) as [[c1 [doc | e]] w1] eqn:Hm;
    [| vm_compute in Hm; discriminate].
  assert (Hd : doc = "tok") by (vm_compute in Hm; now injection Hm as _ <- _).
  subst doc.
  destruct (proj2 (fetched_metadata_is_cached client0 world0) c1 w1 "tok")
    as (w2 & Hnew & Hfiles & _ & Hagain);
    [reflexivity | exact Hm | reflexivity | reflexivity |].
  exists c1, w2. split; [exact Hnew |]. split; [| apply Hagain].
  rewrite Hfiles. apply lookup_insert_eq.
Defined.


Lemma response_echoes_request_id_witness :
  main.ID (snd (fst (main.HandleMessage ∅ server0 (callQuery "Property") world1)))
  = main.ID (callQuery "Property")
  /\ main.HandleMessage ∅ server0 (request "initialized") world1
     = ((server0, main.emptyMessage), world1).
Proof.
  destruct (response_echoes_request_id ∅ server0 (callQuery "Property") world1)
    as [_ Hcall].
  destruct (response_echoes_request_id ∅ server0 (request "initialized") world1)
    as [Hnote _].
  split; [| now apply Hnote].
  destruct Hcall as (_ & Hid & _); [discriminate | exact Hid].
Defined.

Lemma only_initialize_and_tool_calls_change_state_witness :
  main.HandleMessage ∅ server0 (request "ping") world1
  = ((server0, main.errorMessage (VString "ping") (-32601) "Method not found: ping"),
     world1).
Proof.
  apply (proj1 (proj2 (only_initialize_and_tool_calls_change_state
                         ∅ server0 (request "ping") world1))).
  cbn [In request main.Method]. intros Hin.
  repeat (destruct Hin as [Hin | Hin]; [discriminate |]). contradiction.
Defined.

Lemma initialized_server_stays_initialized_witness :
  main.handleToolsList (main.startServer flags0 ∅) (request "tools/list")
  = main.errorMessage (VString "tools/list") (-32603) "Server not initialized"
  /\ main.handleToolsList
       (fst (fst (main.HandleMessage ∅ (main.startServer flags0 ∅)
                    (initializeMessage VNil) world0)))
       (request "tools/list")
     = main.resultMessage (VString "tools/list")
         (main.ListToolsResult ["reso_query"; "reso_help"]).
Proof.
  destruct (initialized_server_stays_initialized flags0 ∅ (main.startServer flags0 ∅)
              (initializeMessage VNil) world0) as (_ & _ & Hready & _).
  destruct (initialized_server_stays_initialized flags0 ∅ (main.startServer flags0 ∅)
              (request "tools/list") world0) as (Hbefore & _).
  destruct (initialized_server_stays_initialized flags0 ∅
              (fst (fst (main.HandleMessage ∅ (main.startServer flags0 ∅)
                           (initializeMessage VNil) world0)))
              (request "tools/list") world0) as (_ & _ & _ & Hafter).
  split; [exact Hbefore |]. apply Hafter. now apply Hready.
Defined.


Lemma initialize_fetches_metadata_unless_cached_witness :
  snd (main.handleInitialize ∅ (main.startServer noFlags ∅) (initializeMessage VNil)
         cachedWorld) = cachedWorld
  /\ exists tok,
       w_trace (snd (main.handleInitialize ∅ (main.startServer noFlags ∅)
                       (initializeMessage VNil) world0))
       = [ EvApiGet "https://listings.cdatalabs.com/odata/$metadata" ("Bearer " +:+ tok);
           EvAuthPost "https://authenticate.constellation1apis.com/oauth2/token"
             "Basic :" "client_id=&grant_type=client_credentials" ].
Proof.
  destruct (initialize_fetches_metadata_unless_cached ∅ (main.startServer noFlags ∅)
              (initializeMessage VNil) cachedWorld) as [Hcached _].
  destruct (initialize_fetches_metadata_unless_cached ∅ (main.startServer noFlags ∅)
              (initializeMessage VNil) world0) as [_ Hfetch].
  split; [apply (Hcached "<edmx/>"); reflexivity |].
  destruct Hfetch as [Hone | [tok Htwo]]; [reflexivity | reflexivity | |].
  - vm_compute in Hone. discriminate.
  - exists tok. rewrite Htwo. vm_compute. reflexivity.
Defined.


Lemma read_loop_answers_each_request_witness :
  main.serve ∅ (main.startServer flags0 ∅) ["   "; "tools/list"] world0
  = main.serve ∅ (main.startServer flags0 ∅) ["tools/list"] world0
  /\ snd (fst (main.serve ∅ (main.startServer flags0 ∅)
                 [ "tools/list"; "   "; "garbage"; "initialized"; " initialize ";
                   "tools/list"; "ping" ]
                 world0))
     = [ "error: Server not initialized"; "result"; "result";
         "error: Method not found: ping" ].
Proof.
  destruct (read_loop_answers_each_request ∅ (main.startServer flags0 ∅) world0
              "   " ["tools/list"] []) as (_ & _ & Hskip & _).
  split; [apply Hskip; now left |].
  vm_compute. reflexivity.
Defined.
